(** * The Marching Database (band.cpp): roster, inventory and eligibility

    A shallow embedding of the console program [band.cpp] and of the SQL
    statements it sends to its SQLite store.  Every menu action of the
    program becomes a function from the database (and the values the
    operator typed) to the new database and the message printed last.

    Modelling conventions.
    - A table is the list of its rows in insertion order (key order for
      the AUTOINCREMENT tables); SQL [NULL] is [None]; TEXT is [string];
      INTEGER is [Z]; REAL is an IEEE binary64 value ([spec_float],
      canonical).  A REAL column keeps a value without fractional part as
      an integer and hands it back as a REAL, so a negative zero written
      to it is read back as [0.0] ([sqlite_real]).
    - Text goes to a statement through [sqlite3_bind_text(.., s.c_str(),
      -1, ..)], which reads the bytes up to the first NUL byte ([c_str]):
      what is stored is the typed text cut there.
    - [ORDER BY] is a stable sort on the keys written in the statement:
      rows with equal keys come out in insertion order here, while SQLite
      lists them in the order of its scan (by key for STUDENTS).  SQL
      leaves that order open and no property below depends on it.
    - The constraints written in the [CREATE TABLE] statements of
      [ensureTables] (PRIMARY KEY, UNIQUE, CHECK, NOT NULL, FOREIGN KEY with
      [PRAGMA foreign_keys = ON]) are evaluated by the statement that
      inserts or updates, as SQLite does; a violated constraint makes
      [sqlite3_step] return [SQLITE_CONSTRAINT] and leaves the table as it
      was.
    - [date('now')] is the parameter [today] of each action.
    - Every statement runs in autocommit mode, so a statement that fails
      leaves no trace.  The program reports a statement that the storage
      layer does not let run (SQLITE_BUSY, SQLITE_FULL on the disk,
      SQLITE_IOERR, SQLITE_NOMEM) and returns with the database as it
      was, in every place but one: [addStudent] does not look at the
      result of its second statement.  There the storage layer is an
      argument of the action ([Storage], [addStudent_on]); everywhere
      else, and in the runs of [reachable], the statements run.
    - The values the operator types are parameters of the actions; the
      prompts, the tables printed before a prompt and the menus are not
      modelled beyond what decides the outcome. *)

From Stdlib Require Import ZArith List String Ascii Bool Lia.
From Stdlib Require Import Permutation Sorted.
From Stdlib Require Import Floats.SpecFloat.
Import ListNotations.
Local Open Scope string_scope.
Local Open Scope list_scope.
Local Open Scope Z_scope.

Set Implicit Arguments.

(** ** Values as the program and SQLite see them *)

(** A C++ [double] / SQLite REAL. *)
Definition double := spec_float.

(** The literals [0.0], [3.0] and [4.0] in binary64. *)
Definition d0_0 : double := S754_zero false.
Definition d3_0 : double := S754_finite false 6755399441055744 (-51).
Definition d4_0 : double := S754_finite false 4503599627370496 (-50).

(** [x >= y] and [x <= y] on doubles (false when either is NaN). *)
Definition double_ge (x y : double) : bool := SFleb y x.
Definition double_le (x y : double) : bool := SFleb x y.

Definition is_nan (x : double) : bool :=
  match x with S754_nan => true | _ => false end.

(** A C++ [int] is 32 bits wide. *)
Definition int_min : Z := - 2 ^ 31.
Definition int_max : Z := 2 ^ 31 - 1.
Definition is_int (x : Z) : bool := (int_min <=? x) && (x <=? int_max).

(** [sqlite3_column_int]: the stored 64-bit integer cut down to an [int]. *)
Definition sqlite3_column_int (v : Z) : Z :=
  (v + 2 ^ 31) mod 2 ^ 32 - 2 ^ 31.

(** SQL [COALESCE(x, d)]. *)
Definition COALESCE {A} (x : option A) (d : A) : A :=
  match x with Some v => v | None => d end.

(** [colText]: a NULL column reads as the empty string. *)
Definition colText (x : option string) : string := COALESCE x "".

(** [s.c_str()] read as a NUL-terminated string, which is what
    [sqlite3_bind_text] with length -1 does: the bytes before the first
    NUL byte. *)
Fixpoint c_str (s : string) : string :=
  match s with
  | EmptyString => EmptyString
  | String c s' =>
      if (N_of_ascii c =? 0)%N then EmptyString else String c (c_str s')
  end.

(** [if (s.empty()) sqlite3_bind_null(..); else sqlite3_bind_text(..,
    s.c_str(), -1, ..)]. *)
Definition bind_text_or_null (s : string) : option string :=
  if (s =? "")%string then None else Some (c_str s).

(** A REAL as a REAL column gives it back: a value without fractional
    part is kept as an integer, which loses the sign of a zero and
    nothing else. *)
Definition sqlite_real (x : double) : double :=
  match x with S754_zero _ => S754_zero false | _ => x end.

Definition is_null {A} (x : option A) : bool :=
  match x with None => true | Some _ => false end.

(** Result codes of [sqlite3_step] for a statement that changes data. *)
Inductive rc := SQLITE_DONE | SQLITE_CONSTRAINT | SQLITE_FULL.

(** The largest ROWID SQLite can hand out. *)
Definition max_rowid : Z := 9223372036854775807.

(** ** Input helpers of the program *)

Definition isspace (c : ascii) : bool :=
  let n := N_of_ascii c in
  ((n =? 32) || ((9 <=? n) && (n <=? 13)))%N.

Fixpoint drop_leading_space (s : string) : string :=
  match s with
  | EmptyString => EmptyString
  | String c s' => if isspace c then drop_leading_space s' else s
  end.

Fixpoint string_rev_onto (s acc : string) : string :=
  match s with
  | EmptyString => acc
  | String c s' => string_rev_onto s' (String c acc)
  end.

Definition string_rev (s : string) : string := string_rev_onto s EmptyString.

(** [trim]: white space removed at both ends. *)
Definition trim (s : string) : string :=
  string_rev (drop_leading_space (string_rev (drop_leading_space s))).

(** [toupper] in the C locale. *)
Definition toupper (c : ascii) : ascii :=
  let n := N_of_ascii c in
  if ((97 <=? n) && (n <=? 122))%N then ascii_of_N (n - 32) else c.

Fixpoint upperCopy (s : string) : string :=
  match s with
  | EmptyString => EmptyString
  | String c s' => String (toupper c) (upperCopy s')
  end.

(** The five sections, as [readSectionValidated] and the CHECK constraints
    list them. *)
Definition allowed : list string :=
  ["WOODWIND"; "BRASS"; "PERCUSSION"; "AUXILIARY"; "DM"].

Definition section_allowed (s : string) : bool :=
  existsb (String.eqb s) allowed.

(** One turn of the loop of [readSectionValidated] on the line typed:
    the section it returns, or [None] when it asks again. *)
Definition readSectionValidated (line : string) : option string :=
  let s := upperCopy (trim line) in
  if section_allowed s then Some s else None.

(** What [readIntInRange], [readDoubleInRange] and [readBool01] let
    through. *)
Definition readIntInRange_accepts (lo hi x : Z) : bool :=
  is_int x && (lo <=? x) && (x <=? hi).
Definition readDoubleInRange_accepts (lo hi x : double) : bool :=
  double_ge x lo && double_le x hi.
Definition readBool01_accepts (x : Z) : bool := (x =? 0) || (x =? 1).

(** ** Tables *)

Module STUDENTS.
Record row := mk {
  STUDENT_ID : Z;
  FNAME : string;
  LNAME : string;
  CLASSIFICATION : option string;
  SECTION : string;
  SHIRT_SIZE : option string;
  SHOE_SIZE : option string
}.
End STUDENTS.

Module COMPLIANCE.
Record row := mk {
  STUDENT_ID : Z;
  CREDIT_HOURS : Z;
  GPA : double;
  DUES_PAID : Z;
  LAST_VERIFIED_DATE : option string
}.
End COMPLIANCE.

Module INSTRUMENT_TYPES.
Record row := mk {
  TYPE_ID : Z;
  TYPE_NAME : string;
  SECTION : string
}.
End INSTRUMENT_TYPES.

Module SECTION_LEADERS.
Record row := mk {
  SECTION : string;
  LEADER_STUDENT_ID : Z
}.
End SECTION_LEADERS.

(** The three inventory tables share the key, the condition notes and the
    checkout slot; [D] is what is particular to the kind. *)
Module Item.
Record row (D : Type) := mk {
  ITEM_ID : Z;
  DESCR : D;
  CONDITION_NOTES : option string;
  CHECKED_OUT_TO : option Z;
  CHECKED_OUT_DATE : option string
}.

(** [seq] is the AUTOINCREMENT counter of the table: the largest ROWID
    it ever held. *)
Record table (D : Type) := mkTable {
  rows : list (row D);
  seq : Z
}.
End Item.
Import Item.

(** INSTRUMENTS: TYPE_ID, SERIAL. *)
Record InstrumentDescr := mkInstrument {
  TYPE_ID : Z;
  SERIAL : option string
}.

(** UNIFORMS: COAT_SIZE, PANT_SIZE, COAT_NUMBER, PANT_NUMBER. *)
Record UniformDescr := mkUniform {
  COAT_SIZE : option string;
  PANT_SIZE : option string;
  COAT_NUMBER : option string;
  PANT_NUMBER : option string
}.

(** SHAKOS: SIZE. *)
Record ShakoDescr := mkShako {
  SIZE : option string
}.

Record DB := mkDB {
  students : list STUDENTS.row;
  compliance : list COMPLIANCE.row;
  instrument_types : list INSTRUMENT_TYPES.row;
  instruments : table InstrumentDescr;
  uniforms : table UniformDescr;
  shakos : table ShakoDescr;
  section_leaders : list SECTION_LEADERS.row
}.

Definition set_students (db : DB) v :=
  mkDB v (compliance db) (instrument_types db) (instruments db)
       (uniforms db) (shakos db) (section_leaders db).
Definition set_compliance (db : DB) v :=
  mkDB (students db) v (instrument_types db) (instruments db)
       (uniforms db) (shakos db) (section_leaders db).
Definition set_instruments (db : DB) v :=
  mkDB (students db) (compliance db) (instrument_types db) v
       (uniforms db) (shakos db) (section_leaders db).
Definition set_uniforms (db : DB) v :=
  mkDB (students db) (compliance db) (instrument_types db) (instruments db)
       v (shakos db) (section_leaders db).
Definition set_shakos (db : DB) v :=
  mkDB (students db) (compliance db) (instrument_types db) (instruments db)
       (uniforms db) v (section_leaders db).
Definition set_section_leaders (db : DB) v :=
  mkDB (students db) (compliance db) (instrument_types db) (instruments db)
       (uniforms db) (shakos db) v.

(** ** The schema after [ensureTables] on a new database file *)

(** The nine rows of [INSERT OR IGNORE INTO INSTRUMENT_TYPES]; the table is
    AUTOINCREMENT and empty before, so the keys are 1 to 9 in the order
    written. *)
Definition seeded_types : list INSTRUMENT_TYPES.row :=
  [ INSTRUMENT_TYPES.mk 1 "PICCOLO" "WOODWIND";
    INSTRUMENT_TYPES.mk 2 "CLARINET" "WOODWIND";
    INSTRUMENT_TYPES.mk 3 "SAXOPHONE" "WOODWIND";
    INSTRUMENT_TYPES.mk 4 "TRUMPET" "BRASS";
    INSTRUMENT_TYPES.mk 5 "TROMBONE" "BRASS";
    INSTRUMENT_TYPES.mk 6 "SOUSAPHONE" "BRASS";
    INSTRUMENT_TYPES.mk 7 "MELLOPHONE" "BRASS";
    INSTRUMENT_TYPES.mk 8 "PERCUSSION" "PERCUSSION";
    INSTRUMENT_TYPES.mk 9 "COLOR_GUARD" "AUXILIARY" ].

Definition ensureTables : DB :=
  mkDB [] [] seeded_types (mkTable [] 0) (mkTable [] 0) (mkTable [] 0) [].

(** ** Statements on an inventory table *)

Section ItemStatements.
Variable D : Type.
Implicit Types (t : table D) (r : row D) (l : list (row D)).

(** [CHECKED_OUT_TO IS NULL] and [CHECKED_OUT_TO IS NOT NULL]. *)
Definition available r : bool := is_null (CHECKED_OUT_TO r).
Definition checked_out r : bool := negb (is_null (CHECKED_OUT_TO r)).

Definition holds (sid : Z) r : bool :=
  match CHECKED_OUT_TO r with Some s => s =? sid | None => false end.

(** Would a second [CHECKED_OUT_TO = sid] break [CHECKED_OUT_TO INTEGER
    UNIQUE]? *)
Definition held_by (sid : Z) l : bool := existsb (holds sid) l.

Definition has_id (iid : Z) r : bool := ITEM_ID r =? iid.

Definition find_item (iid : Z) l : option (row D) := find (has_id iid) l.

(** [INSERT INTO <table> (<descriptor>, CONDITION_NOTES, CHECKED_OUT_TO,
    CHECKED_OUT_DATE)]: the key is the AUTOINCREMENT counter plus one;
    [unique_ok] and [fk_ok] are the table's UNIQUE and FOREIGN KEY
    constraints evaluated on the new row. *)
Definition insert_item (unique_ok fk_ok : bool) t (d : D)
    (notes : option string) (co : option Z) (date : option string)
    : rc * table D :=
  if max_rowid <=? seq t then (SQLITE_FULL, t)
  else if negb unique_ok || negb fk_ok then (SQLITE_CONSTRAINT, t)
  else (SQLITE_DONE,
        mkTable (rows t ++ [Item.mk (seq t + 1) d notes co date])
                (seq t + 1)).

Definition set_slot r (co : option Z) (date : option string) : row D :=
  Item.mk (ITEM_ID r) (DESCR r) (CONDITION_NOTES r) co date.

(** [UPDATE <table> SET CHECKED_OUT_TO=?, CHECKED_OUT_DATE=date('now')
    WHERE <ID>=? AND CHECKED_OUT_TO IS NULL]; the third component is
    [sqlite3_changes].  UNIQUE is checked row by row: the student must
    not be in another slot, and a second row set to the same student
    would meet the first. *)
Definition update_checkout (student_exists : Z -> bool) t
    (sid iid : Z) (today : string) : rc * table D * nat :=
  let hit r := has_id iid r && available r in
  let changes := List.length (filter hit (rows t)) in
  if (changes =? 0)%nat then (SQLITE_DONE, t, 0%nat)
  else if held_by sid (rows t) || negb (student_exists sid)
          || (1 <? changes)%nat
  then (SQLITE_CONSTRAINT, t, 0%nat)
  else (SQLITE_DONE,
        mkTable (map (fun r => if hit r
                               then set_slot r (Some sid) (Some today)
                               else r) (rows t))
                (seq t),
        changes).

(** [UPDATE <table> SET CHECKED_OUT_TO=NULL, CHECKED_OUT_DATE=NULL
    WHERE <ID>=?]. *)
Definition update_return t (iid : Z) : rc * table D * nat :=
  (SQLITE_DONE,
   mkTable (map (fun r => if has_id iid r then set_slot r None None else r)
                (rows t))
           (seq t),
   List.length (filter (has_id iid) (rows t))).
End ItemStatements.

(** ** Statements on the roster *)

Definition studentExists (db : DB) (studentId : Z) : bool :=
  existsb (fun s => STUDENTS.STUDENT_ID s =? studentId) (students db).

Definition getStudentSection (db : DB) (studentId : Z) : option string :=
  option_map STUDENTS.SECTION
    (find (fun s => STUDENTS.STUDENT_ID s =? studentId) (students db)).

(** [INSERT INTO STUDENTS (...) VALUES (?, ?, ?, ?, ?, ?, ?)]. *)
Definition insert_student (db : DB) (s : STUDENTS.row) : rc * DB :=
  if studentExists db (STUDENTS.STUDENT_ID s) then (SQLITE_CONSTRAINT, db)
  else if negb (section_allowed (STUDENTS.SECTION s))
  then (SQLITE_CONSTRAINT, db)
  else (SQLITE_DONE, set_students db (students db ++ [s])).

Definition compliance_key (id : Z) (c : COMPLIANCE.row) : bool :=
  COMPLIANCE.STUDENT_ID c =? id.

(** [INSERT OR IGNORE INTO COMPLIANCE (...) VALUES (?, 0, 0.0, 0,
    date('now'))]; a row already there under the key is kept.  The program
    does not look at the result code. *)
Definition insert_or_ignore_compliance (today : string) (id : Z) (db : DB)
    : DB :=
  if existsb (compliance_key id) (compliance db) then db
  else if negb (studentExists db id) then db
  else set_compliance db
         (compliance db ++ [COMPLIANCE.mk id 0 d0_0 0 (Some today)]).

(** [INSERT INTO COMPLIANCE (...) VALUES (?, ?, ?, ?, date('now'))
    ON CONFLICT(STUDENT_ID) DO UPDATE SET ...].  A NaN is bound as NULL
    and meets [GPA REAL NOT NULL]. *)
Definition upsert_compliance (today : string) (id hours : Z) (gpa : double)
    (dues : Z) (db : DB) : rc * DB :=
  if is_nan gpa || (hours <? 0) || negb ((dues =? 0) || (dues =? 1))
  then (SQLITE_CONSTRAINT, db)
  else if existsb (compliance_key id) (compliance db)
  then (SQLITE_DONE,
        set_compliance db
          (map (fun c => if compliance_key id c
                         then COMPLIANCE.mk (COMPLIANCE.STUDENT_ID c)
                                hours (sqlite_real gpa) dues (Some today)
                         else c) (compliance db)))
  else if negb (studentExists db id) then (SQLITE_CONSTRAINT, db)
  else (SQLITE_DONE,
        set_compliance db
          (compliance db
           ++ [COMPLIANCE.mk id hours (sqlite_real gpa) dues (Some today)])).

Definition leader_key (section : string) (l : SECTION_LEADERS.row) : bool :=
  (SECTION_LEADERS.SECTION l =? section)%string.

(** [INSERT INTO SECTION_LEADERS (SECTION, LEADER_STUDENT_ID) VALUES (?, ?)
    ON CONFLICT(SECTION) DO UPDATE SET LEADER_STUDENT_ID=...]. *)
Definition upsert_section_leader (section : string) (leaderId : Z) (db : DB)
    : rc * DB :=
  if negb (section_allowed section) || negb (studentExists db leaderId)
  then (SQLITE_CONSTRAINT, db)
  else if existsb (leader_key section) (section_leaders db)
  then (SQLITE_DONE,
        set_section_leaders db
          (map (fun l => if leader_key section l
                         then SECTION_LEADERS.mk (SECTION_LEADERS.SECTION l)
                                leaderId
                         else l) (section_leaders db)))
  else (SQLITE_DONE,
        set_section_leaders db
          (section_leaders db ++ [SECTION_LEADERS.mk section leaderId])).

(** ** Statements on the inventory *)

Definition has_serial (s : string) (r : row InstrumentDescr) : bool :=
  match SERIAL (DESCR r) with Some s' => (s' =? s)%string | None => false end.

Definition type_key (typeId : Z) (ty : INSTRUMENT_TYPES.row) : bool :=
  INSTRUMENT_TYPES.TYPE_ID ty =? typeId.

(** [INSERT INTO INSTRUMENTS (TYPE_ID, SERIAL, CONDITION_NOTES) VALUES
    (?, ?, ?)] under [SERIAL TEXT UNIQUE] and the foreign key on TYPE_ID. *)
Definition insert_instrument (typeId : Z) (serial notes : option string)
    (db : DB) : rc * DB :=
  let unique_ok :=
    match serial with
    | None => true
    | Some s => negb (existsb (has_serial s) (rows (instruments db)))
    end in
  let fk_ok := existsb (type_key typeId) (instrument_types db) in
  let (c, t) := insert_item unique_ok fk_ok (instruments db)
                  (mkInstrument typeId serial) notes None None in
  (c, set_instruments db t).

(** [INSERT INTO UNIFORMS (COAT_SIZE, PANT_SIZE, COAT_NUMBER, PANT_NUMBER,
    CONDITION_NOTES, CHECKED_OUT_TO, CHECKED_OUT_DATE) VALUES (?, ?, ?, ?,
    ?, ?, date('now'))]. *)
Definition insert_uniform (today : string) (d : UniformDescr)
    (notes : option string) (studentId : Z) (db : DB) : rc * DB :=
  let (c, t) := insert_item (negb (held_by studentId (rows (uniforms db))))
                  (studentExists db studentId) (uniforms db)
                  d notes (Some studentId) (Some today) in
  (c, set_uniforms db t).

(** [INSERT INTO SHAKOS (SIZE, CONDITION_NOTES, CHECKED_OUT_TO,
    CHECKED_OUT_DATE) VALUES (?, ?, ?, date('now'))]. *)
Definition insert_shako (today : string) (d : ShakoDescr)
    (notes : option string) (studentId : Z) (db : DB) : rc * DB :=
  let (c, t) := insert_item (negb (held_by studentId (rows (shakos db))))
                  (studentExists db studentId) (shakos db)
                  d notes (Some studentId) (Some today) in
  (c, set_shakos db t).

(** ** Queries *)

(** [ORDER BY k1, k2, ...]: the first key that differs decides. *)
Definition then_by (c1 c2 : comparison) : comparison :=
  match c1 with Eq => c2 | _ => c1 end.

Section OrderBy.
Variable A : Type.
Variable cmp : A -> A -> comparison.

Definition precedes (a b : A) : bool :=
  match cmp a b with Gt => false | _ => true end.

Fixpoint insert_row (x : A) (l : list A) : list A :=
  match l with
  | [] => [x]
  | y :: l' => if precedes x y then x :: l else y :: insert_row x l'
  end.

(** The rows of [l] sorted by [cmp]; rows that compare equal keep the
    order of [l]. *)
Definition order_by (l : list A) : list A := fold_right insert_row [] l.
End OrderBy.

(** [any]: did the listing loop see a row? *)
Definition any {A} (l : list A) : bool :=
  match l with [] => false | _ :: _ => true end.

(** *** Roster queries *)

(** [FROM STUDENTS s LEFT JOIN COMPLIANCE c ON c.STUDENT_ID=s.STUDENT_ID];
    the join is on the key of COMPLIANCE. *)
Definition joined := (STUDENTS.row * option COMPLIANCE.row)%type.

Definition left_join_compliance (db : DB) : list joined :=
  map (fun s => (s, find (compliance_key (STUDENTS.STUDENT_ID s))
                         (compliance db)))
      (students db).

Definition c_CREDIT_HOURS (j : joined) : Z :=
  COALESCE (option_map COMPLIANCE.CREDIT_HOURS (snd j)) 0.
Definition c_GPA (j : joined) : double :=
  COALESCE (option_map COMPLIANCE.GPA (snd j)) d0_0.
Definition c_DUES_PAID (j : joined) : Z :=
  COALESCE (option_map COMPLIANCE.DUES_PAID (snd j)) 0.
Definition c_LAST_VERIFIED_DATE (j : joined) : string :=
  COALESCE (match snd j with
            | Some c => COMPLIANCE.LAST_VERIFIED_DATE c
            | None => None
            end) "".

(** The SQL columns OK_HRS, OK_GPA, OK_DUES and ELIGIBLE / ELIG. *)
Definition OK_HRS (j : joined) : Z := Z.b2z (c_CREDIT_HOURS j >=? 12).
Definition OK_GPA (j : joined) : Z := Z.b2z (double_ge (c_GPA j) d3_0).
Definition OK_DUES (j : joined) : Z := Z.b2z (c_DUES_PAID j =? 1).
Definition ELIGIBLE (j : joined) : Z :=
  Z.b2z ((c_CREDIT_HOURS j >=? 12) && double_ge (c_GPA j) d3_0
         && (c_DUES_PAID j =? 1)).

(** [ORDER BY s.SECTION, s.LNAME, s.FNAME]. *)
Definition by_section_name (a b : joined) : comparison :=
  then_by (String.compare (STUDENTS.SECTION (fst a)) (STUDENTS.SECTION (fst b)))
 (then_by (String.compare (STUDENTS.LNAME (fst a)) (STUDENTS.LNAME (fst b)))
          (String.compare (STUDENTS.FNAME (fst a)) (STUDENTS.FNAME (fst b)))).

(** [ORDER BY ELIG ASC, s.SECTION, s.LNAME, s.FNAME]. *)
Definition by_elig_section_name (a b : joined) : comparison :=
  then_by (Z.compare (ELIGIBLE a) (ELIGIBLE b)) (by_section_name a b).

(** One printed line of [viewAllStudents]: the local variables of the
    loop body. *)
Record StudentLine := mkStudentLine {
  sl_id : Z;
  sl_name : string;
  sl_classif : string;
  sl_section : string;
  sl_shirt : string;
  sl_shoe : string;
  sl_hrs : Z;
  sl_gpa : double;
  sl_dues : Z;
  sl_elig : Z
}.

Definition full_name (s : STUDENTS.row) : string :=
  (STUDENTS.FNAME s ++ " " ++ STUDENTS.LNAME s)%string.

Definition student_line (j : joined) : StudentLine :=
  let s := fst j in
  mkStudentLine
    (sqlite3_column_int (STUDENTS.STUDENT_ID s))
    (full_name s)
    (colText (STUDENTS.CLASSIFICATION s))
    (STUDENTS.SECTION s)
    (COALESCE (STUDENTS.SHIRT_SIZE s) "")
    (COALESCE (STUDENTS.SHOE_SIZE s) "")
    (sqlite3_column_int (c_CREDIT_HOURS j))
    (c_GPA j)
    (sqlite3_column_int (c_DUES_PAID j))
    (sqlite3_column_int (ELIGIBLE j)).

Definition viewAllStudents (db : DB) : list StudentLine :=
  map student_line (order_by by_section_name (left_join_compliance db)).

(** The profile [findStudentById] prints. *)
Record Profile := mkProfile {
  p_id : Z;
  p_name : string;
  p_classif : string;
  p_section : string;
  p_shirt : string;
  p_shoe : string;
  p_hrs : Z;
  p_gpa : double;
  p_dues : Z;
  p_eligible : bool;
  p_verified : string
}.

Definition profile (j : joined) : Profile :=
  let s := fst j in
  let hrs := sqlite3_column_int (c_CREDIT_HOURS j) in
  let gpa := c_GPA j in
  let dues := sqlite3_column_int (c_DUES_PAID j) in
  let eligible := (hrs >=? 12) && double_ge gpa d3_0 && (dues =? 1) in
  mkProfile
    (sqlite3_column_int (STUDENTS.STUDENT_ID s))
    (full_name s)
    (colText (STUDENTS.CLASSIFICATION s))
    (STUDENTS.SECTION s)
    (COALESCE (STUDENTS.SHIRT_SIZE s) "")
    (COALESCE (STUDENTS.SHOE_SIZE s) "")
    hrs gpa dues eligible
    (c_LAST_VERIFIED_DATE j).

(** [None] is "No student found with that ID.". *)
Definition findStudentById (db : DB) (id : Z) : option Profile :=
  option_map profile
    (find (fun j => STUDENTS.STUDENT_ID (fst j) =? id)
          (left_join_compliance db)).

(** One printed line of [showEligibilityReport]. *)
Record ReportLine := mkReportLine {
  rl_id : Z;
  rl_name : string;
  rl_classif : string;
  rl_sec : string;
  rl_hrs : Z;
  rl_gpa : double;
  rl_dues : Z;
  rl_verified : string;
  rl_okH : Z;
  rl_okG : Z;
  rl_okD : Z;
  rl_elig : Z
}.

Definition report_line (j : joined) : ReportLine :=
  let s := fst j in
  mkReportLine
    (sqlite3_column_int (STUDENTS.STUDENT_ID s))
    (full_name s)
    (colText (STUDENTS.CLASSIFICATION s))
    (STUDENTS.SECTION s)
    (sqlite3_column_int (c_CREDIT_HOURS j))
    (c_GPA j)
    (sqlite3_column_int (c_DUES_PAID j))
    (c_LAST_VERIFIED_DATE j)
    (sqlite3_column_int (OK_HRS j))
    (sqlite3_column_int (OK_GPA j))
    (sqlite3_column_int (OK_DUES j))
    (sqlite3_column_int (ELIGIBLE j)).

Definition showEligibilityReport (db : DB) : list ReportLine :=
  map report_line (order_by by_elig_section_name (left_join_compliance db)).


(** *** Inventory queries *)

Section ItemQueries.
Variable D : Type.

(** [ORDER BY <ID>]. *)
Definition by_id (a b : row D) : comparison :=
  Z.compare (ITEM_ID a) (ITEM_ID b).

(** The sort key [(CHECKED_OUT_TO IS NULL)], 1 or 0. *)
Definition is_null_key (r : row D) : Z := Z.b2z (is_null (CHECKED_OUT_TO r)).

(** [ORDER BY (CHECKED_OUT_TO IS NULL) DESC, <ID>]. *)
Definition by_null_desc_id (a b : row D) : comparison :=
  then_by (Z.compare (is_null_key b) (is_null_key a)) (by_id a b).

(** [SELECT ... WHERE CHECKED_OUT_TO IS NOT NULL ORDER BY <ID>]. *)
Definition checked_out_rows (t : table D) : list (row D) :=
  order_by by_id (filter (@checked_out D) (rows t)).

(** [SELECT ... ORDER BY (CHECKED_OUT_TO IS NULL) DESC, <ID>]. *)
Definition assignment_rows (t : table D) : list (row D) :=
  order_by by_null_desc_id (rows t).
End ItemQueries.

(** [FROM INSTRUMENTS i JOIN INSTRUMENT_TYPES t ON t.TYPE_ID=i.TYPE_ID]. *)
Definition typed := (row InstrumentDescr * INSTRUMENT_TYPES.row)%type.

Definition join_types (db : DB) : list typed :=
  flat_map (fun i =>
              match find (type_key (TYPE_ID (DESCR i))) (instrument_types db)
              with
              | Some ty => [(i, ty)]
              | None => []
              end)
           (rows (instruments db)).

Definition by_type_name_id (a b : typed) : comparison :=
  then_by (String.compare (INSTRUMENT_TYPES.TYPE_NAME (snd a))
                          (INSTRUMENT_TYPES.TYPE_NAME (snd b)))
          (by_id (fst a) (fst b)).

Definition by_section_type_name_id (a b : typed) : comparison :=
  then_by (String.compare (INSTRUMENT_TYPES.SECTION (snd a))
                          (INSTRUMENT_TYPES.SECTION (snd b)))
          (by_type_name_id a b).

(** [sqlFiltered]: [WHERE i.CHECKED_OUT_TO IS NULL AND t.SECTION=?
    ORDER BY t.TYPE_NAME, i.INSTRUMENT_ID]. *)
Definition sqlFiltered (db : DB) (section : string) : list typed :=
  order_by by_type_name_id
    (filter (fun j => available (fst j)
                      && (INSTRUMENT_TYPES.SECTION (snd j) =? section)%string)
            (join_types db)).

(** [sqlAll]: [WHERE i.CHECKED_OUT_TO IS NULL
    ORDER BY t.SECTION, t.TYPE_NAME, i.INSTRUMENT_ID]. *)
Definition sqlAll (db : DB) : list typed :=
  order_by by_section_type_name_id
    (filter (fun j => available (fst j)) (join_types db)).

(** The listing of [returnInstrument]: [WHERE i.CHECKED_OUT_TO IS NOT NULL
    ORDER BY i.INSTRUMENT_ID]. *)
Definition checked_out_instruments (db : DB) : list typed :=
  order_by (fun a b => by_id (fst a) (fst b))
    (filter (fun j => checked_out (fst j)) (join_types db)).

(** [ORDER BY (i.CHECKED_OUT_TO IS NULL) DESC, t.SECTION, t.TYPE_NAME,
    i.INSTRUMENT_ID]. *)
Definition by_null_desc_section_type_name_id (a b : typed) : comparison :=
  then_by (Z.compare (is_null_key (fst b)) (is_null_key (fst a)))
          (by_section_type_name_id a b).

Definition instrument_assignment_rows (db : DB) : list typed :=
  order_by by_null_desc_section_type_name_id (join_types db).

(** One printed line of [viewInstrumentAssignments]. *)
Record InstrumentLine := mkInstrumentLine {
  il_id : Z;
  il_type : string;
  il_serial : string;
  il_student : Z;
  il_date : string;
  il_notes : string
}.

Definition instrument_line (j : typed) : InstrumentLine :=
  let i := fst j in
  mkInstrumentLine
    (sqlite3_column_int (ITEM_ID i))
    (INSTRUMENT_TYPES.TYPE_NAME (snd j))
    (COALESCE (SERIAL (DESCR i)) "")
    (sqlite3_column_int (COALESCE (CHECKED_OUT_TO i) 0))
    (COALESCE (CHECKED_OUT_DATE i) "")
    (COALESCE (CONDITION_NOTES i) "").

Definition viewInstrumentAssignments (db : DB) : list InstrumentLine :=
  map instrument_line (instrument_assignment_rows db).

(** One printed line of [viewUniformAssignments]. *)
Record UniformLine := mkUniformLine {
  ul_id : Z;
  ul_coat : string;
  ul_pant : string;
  ul_coat_number : string;
  ul_pant_number : string;
  ul_student : Z;
  ul_date : string;
  ul_notes : string
}.

Definition uniform_line (u : row UniformDescr) : UniformLine :=
  mkUniformLine
    (sqlite3_column_int (ITEM_ID u))
    (COALESCE (COAT_SIZE (DESCR u)) "")
    (COALESCE (PANT_SIZE (DESCR u)) "")
    (COALESCE (COAT_NUMBER (DESCR u)) "")
    (COALESCE (PANT_NUMBER (DESCR u)) "")
    (sqlite3_column_int (COALESCE (CHECKED_OUT_TO u) 0))
    (COALESCE (CHECKED_OUT_DATE u) "")
    (COALESCE (CONDITION_NOTES u) "").

Definition viewUniformAssignments (db : DB) : list UniformLine :=
  map uniform_line (assignment_rows (uniforms db)).

(** One printed line of [viewShakoAssignments]. *)
Record ShakoLine := mkShakoLine {
  kl_id : Z;
  kl_size : string;
  kl_student : Z;
  kl_date : string;
  kl_notes : string
}.

Definition shako_line (k : row ShakoDescr) : ShakoLine :=
  mkShakoLine
    (sqlite3_column_int (ITEM_ID k))
    (COALESCE (SIZE (DESCR k)) "")
    (sqlite3_column_int (COALESCE (CHECKED_OUT_TO k) 0))
    (COALESCE (CHECKED_OUT_DATE k) "")
    (COALESCE (CONDITION_NOTES k) "").

Definition viewShakoAssignments (db : DB) : list ShakoLine :=
  map shako_line (assignment_rows (shakos db)).

(** ** The menu actions that change the database *)

(** The message an action prints last. *)
Inductive Msg :=
| Insert_failed             (* "Insert failed: ..." *)
| Student_added             (* "Student added." *)
| Student_does_not_exist    (* "This student ID does not exist. Please add
                               the student first." and its variants *)
| Set_leader_failed         (* "Set leader failed: ..." *)
| Section_leader_saved      (* "Section leader saved." *)
| Add_failed                (* "Add failed: ..." *)
| Instrument_added          (* "Instrument added to inventory." *)
| No_instruments_available  (* "No instruments available for that view." *)
| Checkout_failed           (* "Checkout failed: ..." and the note that a
                               student holds only ONE item of the kind *)
| Invalid_instrument        (* "Invaild. Instrument already checked out OR
                               that ID doesn't exist!" *)
| Instrument_checked_out    (* "Instrument checked out." *)
| Uniform_checked_out       (* "Uniform checked out." *)
| Shako_checked_out         (* "Shako checked out." *)
| None_checked_out          (* "None." *)
| Return_failed             (* "Return failed: ..." *)
| Item_returned             (* "Instrument returned." / "Uniform returned."
                               / "Shako returned." *)
| No_item_with_that_ID      (* "No instrument with that ID." / "No uniform
                               ..." / "No shako ..." *)
| Update_failed             (* "Update failed: ..." *)
| Compliance_saved.         (* "Compliance saved." *)

(** What the storage layer does with a statement sent to it: it lets it
    run, or [sqlite3_prepare_v2] or [sqlite3_step] fails for a reason
    that is not in the statement (SQLITE_BUSY, SQLITE_FULL on the disk,
    SQLITE_IOERR, SQLITE_NOMEM). *)
Inductive Storage := Runs | Fails.

(** [addStudent], with what the storage layer does with its second
    statement, the INSERT into COMPLIANCE: the program runs it as a
    statement of its own, does not look at its result and prints "Student
    added." in either case.  [section] is what [readSectionValidated]
    returned, one of the five names, which [c_str] leaves as it is. *)
Definition addStudent_on (second : Storage) (today : string) (id : Z)
    (fname lname classification section shirtSize shoeSize : string)
    (db : DB) : DB * Msg :=
  let classification := trim classification in
  let shirtSize := trim shirtSize in
  let shoeSize := trim shoeSize in
  match insert_student db
          (STUDENTS.mk id (c_str fname) (c_str lname)
             (Some (c_str classification)) section
             (bind_text_or_null shirtSize) (bind_text_or_null shoeSize))
  with
  | (SQLITE_DONE, db1) =>
      (match second with
       | Runs => insert_or_ignore_compliance today id db1
       | Fails => db1
       end, Student_added)
  | _ => (db, Insert_failed)
  end.

(** [addStudent] when its second statement runs. *)
Definition addStudent (today : string) (id : Z)
    (fname lname classification section shirtSize shoeSize : string)
    (db : DB) : DB * Msg :=
  addStudent_on Runs today id fname lname classification section shirtSize
    shoeSize db.

Definition setSectionLeader (section : string) (leaderId : Z) (db : DB)
    : DB * Msg :=
  if negb (studentExists db leaderId) then (db, Student_does_not_exist)
  else match upsert_section_leader section leaderId db with
       | (SQLITE_DONE, db1) => (db1, Section_leader_saved)
       | _ => (db, Set_leader_failed)
       end.

Definition addInstrumentToInventory (typeId : Z) (serial notes : string)
    (db : DB) : DB * Msg :=
  match insert_instrument typeId (bind_text_or_null serial)
          (bind_text_or_null notes) db
  with
  | (SQLITE_DONE, db1) => (db1, Instrument_added)
  | _ => (db, Add_failed)
  end.

(** [filter] is the answer to "[1] Yes  [2] No". *)
Definition checkoutInstrument (today : string) (studentId filter
    instrumentId : Z) (db : DB) : DB * Msg :=
  match getStudentSection db studentId with
  | None => (db, Student_does_not_exist)
  | Some studentSection =>
      let listing := if filter =? 1 then sqlFiltered db studentSection
                     else sqlAll db in
      if negb (any listing) then (db, No_instruments_available)
      else match update_checkout (studentExists db) (instruments db)
                   studentId instrumentId today
           with
           | (SQLITE_DONE, t, changes) =>
               (set_instruments db t,
                if (changes =? 0)%nat then Invalid_instrument
                else Instrument_checked_out)
           | _ => (db, Checkout_failed)
           end
  end.

Definition return_message (changes : nat) : Msg :=
  if (changes =? 0)%nat then No_item_with_that_ID else Item_returned.

Definition returnInstrument (instrumentId : Z) (db : DB) : DB * Msg :=
  if negb (any (checked_out_instruments db)) then (db, None_checked_out)
  else match update_return (instruments db) instrumentId with
       | (SQLITE_DONE, t, changes) =>
           (set_instruments db t, return_message changes)
       | _ => (db, Return_failed)
       end.

Definition checkoutUniform (today : string) (studentId : Z)
    (coatSize pantSize coatNumber pantNumber notes : string) (db : DB)
    : DB * Msg :=
  if negb (studentExists db studentId) then (db, Student_does_not_exist)
  else match insert_uniform today
               (mkUniform (bind_text_or_null coatSize)
                          (bind_text_or_null pantSize)
                          (bind_text_or_null coatNumber)
                          (bind_text_or_null pantNumber))
               (bind_text_or_null notes) studentId db
       with
       | (SQLITE_DONE, db1) => (db1, Uniform_checked_out)
       | _ => (db, Checkout_failed)
       end.

Definition returnUniform (uniformId : Z) (db : DB) : DB * Msg :=
  if negb (any (checked_out_rows (uniforms db))) then (db, None_checked_out)
  else match update_return (uniforms db) uniformId with
       | (SQLITE_DONE, t, changes) =>
           (set_uniforms db t, return_message changes)
       | _ => (db, Return_failed)
       end.

Definition checkoutShako (today : string) (studentId : Z)
    (size notes : string) (db : DB) : DB * Msg :=
  if negb (studentExists db studentId) then (db, Student_does_not_exist)
  else match insert_shako today (mkShako (bind_text_or_null size))
               (bind_text_or_null notes) studentId db
       with
       | (SQLITE_DONE, db1) => (db1, Shako_checked_out)
       | _ => (db, Checkout_failed)
       end.

Definition returnShako (shakoId : Z) (db : DB) : DB * Msg :=
  if negb (any (checked_out_rows (shakos db))) then (db, None_checked_out)
  else match update_return (shakos db) shakoId with
       | (SQLITE_DONE, t, changes) =>
           (set_shakos db t, return_message changes)
       | _ => (db, Return_failed)
       end.

(** [hours], [gpa] and [dues] are what [readIntInRange 0 30],
    [readDoubleInRange 0.0 4.0] and [readBool01] returned. *)
Definition updateStudentCompliance (today : string) (id hours : Z)
    (gpa : double) (dues : Z) (db : DB) : DB * Msg :=
  if negb (studentExists db id) then (db, Student_does_not_exist)
  else match upsert_compliance today id hours gpa dues db with
       | (SQLITE_DONE, db1) => (db1, Compliance_saved)
       | _ => (db, Update_failed)
       end.

(** ** Runs of the program *)

(** One menu action with the values the operator typed. *)
Inductive Op :=
| AddStudent (id : Z)
    (fname lname classification section shirtSize shoeSize : string)
| ViewAllStudents
| FindStudentById (id : Z)
| SetSectionLeader (section : string) (leaderId : Z)
| CheckoutInstrument (studentId filter instrumentId : Z)
| ReturnInstrument (instrumentId : Z)
| ViewInstrumentAssignments
| AddInstrumentToInventory (typeId : Z) (serial notes : string)
| CheckoutUniform (studentId : Z)
    (coatSize pantSize coatNumber pantNumber notes : string)
| ReturnUniform (uniformId : Z)
| ViewUniformAssignments
| CheckoutShako (studentId : Z) (size notes : string)
| ReturnShako (shakoId : Z)
| ViewShakoAssignments
| ShowEligibilityReport
| UpdateStudentCompliance (id hours : Z) (gpa : double) (dues : Z).

(** The database after the action; the listings only run SELECT
    statements. *)
Definition run (today : string) (op : Op) (db : DB) : DB :=
  match op with
  | AddStudent id fname lname classification section shirtSize shoeSize =>
      fst (addStudent today id fname lname classification section
             shirtSize shoeSize db)
  | SetSectionLeader section leaderId =>
      fst (setSectionLeader section leaderId db)
  | CheckoutInstrument studentId filter instrumentId =>
      fst (checkoutInstrument today studentId filter instrumentId db)
  | ReturnInstrument instrumentId => fst (returnInstrument instrumentId db)
  | AddInstrumentToInventory typeId serial notes =>
      fst (addInstrumentToInventory typeId serial notes db)
  | CheckoutUniform studentId coatSize pantSize coatNumber pantNumber notes =>
      fst (checkoutUniform today studentId coatSize pantSize coatNumber
             pantNumber notes db)
  | ReturnUniform uniformId => fst (returnUniform uniformId db)
  | CheckoutShako studentId size notes =>
      fst (checkoutShako today studentId size notes db)
  | ReturnShako shakoId => fst (returnShako shakoId db)
  | UpdateStudentCompliance id hours gpa dues =>
      fst (updateStudentCompliance today id hours gpa dues db)
  | ViewAllStudents | FindStudentById _ | ViewInstrumentAssignments
  | ViewUniformAssignments | ViewShakoAssignments | ShowEligibilityReport =>
      db
  end.

(** What the input routines guarantee about the typed values: numbers read
    with [cin >> int] are [int]s, and the validated readers return values
    in their range. *)
Definition input_ok (op : Op) : bool :=
  match op with
  | AddStudent id _ _ _ section _ _ => is_int id && section_allowed section
  | FindStudentById id => is_int id
  | SetSectionLeader section leaderId =>
      section_allowed section && is_int leaderId
  | CheckoutInstrument studentId filter instrumentId =>
      is_int studentId && readIntInRange_accepts 1 2 filter
      && is_int instrumentId
  | ReturnInstrument id | ReturnUniform id | ReturnShako id => is_int id
  | AddInstrumentToInventory typeId _ _ => is_int typeId
  | CheckoutUniform studentId _ _ _ _ _ => is_int studentId
  | CheckoutShako studentId _ _ => is_int studentId
  | UpdateStudentCompliance id hours gpa dues =>
      is_int id && readIntInRange_accepts 0 30 hours
      && readDoubleInRange_accepts d0_0 d4_0 gpa && readBool01_accepts dues
  | ViewAllStudents | ViewInstrumentAssignments | ViewUniformAssignments
  | ViewShakoAssignments | ShowEligibilityReport => true
  end.

(** The databases the program can produce from a new file when every
    statement runs. *)
Inductive reachable : DB -> Prop :=
| reach_init : reachable ensureTables
| reach_step db today op :
    reachable db -> input_ok op = true -> reachable (run today op db).

(** The databases it can produce when the storage layer may also refuse
    the second statement of [addStudent], which goes unnoticed. *)
Inductive produced : DB -> Prop :=
| prod_init : produced ensureTables
| prod_step db today op :
    produced db -> input_ok op = true -> produced (run today op db)
| prod_unrecorded db today id fname lname classification section
    shirtSize shoeSize :
    produced db ->
    input_ok (AddStudent id fname lname classification section shirtSize
                shoeSize) = true ->
    produced (fst (addStudent_on Fails today id fname lname classification
                     section shirtSize shoeSize db)).

(** A whole session, oldest action first. *)
Definition session (ops : list (string * Op)) (db : DB) : DB :=
  fold_left (fun d o => run (fst o) (snd o) d) ops db.

(** ** Invariants of the store *)

(** The students named by the checkout slots of a table. *)
Definition holders {D} (l : list (row D)) : list Z :=
  flat_map (fun r => match CHECKED_OUT_TO r with
                     | Some s => [s]
                     | None => []
                     end) l.

(** The per-kind single-holder rule on one table. *)
Record single_holder_table {D} (db : DB) (t : table D) : Prop := {
  holders_exist : Forall (fun s => studentExists db s = true) (holders (rows t));
  holders_distinct : NoDup (holders (rows t))
}.

Record single_holder (db : DB) : Prop := {
  sh_instruments : single_holder_table db (instruments db);
  sh_uniforms : single_holder_table db (uniforms db);
  sh_shakos : single_holder_table db (shakos db)
}.

(** * Vocabulary of the properties *)

(** ** Keys and ranges of the stored rows *)

(** A slot without a student has no date either. *)
Definition slot_clear {D} (r : row D) : Prop :=
  CHECKED_OUT_TO r = None -> CHECKED_OUT_DATE r = None.

(** PRIMARY KEY AUTOINCREMENT on an inventory table: the keys are distinct
    and were all handed out by the counter. *)
Record table_wf {D} (t : table D) : Prop := {
  ids_distinct : NoDup (map (@ITEM_ID D) (rows t));
  ids_allocated : Forall (fun r => 1 <= ITEM_ID r <= seq t) (rows t);
  seq_nonneg : 0 <= seq t;
  slots_clear : Forall (@slot_clear D) (rows t)
}.

(** What the constraints of the schema and the input checks keep true of
    the stored rows. *)
Record wf (db : DB) : Prop := {
  wf_students_key : NoDup (map STUDENTS.STUDENT_ID (students db));
  wf_compliance_key : NoDup (map COMPLIANCE.STUDENT_ID (compliance db));
  wf_compliance_fk :
    Forall (fun c => studentExists db (COMPLIANCE.STUDENT_ID c) = true)
           (compliance db);
  wf_compliance_range :
    Forall (fun c => 0 <= COMPLIANCE.CREDIT_HOURS c <= 30
                     /\ (COMPLIANCE.DUES_PAID c = 0
                         \/ COMPLIANCE.DUES_PAID c = 1))
           (compliance db);
  wf_instruments : table_wf (instruments db);
  wf_uniforms : table_wf (uniforms db);
  wf_shakos : table_wf (shakos db);
  wf_instrument_fk :
    Forall (fun i => existsb (type_key (TYPE_ID (DESCR i)))
                             (instrument_types db) = true)
           (rows (instruments db))
}.

(** ** Sorted listings *)

(** Swapping the rows swaps the outcome of the comparison. *)
Definition antisymmetric {A} (cmp : A -> A -> comparison) : Prop :=
  forall a b, cmp b a = CompOpp (cmp a b).

(** [a] may stand before [b] in a listing sorted by [cmp]. *)
Definition in_order {A} (cmp : A -> A -> comparison) (a b : A) : Prop :=
  precedes cmp a b = true.

(** [ORDER BY flag DESC, <the keys of cmp>] for a flag that is 1 or 0. *)
Definition flag_desc_then {A} (flag : A -> bool)
    (cmp : A -> A -> comparison) (a b : A) : comparison :=
  then_by (Z.compare (Z.b2z (flag b)) (Z.b2z (flag a))) (cmp a b).

(** A listing [shown] of the rows [all]: the available rows first, then the
    checked-out rows, each part sorted by [cmp], no row lost or added. *)
Definition available_first {A} (is_available : A -> bool)
    (cmp : A -> A -> comparison) (all shown : list A) : Prop :=
  exists on_shelf out,
    shown = on_shelf ++ out
    /\ Forall (fun x => is_available x = true) on_shelf
    /\ Forall (fun x => is_available x = false) out
    /\ Sorted (in_order cmp) on_shelf
    /\ Sorted (in_order cmp) out
    /\ Permutation shown all.

(** ** Items, messages and the specified flag *)

(** The row under key [iid], when it is there and not checked out. *)
Definition available_item {D} (iid : Z) (l : list (row D))
    : option (row D) :=
  match find_item iid l with
  | Some r => if available r then Some r else None
  | None => None
  end.

(** Did the listing that [checkoutInstrument] prints for this student and
    this answer to the filter question show a row? *)
Definition listing_shown (db : DB) (studentId filter : Z) : bool :=
  match getStudentSection db studentId with
  | Some studentSection =>
      any (if filter =? 1 then sqlFiltered db studentSection else sqlAll db)
  | None => false
  end.

(** The instruments after [instrumentId] went to [studentId]. *)
Definition checked_out_to_student (today : string)
    (studentId instrumentId : Z) (db : DB) : DB :=
  set_instruments db
    (mkTable (map (fun r => if has_id instrumentId r
                            then set_slot r (Some studentId) (Some today)
                            else r)
                  (rows (instruments db)))
             (seq (instruments db))).

(** What the return of a row that is not checked out prints: "None." when
    no row of the table is checked out, else the "returned" message. *)
Definition idle_return_message {D} (t : table D) : Msg :=
  if existsb (@checked_out D) (rows t) then Item_returned
  else None_checked_out.

(** One checkout of an instrument followed by its return. *)
Definition instrument_cycle (today : string)
    (studentId filter instrumentId : Z) (db : DB) : DB :=
  fst (returnInstrument instrumentId
         (fst (checkoutInstrument today studentId filter instrumentId db))).

(** [SERIAL TEXT UNIQUE] on the value to insert. *)
Definition serial_free (serial : string) (db : DB) : bool :=
  match bind_text_or_null serial with
  | None => true
  | Some s => negb (existsb (has_serial s) (rows (instruments db)))
  end.

(** The flag as the specification words it: credit hours at least 12, GPA
    at least 3.0, dues paid. *)
Definition spec_eligible (creditHours : Z) (gpa : double) (duesPaid : bool)
    : bool :=
  (creditHours >=? 12) && double_ge gpa d3_0 && duesPaid.

(** ** Sample databases *)

(** Two students; a trumpet checked out to the first and a trombone on the
    shelf; a shako that came back and one that is out; compliance entered
    for the second student. *)
Definition sample_session : list (string * Op) :=
  [ ("2024-09-01", AddStudent 101 "Ada" "Horn" "Junior" "BRASS" "M" "9");
    ("2024-09-01", AddStudent 202 "Bo" "Reed" "Senior" "WOODWIND" "" "");
    ("2024-09-02", AddInstrumentToInventory 4 "SN1" "");
    ("2024-09-02", AddInstrumentToInventory 5 "" "dented");
    ("2024-09-03", CheckoutInstrument 101 2 1);
    ("2024-09-03", CheckoutShako 101 "L" "");
    ("2024-09-04", ReturnShako 1);
    ("2024-09-04", CheckoutShako 202 "M" "");
    ("2024-09-05", UpdateStudentCompliance 202 12 d3_0 1) ].

Definition sample_db : DB := session sample_session ensureTables.

(** Rows of the sample, and actions tried on it. *)
Definition bo : STUDENTS.row :=
  STUDENTS.mk 202 "Bo" "Reed" (Some "Senior") "WOODWIND" None None.

Definition bo_record : COMPLIANCE.row :=
  COMPLIANCE.mk 202 12 d3_0 1 (Some "2024-09-05").

Definition trombone : row InstrumentDescr :=
  Item.mk 2 (mkInstrument 5 None) (Some "dented") None None.




(** The same student added while the storage layer refuses the second
    statement of [addStudent]. *)
Definition add_di_unrecorded : DB * Msg :=
  addStudent_on Fails "2024-09-06" 303 "Di" "Snare" " Freshman" "PERCUSSION"
    "" "8 " sample_db.

Definition update_ada : DB * Msg :=
  updateStudentCompliance "2024-09-07" 101 15 d4_0 1 sample_db.

Definition ada_record : COMPLIANCE.row :=
  COMPLIANCE.mk 101 15 d4_0 1 (Some "2024-09-07").

(** Compliance entered for the student who was left without a record. *)
Definition update_di : DB * Msg :=
  updateStudentCompliance "2024-09-07" 303 12 d3_0 1 (fst add_di_unrecorded).

Definition di_updated : COMPLIANCE.row :=
  COMPLIANCE.mk 303 12 d3_0 1 (Some "2024-09-07").

Definition trombone_to_bo : DB * Msg :=
  checkoutInstrument "2024-09-06" 202 2 2 sample_db.

Definition uniform_to_ada : DB * Msg :=
  checkoutUniform "2024-09-06" 101 "40R" "32" "C7" "P7" "" sample_db.

Definition uniform_back : DB * Msg := returnUniform 1 (fst uniform_to_ada).

Definition uniform_to_bo : DB * Msg :=
  checkoutUniform "2024-09-08" 202 "38R" "30" "" "" "" (fst uniform_back).

(** The serial of instrument 1 followed by a NUL byte and more text. *)
Definition serial_with_nul : string :=
  String "S" (String "N" (String "1" (String "000" (String "x" "")))).

Definition add_piccolo : DB * Msg :=
  addInstrumentToInventory 1 "SN2" "" sample_db.



(** The sample with a second pair of instruments, both on the shelf: a
    clarinet (WOODWIND) added before a trumpet (BRASS). *)
Definition two_on_shelf : DB :=
  session [ ("2024-09-02", AddInstrumentToInventory 2 "" "");
            ("2024-09-02", AddInstrumentToInventory 4 "" "") ]
          ensureTables.

(** ** Further invariants and frames *)


(** The keys of a table are 1, 2, ..., in the order of the rows, and the
    counter is the last of them. *)
Definition numbered {D} (t : table D) : Prop :=
  map (@ITEM_ID D) (rows t)
  = map Z.of_nat (List.seq 1 (List.length (rows t)))
  /\ seq t = Z.of_nat (List.length (rows t)).

(** The serials that are not NULL. *)
Definition serials (l : list (row InstrumentDescr)) : list string :=
  flat_map (fun r => match SERIAL (DESCR r) with
                     | Some s => [s]
                     | None => []
                     end) l.

(** CHECK on SECTION in STUDENTS and SECTION_LEADERS, the key of
    SECTION_LEADERS and its foreign key. *)
Record sections_wf (db : DB) : Prop := {
  student_sections :
    Forall (fun s => section_allowed (STUDENTS.SECTION s) = true)
           (students db);
  leader_sections :
    Forall (fun l => section_allowed (SECTION_LEADERS.SECTION l) = true)
           (section_leaders db);
  leader_key_distinct :
    NoDup (map SECTION_LEADERS.SECTION (section_leaders db));
  leaders_exist :
    Forall (fun l => studentExists db (SECTION_LEADERS.LEADER_STUDENT_ID l)
                     = true)
           (section_leaders db)
}.

(** What stays of an inventory row whatever happens to its slot. *)
Definition fixed_part {D} (r : row D) : Z * D * option string :=
  (ITEM_ID r, DESCR r, CONDITION_NOTES r).

(** The report lists the rows [all]: those not eligible first, then the
    eligible ones, each part by section, last name, first name. *)
Definition ineligible_first (all shown : list joined) : Prop :=
  exists no yes,
    shown = no ++ yes
    /\ Forall (fun j => ELIGIBLE j = 0) no
    /\ Forall (fun j => ELIGIBLE j = 1) yes
    /\ Sorted (in_order by_section_name) no
    /\ Sorted (in_order by_section_name) yes
    /\ Permutation shown all.

(** Is the first character white space? *)
Definition starts_with_space (s : string) : bool :=
  match s with
  | EmptyString => false
  | String c _ => isspace c
  end.

(** A string that neither starts nor ends with white space. *)
Definition trimmed (s : string) : Prop :=
  starts_with_space s = false /\ starts_with_space (string_rev s) = false.

(** Further actions tried on the sample. *)
Definition ada_leads_brass : DB * Msg := setSectionLeader "BRASS" 101 sample_db.


(** What a return does to the table of its kind: the slot of the row
    [r] under the key [iid] is emptied, the rows under the other keys, the
    order of the keys and the counter are as before. *)
Definition given_back {D} (t t' : table D) (iid : Z) (r : row D) : Prop :=
  find_item iid (rows t') = Some (set_slot r None None)
  /\ (forall iid', iid' <> iid ->
       find_item iid' (rows t') = find_item iid' (rows t))
  /\ map (@ITEM_ID D) (rows t') = map (@ITEM_ID D) (rows t)
  /\ seq t' = seq t.

(** The message of a return that changed no row. *)
Definition nothing_returned_message {D} (t : table D) : Msg :=
  if existsb (@checked_out D) (rows t) then No_item_with_that_ID
  else None_checked_out.

Definition trumpet_out : row InstrumentDescr :=
  Item.mk 1 (mkInstrument 4 (Some "SN1")) None (Some 101)
    (Some "2024-09-03").

(** The sample with a piccolo on the shelf, and the trombone (BRASS)
    handed to the second student (WOODWIND) under either answer to the
    filter question. *)
Definition with_piccolo : DB := fst add_piccolo.

(** [t.TYPE_ID=i.TYPE_ID] for a row of the listing. *)
Definition type_of_instrument (db : DB) (j : typed) : Prop :=
  find (type_key (TYPE_ID (DESCR (fst j)))) (instrument_types db)
  = Some (snd j).

(** The tables of the schema, and the ones an action writes to: the
    targets of its INSERT and UPDATE statements. *)
Inductive Table :=
| T_STUDENTS | T_COMPLIANCE | T_INSTRUMENT_TYPES | T_INSTRUMENTS
| T_UNIFORMS | T_SHAKOS | T_SECTION_LEADERS.

Definition writes (op : Op) (tb : Table) : bool :=
  match op, tb with
  | AddStudent _ _ _ _ _ _ _, (T_STUDENTS | T_COMPLIANCE) => true
  | SetSectionLeader _ _, T_SECTION_LEADERS => true
  | (AddInstrumentToInventory _ _ _ | CheckoutInstrument _ _ _
     | ReturnInstrument _), T_INSTRUMENTS => true
  | (CheckoutUniform _ _ _ _ _ _ | ReturnUniform _), T_UNIFORMS => true
  | (CheckoutShako _ _ _ | ReturnShako _), T_SHAKOS => true
  | UpdateStudentCompliance _ _ _ _, T_COMPLIANCE => true
  | _, _ => false
  end.

Definition same_table (tb : Table) (db db' : DB) : Prop :=
  match tb with
  | T_STUDENTS => students db' = students db
  | T_COMPLIANCE => compliance db' = compliance db
  | T_INSTRUMENT_TYPES => instrument_types db' = instrument_types db
  | T_INSTRUMENTS => instruments db' = instruments db
  | T_UNIFORMS => uniforms db' = uniforms db
  | T_SHAKOS => shakos db' = shakos db
  | T_SECTION_LEADERS => section_leaders db' = section_leaders db
  end.

(** A string of white space only. *)
Fixpoint all_space (s : string) : bool :=
  match s with
  | EmptyString => true
  | String c s' => isspace c && all_space s'
  end.

(** The roster actions that name the student [id]. *)
Definition concerns (op : Op) (id : Z) : bool :=
  match op with
  | AddStudent i _ _ _ _ _ _ | UpdateStudentCompliance i _ _ _ => i =? id
  | _ => false
  end.

(** A uniform that came back, in the sample. *)
Definition uniform_on_shelf : row UniformDescr :=
  Item.mk 1 (mkUniform (Some "40R") (Some "32") (Some "C7") (Some "P7"))
    None None None.

Definition later_session : list (string * Op) :=
  [ ("2024-09-08", CheckoutUniform 202 "38R" "30" "" "" "");
    ("2024-09-09", CheckoutUniform 101 "40R" "32" "" "" "");
    ("2024-09-10", ReturnUniform 2) ].

(** * Properties *)

(** ** Small facts about the record and the list helpers *)

Lemma set_instruments_same db : set_instruments db (instruments db) = db.
Proof. destruct db; reflexivity. Qed.

Lemma set_uniforms_same db : set_uniforms db (uniforms db) = db.
Proof. destruct db; reflexivity. Qed.

Lemma set_shakos_same db : set_shakos db (shakos db) = db.
Proof. destruct db; reflexivity. Qed.

Lemma table_eta D (t : table D) : mkTable (rows t) (seq t) = t.
Proof. destruct t; reflexivity. Qed.

(** The section handed to [addStudent] and [setSectionLeader] is one of
    the five. *)
Lemma readSectionValidated_allowed line s :
  readSectionValidated line = Some s -> section_allowed s = true.
Proof.
  unfold readSectionValidated.
  destruct (section_allowed (upperCopy (trim line))) eqn:E;
    [intros [= <-]; exact E | discriminate].
Qed.

Lemma existsb_false_forall A (f : A -> bool) l :
  existsb f l = false -> forall x, In x l -> f x = false.
Proof.
  intros H x Hx. destruct (f x) eqn:E; [|reflexivity].
  assert (existsb f l = true) by (apply existsb_exists; eauto).
  congruence.
Qed.

Lemma filter_none A (f : A -> bool) l :
  List.length (filter f l) = 0%nat -> forall x, In x l -> f x = false.
Proof.
  intros H x Hx. destruct (f x) eqn:E; [|reflexivity].
  assert (In x (filter f l)) as Hin by (apply filter_In; auto).
  destruct (filter f l); [destruct Hin | discriminate].
Qed.

Lemma map_unhit A (f : A -> bool) (g : A -> A) l :
  (forall x, In x l -> f x = false) ->
  map (fun x => if f x then g x else x) l = l.
Proof.
  induction l as [|a l IH]; simpl; intros H; [reflexivity|].
  rewrite (H a) by auto. f_equal. apply IH. auto.
Qed.

(** ** The checkout slots under each statement *)

Section Holders.
Variable D : Type.
Implicit Types (t : table D) (r : row D) (l : list (row D)).

Lemma held_by_In sid l : held_by sid l = true <-> In sid (holders l).
Proof.
  unfold held_by, holders. rewrite existsb_exists, in_flat_map.
  split; intros [r [Hr H]]; exists r; split; auto; unfold holds in *;
    destruct (CHECKED_OUT_TO r) as [s|]; simpl in *; try easy.
  - apply Z.eqb_eq in H. now left.
  - destruct H as [->|[]]. apply Z.eqb_refl.
Qed.

Lemma held_by_not_In sid l : held_by sid l = false -> ~ In sid (holders l).
Proof.
  intros H Hin. apply held_by_In in Hin. congruence.
Qed.

Lemma holders_app l1 l2 : holders (l1 ++ l2) = holders l1 ++ holders l2.
Proof. unfold holders. apply flat_map_app. Qed.

Lemma holders_cons r l :
  holders (r :: l)
  = match CHECKED_OUT_TO r with Some s => s :: holders l | None => holders l end.
Proof. unfold holders. simpl. now destruct (CHECKED_OUT_TO r). Qed.

Lemma holders_checkout (hit : row D -> bool) sid today l :
  (forall r, In r l -> hit r = true -> CHECKED_OUT_TO r = None) ->
  List.length (filter hit l) = 1%nat ->
  Permutation
    (holders (map (fun r => if hit r
                            then set_slot r (Some sid) (Some today)
                            else r) l))
    (sid :: holders l).
Proof.
  induction l as [|r l IH]; intros Hav Hlen; [discriminate|].
  cbn [map filter] in *. rewrite !holders_cons.
  destruct (hit r) eqn:Hr; cbn [List.length set_slot CHECKED_OUT_TO] in *.
  - rewrite (Hav r) by (simpl; auto).
    rewrite map_unhit; [reflexivity|].
    apply filter_none. now injection Hlen.
  - assert (Permutation
              (holders (map (fun r => if hit r
                                      then set_slot r (Some sid) (Some today)
                                      else r) l))
              (sid :: holders l)) as IH'
      by (apply IH; simpl in *; auto).
    destruct (CHECKED_OUT_TO r) as [s|]; [|exact IH'].
    rewrite perm_swap. now constructor.
Qed.

Lemma holders_return_incl iid l s :
  In s (holders (map (fun r => if has_id iid r then set_slot r None None
                               else r) l)) ->
  In s (holders l).
Proof.
  induction l as [|r l IH]; [easy|].
  cbn [map]. rewrite !holders_cons.
  destruct (has_id iid r); simpl;
    destruct (CHECKED_OUT_TO r); simpl; intuition.
Qed.

Lemma holders_return_NoDup iid l :
  NoDup (holders l) ->
  NoDup (holders (map (fun r => if has_id iid r then set_slot r None None
                                else r) l)).
Proof.
  induction l as [|r l IH]; [intros; constructor|].
  cbn [map]. rewrite !holders_cons.
  destruct (has_id iid r); simpl;
    destruct (CHECKED_OUT_TO r); simpl; intros H; auto;
    inversion H; subst; auto.
  constructor; auto.
  intros Hin. apply holders_return_incl in Hin. contradiction.
Qed.

Variable db : DB.

Lemma single_holder_insert unique_ok fk_ok t d notes co date c t' :
  single_holder_table db t ->
  (forall s, co = Some s ->
             unique_ok = negb (held_by s (rows t))
             /\ fk_ok = studentExists db s) ->
  insert_item unique_ok fk_ok t d notes co date = (c, t') ->
  single_holder_table db t'.
Proof.
  intros [He Hd] Hco. unfold insert_item.
  destruct (max_rowid <=? seq t); [intros [= <- <-]; now split|].
  destruct (negb unique_ok || negb fk_ok) eqn:E;
    intros [= <- <-]; [now split|].
  apply orb_false_elim in E. destruct E as [Eu Ef].
  apply negb_false_iff in Eu, Ef.
  split; simpl; rewrite holders_app; simpl.
  - apply Forall_app. split; auto.
    destruct co as [s|]; simpl; constructor; auto.
    destruct (Hco s eq_refl) as [_ <-]. exact Ef.
  - destruct co as [s|]; simpl; rewrite ?app_nil_r; auto.
    apply (Permutation_NoDup (Permutation_cons_append _ s)).
    constructor; auto. apply held_by_not_In.
    destruct (Hco s eq_refl) as [-> _].
    now apply negb_true_iff in Eu.
Qed.

Lemma single_holder_checkout t sid iid today c t' n :
  single_holder_table db t ->
  update_checkout (studentExists db) t sid iid today = (c, t', n) ->
  single_holder_table db t'.
Proof.
  intros [He Hd]. unfold update_checkout.
  set (hit := fun r => has_id iid r && available r).
  destruct (Nat.eqb_spec (List.length (filter hit (rows t))) 0) as [|Hn0];
    [intros [= <- <- <-]; now split|].
  destruct (held_by sid (rows t)) eqn:Eh; simpl;
    [intros [= <- <- <-]; now split|].
  destruct (studentExists db sid) eqn:Es; simpl;
    [|intros [= <- <- <-]; now split].
  destruct (Nat.ltb_spec 1 (List.length (filter hit (rows t)))) as [|Hn1];
    intros [= <- <- <-]; [now split|].
  assert (Permutation
            (holders (map (fun r => if hit r
                                    then set_slot r (Some sid) (Some today)
                                    else r) (rows t)))
            (sid :: holders (rows t))) as HP.
  { apply holders_checkout; [|lia].
    intros r _ Hr. unfold hit in Hr. apply andb_prop in Hr.
    destruct Hr as [_ Hr]. unfold available in Hr.
    now destruct (CHECKED_OUT_TO r). }
  split; simpl.
  - apply Forall_forall. intros x Hx.
    apply (Permutation_in _ HP) in Hx. destruct Hx as [<-|Hx]; auto.
    rewrite Forall_forall in He. auto.
  - apply (Permutation_NoDup (Permutation_sym HP)).
    constructor; auto. now apply held_by_not_In.
Qed.

Lemma single_holder_return t iid c t' n :
  single_holder_table db t ->
  update_return t iid = (c, t', n) ->
  single_holder_table db t'.
Proof.
  intros [He Hd]. unfold update_return. intros [= <- <- <-].
  split; simpl.
  - rewrite Forall_forall in *. intros x Hx.
    apply holders_return_incl in Hx. auto.
  - now apply holders_return_NoDup.
Qed.
End Holders.

Lemma single_holder_table_mono D db db' (t : table D) :
  (forall s, studentExists db s = true -> studentExists db' s = true) ->
  single_holder_table db t -> single_holder_table db' t.
Proof.
  intros Hm [He Hd]. split; auto.
  eapply Forall_impl; [|exact He]. exact Hm.
Qed.

(** An action that leaves the three inventory tables alone and forgets no
    student keeps the rule. *)
Lemma single_holder_frame db db' :
  (forall s, studentExists db s = true -> studentExists db' s = true) ->
  instruments db' = instruments db ->
  uniforms db' = uniforms db ->
  shakos db' = shakos db ->
  single_holder db -> single_holder db'.
Proof.
  intros Hm Ei Eu Ek [Hi Hu Hk].
  split; [rewrite Ei | rewrite Eu | rewrite Ek];
    eapply single_holder_table_mono; eauto.
Qed.

Lemma studentExists_app db s x :
  studentExists db x = true ->
  studentExists (set_students db (students db ++ [s])) x = true.
Proof.
  unfold studentExists. simpl. rewrite existsb_app. intros ->. reflexivity.
Qed.

Ltac case_if :=
  match goal with
  | |- context [if ?c then _ else _] => destruct c eqn:?
  end.

(** After an action that rewrote one inventory table: the other two are
    as before, and the students are the same. *)
Ltac one_table H db :=
  let Hi := fresh "Hi" in
  let Hu := fresh "Hu" in
  let Hk := fresh "Hk" in
  destruct H as [Hi Hu Hk];
  split; simpl;
  (apply (@single_holder_table_mono _ db); [intros ? Hs; exact Hs|]); auto.

Lemma addStudent_single_holder today id fn ln cl sec sh so db :
  single_holder db ->
  single_holder (fst (addStudent today id fn ln cl sec sh so db)).
Proof.
  intros H. unfold addStudent, addStudent_on, insert_student.
  repeat case_if; simpl; auto.
  unfold insert_or_ignore_compliance.
  repeat case_if; simpl;
    (eapply single_holder_frame; [| | | |exact H]; try reflexivity;
     intros x Hx; now apply studentExists_app).
Qed.

Lemma setSectionLeader_single_holder section leaderId db :
  single_holder db ->
  single_holder (fst (setSectionLeader section leaderId db)).
Proof.
  intros H. unfold setSectionLeader, upsert_section_leader.
  repeat case_if; simpl; auto;
    (eapply single_holder_frame; [| | | |exact H]; try reflexivity; auto).
Qed.

Lemma updateStudentCompliance_single_holder today id hours gpa dues db :
  single_holder db ->
  single_holder (fst (updateStudentCompliance today id hours gpa dues db)).
Proof.
  intros H. unfold updateStudentCompliance, upsert_compliance.
  repeat case_if; simpl; auto;
    (eapply single_holder_frame; [| | | |exact H]; try reflexivity; auto).
Qed.

Lemma addInstrumentToInventory_single_holder typeId serial notes db :
  single_holder db ->
  single_holder (fst (addInstrumentToInventory typeId serial notes db)).
Proof.
  intros H. unfold addInstrumentToInventory, insert_instrument.
  destruct (insert_item _ _ _ _ _ _ _) as [c t] eqn:E.
  destruct c; simpl; auto.
  one_table H db.
  eapply single_holder_insert; [exact Hi| |exact E]. discriminate.
Qed.

Lemma checkoutInstrument_single_holder today studentId filter instrumentId db :
  single_holder db ->
  single_holder
    (fst (checkoutInstrument today studentId filter instrumentId db)).
Proof.
  intros H. unfold checkoutInstrument.
  destruct (getStudentSection db studentId); simpl; auto.
  case_if; simpl; auto.
  destruct (update_checkout _ _ _ _ _) as [[c t] n] eqn:E.
  destruct c; simpl; auto.
  one_table H db.
  eapply single_holder_checkout; eauto.
Qed.

Lemma returnInstrument_single_holder instrumentId db :
  single_holder db -> single_holder (fst (returnInstrument instrumentId db)).
Proof.
  intros H. unfold returnInstrument. case_if; simpl; auto.
  one_table H db.
  eapply single_holder_return; [exact Hi|reflexivity].
Qed.

Lemma checkoutUniform_single_holder today studentId cs ps cn pn notes db :
  single_holder db ->
  single_holder (fst (checkoutUniform today studentId cs ps cn pn notes db)).
Proof.
  intros H. unfold checkoutUniform, insert_uniform.
  case_if; simpl; auto.
  destruct (insert_item _ _ _ _ _ _ _) as [c t] eqn:E.
  destruct c; simpl; auto.
  one_table H db.
  eapply single_holder_insert; [exact Hu| |exact E].
  intros s [= <-]. auto.
Qed.

Lemma returnUniform_single_holder uniformId db :
  single_holder db -> single_holder (fst (returnUniform uniformId db)).
Proof.
  intros H. unfold returnUniform. case_if; simpl; auto.
  one_table H db.
  eapply single_holder_return; [exact Hu|reflexivity].
Qed.

Lemma checkoutShako_single_holder today studentId size notes db :
  single_holder db ->
  single_holder (fst (checkoutShako today studentId size notes db)).
Proof.
  intros H. unfold checkoutShako, insert_shako.
  case_if; simpl; auto.
  destruct (insert_item _ _ _ _ _ _ _) as [c t] eqn:E.
  destruct c; simpl; auto.
  one_table H db.
  eapply single_holder_insert; [exact Hk| |exact E].
  intros s [= <-]. auto.
Qed.

Lemma returnShako_single_holder shakoId db :
  single_holder db -> single_holder (fst (returnShako shakoId db)).
Proof.
  intros H. unfold returnShako. case_if; simpl; auto.
  one_table H db.
  eapply single_holder_return; [exact Hk|reflexivity].
Qed.

Lemma run_single_holder today op db :
  single_holder db -> single_holder (run today op db).
Proof.
  destruct op; simpl; intros H; auto.
  - now apply addStudent_single_holder.
  - now apply setSectionLeader_single_holder.
  - now apply checkoutInstrument_single_holder.
  - now apply returnInstrument_single_holder.
  - now apply addInstrumentToInventory_single_holder.
  - now apply checkoutUniform_single_holder.
  - now apply returnUniform_single_holder.
  - now apply checkoutShako_single_holder.
  - now apply returnShako_single_holder.
  - now apply updateStudentCompliance_single_holder.
Qed.

Lemma ensureTables_single_holder : single_holder ensureTables.
Proof.
  split; split; simpl; constructor.
Qed.

Lemma reachable_single_holder db : reachable db -> single_holder db.
Proof.
  induction 1; [apply ensureTables_single_holder|now apply run_single_holder].
Qed.

(** ** The keys and ranges are kept by every action *)

Section TableKeys.
Variable D : Type.
Implicit Types (t : table D) (r : row D) (l : list (row D)).

Lemma map_keeps_ids (f : row D -> row D) l :
  (forall r, ITEM_ID (f r) = ITEM_ID r) ->
  map (@ITEM_ID D) (map f l) = map (@ITEM_ID D) l.
Proof.
  intros H. rewrite map_map. apply map_ext. exact H.
Qed.

Lemma table_wf_map (f : row D -> row D) t :
  (forall r, ITEM_ID (f r) = ITEM_ID r) ->
  (forall r, slot_clear r -> slot_clear (f r)) ->
  table_wf t -> table_wf (mkTable (map f (rows t)) (seq t)).
Proof.
  intros Hf Hc [Hd Ha Hs Hsc]. split; simpl; auto.
  - now rewrite map_keeps_ids.
  - rewrite Forall_forall in *. intros r Hr.
    apply in_map_iff in Hr. destruct Hr as [r0 [<- Hr0]].
    rewrite Hf. auto.
  - rewrite Forall_forall in *. intros r Hr.
    apply in_map_iff in Hr. destruct Hr as [r0 [<- Hr0]]. auto.
Qed.

Lemma update_checkout_wf ex t sid iid today c t' n :
  table_wf t -> update_checkout ex t sid iid today = (c, t', n) ->
  table_wf t'.
Proof.
  intros H. unfold update_checkout.
  repeat case_if; intros [= <- <- <-]; auto.
  apply table_wf_map; auto; intros r; case_if; auto.
  unfold slot_clear. simpl. discriminate.
Qed.

Lemma update_return_wf t iid c t' n :
  table_wf t -> update_return t iid = (c, t', n) -> table_wf t'.
Proof.
  intros H. unfold update_return. intros [= <- <- <-].
  apply table_wf_map; auto; intros r; case_if; auto.
  unfold slot_clear. reflexivity.
Qed.

Lemma insert_item_wf u f t d notes co date c t' :
  (co = None -> date = None) ->
  table_wf t -> insert_item u f t d notes co date = (c, t') ->
  table_wf t'.
Proof.
  intros Hco [Hd Ha Hs Hsc]. unfold insert_item.
  repeat case_if; intros [= <- <-]; try (split; assumption).
  split; simpl; [| |lia|apply Forall_app; split; auto].
  - rewrite map_app. simpl.
    apply (Permutation_NoDup (Permutation_cons_append _ _)).
    constructor; auto. intros Hin. apply in_map_iff in Hin.
    destruct Hin as [r [Hr Hin]]. rewrite Forall_forall in Ha.
    apply Ha in Hin. lia.
  - apply Forall_app. split.
    + eapply Forall_impl; [|exact Ha]. simpl. intros; lia.
    + constructor; [|constructor]. simpl. lia.
Qed.
End TableKeys.

Lemma studentExists_In db id :
  studentExists db id = true
  <-> In id (map STUDENTS.STUDENT_ID (students db)).
Proof.
  unfold studentExists. rewrite existsb_exists, in_map_iff.
  split; intros [s [H1 H2]]; exists s.
  - apply Z.eqb_eq in H2. auto.
  - subst. split; auto. apply Z.eqb_refl.
Qed.

Lemma compliance_key_In id l :
  existsb (compliance_key id) l = true
  <-> In id (map COMPLIANCE.STUDENT_ID l).
Proof.
  unfold compliance_key. rewrite existsb_exists, in_map_iff.
  split; intros [c [H1 H2]]; exists c.
  - apply Z.eqb_eq in H2. auto.
  - subst. split; auto. apply Z.eqb_refl.
Qed.

Lemma NoDup_snoc A (l : list A) x : NoDup l -> ~ In x l -> NoDup (l ++ [x]).
Proof.
  intros Hl Hx. apply (Permutation_NoDup (Permutation_cons_append _ _)).
  now constructor.
Qed.

Ltac wf_split H :=
  let Hsk := fresh "Hsk" in
  let Hck := fresh "Hck" in
  let Hcf := fresh "Hcf" in
  let Hcr := fresh "Hcr" in
  let Hi := fresh "Hi" in
  let Hu := fresh "Hu" in
  let Hk := fresh "Hk" in
  let Hif := fresh "Hif" in
  destruct H as [Hsk Hck Hcf Hcr Hi Hu Hk Hif]; split; simpl; auto.

Lemma insert_student_wf db s c db' :
  wf db -> insert_student db s = (c, db') -> wf db'.
Proof.
  intros H. unfold insert_student.
  destruct (studentExists db (STUDENTS.STUDENT_ID s)) eqn:Ex;
    [intros [= <- <-]; auto|].
  case_if; intros [= <- <-]; auto.
  wf_split H.
  - rewrite map_app. apply NoDup_snoc; auto.
    intros Hin. apply studentExists_In in Hin. congruence.
  - eapply Forall_impl; [|exact Hcf]. intros a Ha.
    now apply studentExists_app.
Qed.

Lemma insert_or_ignore_compliance_wf today id db :
  wf db -> wf (insert_or_ignore_compliance today id db).
Proof.
  intros H. unfold insert_or_ignore_compliance.
  destruct (existsb (compliance_key id) (compliance db)) eqn:Ek; auto.
  destruct (studentExists db id) eqn:Ex; simpl; auto.
  wf_split H.
  - rewrite map_app. simpl. apply NoDup_snoc; auto.
    intros Hin. apply compliance_key_In in Hin. congruence.
  - apply Forall_app. split; auto.
  - apply Forall_app. split; auto. constructor; simpl; auto. lia.
Qed.

Lemma addStudent_wf today id fn ln cl sec sh so db :
  wf db -> wf (fst (addStudent today id fn ln cl sec sh so db)).
Proof.
  intros H. unfold addStudent, addStudent_on.
  destruct (insert_student _ _) as [c db1] eqn:E.
  destruct c; simpl; auto.
  apply insert_or_ignore_compliance_wf. eapply insert_student_wf; eauto.
Qed.

Lemma upsert_compliance_wf today id hours gpa dues db c db' :
  0 <= hours <= 30 ->
  wf db -> upsert_compliance today id hours gpa dues db = (c, db') -> wf db'.
Proof.
  intros Hh H. unfold upsert_compliance.
  destruct (is_nan gpa || (hours <? 0) || negb ((dues =? 0) || (dues =? 1)))
    eqn:Echeck; [intros [= <- <-]; auto|].
  assert (dues = 0 \/ dues = 1) as Hdues.
  { apply orb_false_elim in Echeck. destruct Echeck as [_ E].
    apply negb_false_iff, orb_prop in E.
    destruct E as [E|E]; apply Z.eqb_eq in E; auto. }
  destruct (existsb (compliance_key id) (compliance db)) eqn:Ek.
  - intros [= <- <-]. wf_split H.
    + rewrite map_map.
      erewrite map_ext; [exact Hck|]. intros a. now case_if.
    + rewrite Forall_forall in *. intros a Ha.
      apply in_map_iff in Ha. destruct Ha as [a0 [<- Ha0]].
      case_if; simpl; exact (Hcf _ Ha0).
    + rewrite Forall_forall in *. intros a Ha.
      apply in_map_iff in Ha. destruct Ha as [a0 [<- Ha0]].
      case_if; simpl; [split; assumption | exact (Hcr _ Ha0)].
  - destruct (studentExists db id) eqn:Ex; simpl;
      intros [= <- <-]; auto.
    wf_split H.
    + rewrite map_app. simpl. apply NoDup_snoc; auto.
      intros Hin. apply compliance_key_In in Hin. congruence.
    + apply Forall_app. split; auto.
    + apply Forall_app. split; auto.
Qed.

Lemma updateStudentCompliance_wf today id hours gpa dues db :
  input_ok (UpdateStudentCompliance id hours gpa dues) = true ->
  wf db -> wf (fst (updateStudentCompliance today id hours gpa dues db)).
Proof.
  intros Hok H. unfold updateStudentCompliance.
  case_if; simpl; auto.
  destruct (upsert_compliance _ _ _ _ _ _) as [c db1] eqn:E.
  destruct c; simpl; auto.
  eapply upsert_compliance_wf; [|exact H|exact E].
  simpl in Hok. unfold readIntInRange_accepts in Hok.
  repeat (apply andb_prop in Hok; destruct Hok as [Hok ?]).
  lia.
Qed.

Lemma setSectionLeader_wf section leaderId db :
  wf db -> wf (fst (setSectionLeader section leaderId db)).
Proof.
  intros H. unfold setSectionLeader, upsert_section_leader.
  repeat case_if; simpl; auto; wf_split H.
Qed.

Lemma Forall_map_keeps_descr D (P : D -> Prop) (f : row D -> row D) l :
  (forall r, DESCR (f r) = DESCR r) ->
  Forall (fun r => P (DESCR r)) l ->
  Forall (fun r => P (DESCR r)) (map f l).
Proof.
  intros Hf H. rewrite Forall_forall in *. intros r Hr.
  apply in_map_iff in Hr. destruct Hr as [r0 [<- Hr0]].
  rewrite Hf. auto.
Qed.

Lemma addInstrumentToInventory_wf typeId serial notes db :
  wf db -> wf (fst (addInstrumentToInventory typeId serial notes db)).
Proof.
  intros H. unfold addInstrumentToInventory, insert_instrument.
  destruct (insert_item _ _ _ _ _ _ _) as [c t] eqn:E.
  destruct c; simpl; auto.
  wf_split H.
  - eapply insert_item_wf; [|exact Hi|exact E]. reflexivity.
  - revert E. unfold insert_item. repeat case_if; intros [= <-].
    simpl. apply Forall_app. split; auto.
    constructor; auto. simpl.
    match goal with
    | H : _ || negb ?b = false |- _ =>
        apply orb_false_elim in H; destruct H as [_ H];
        now apply negb_false_iff in H
    end.
Qed.

Lemma checkoutInstrument_wf today studentId filter instrumentId db :
  wf db ->
  wf (fst (checkoutInstrument today studentId filter instrumentId db)).
Proof.
  intros H. unfold checkoutInstrument.
  destruct (getStudentSection db studentId); simpl; auto.
  case_if; simpl; auto.
  destruct (update_checkout _ _ _ _ _) as [[c t] n] eqn:E.
  destruct c; simpl; auto.
  wf_split H.
  - eapply update_checkout_wf; eauto.
  - revert E. unfold update_checkout. repeat case_if;
      intros [= <- <-]; auto.
    simpl.
    apply (@Forall_map_keeps_descr _
             (fun d => existsb (type_key (TYPE_ID d)) (instrument_types db)
                       = true)); auto.
    intros r. now case_if.
Qed.

Lemma returnInstrument_wf instrumentId db :
  wf db -> wf (fst (returnInstrument instrumentId db)).
Proof.
  intros H. unfold returnInstrument. case_if; simpl; auto.
  wf_split H.
  - eapply update_return_wf; [exact Hi|reflexivity].
  - apply (@Forall_map_keeps_descr _
             (fun d => existsb (type_key (TYPE_ID d)) (instrument_types db)
                       = true)); auto.
    intros r. now case_if.
Qed.

Lemma checkoutUniform_wf today studentId cs ps cn pn notes db :
  wf db -> wf (fst (checkoutUniform today studentId cs ps cn pn notes db)).
Proof.
  intros H. unfold checkoutUniform, insert_uniform.
  case_if; simpl; auto.
  destruct (insert_item _ _ _ _ _ _ _) as [c t] eqn:E.
  destruct c; simpl; auto.
  wf_split H.
  eapply insert_item_wf; [|exact Hu|exact E]. intros [=].
Qed.

Lemma returnUniform_wf uniformId db :
  wf db -> wf (fst (returnUniform uniformId db)).
Proof.
  intros H. unfold returnUniform. case_if; simpl; auto.
  wf_split H. eapply update_return_wf; [exact Hu|reflexivity].
Qed.

Lemma checkoutShako_wf today studentId size notes db :
  wf db -> wf (fst (checkoutShako today studentId size notes db)).
Proof.
  intros H. unfold checkoutShako, insert_shako.
  case_if; simpl; auto.
  destruct (insert_item _ _ _ _ _ _ _) as [c t] eqn:E.
  destruct c; simpl; auto.
  wf_split H.
  eapply insert_item_wf; [|exact Hk|exact E]. intros [=].
Qed.

Lemma returnShako_wf shakoId db :
  wf db -> wf (fst (returnShako shakoId db)).
Proof.
  intros H. unfold returnShako. case_if; simpl; auto.
  wf_split H. eapply update_return_wf; [exact Hk|reflexivity].
Qed.

Lemma run_wf today op db :
  input_ok op = true -> wf db -> wf (run today op db).
Proof.
  destruct op; simpl run; intros Hok H; auto.
  - now apply addStudent_wf.
  - now apply setSectionLeader_wf.
  - now apply checkoutInstrument_wf.
  - now apply returnInstrument_wf.
  - now apply addInstrumentToInventory_wf.
  - now apply checkoutUniform_wf.
  - now apply returnUniform_wf.
  - now apply checkoutShako_wf.
  - now apply returnShako_wf.
  - now apply updateStudentCompliance_wf.
Qed.

Lemma ensureTables_wf : wf ensureTables.
Proof.
  split; simpl; try constructor; simpl; try constructor; lia.
Qed.

Lemma reachable_wf db : reachable db -> wf db.
Proof.
  induction 1; [apply ensureTables_wf|now apply run_wf].
Qed.

Lemma reachable_produced db : reachable db -> produced db.
Proof.
  induction 1; [apply prod_init | now apply prod_step].
Qed.



Lemma session_reachable ops db :
  reachable db ->
  forallb (fun o => input_ok (snd o)) ops = true ->
  reachable (session ops db).
Proof.
  revert db. induction ops as [|o ops IH]; simpl; intros db Hr Hok; auto.
  apply andb_prop in Hok. destruct Hok as [Ho Hops].
  apply IH; auto. now apply reach_step.
Qed.

(** ** ORDER BY returns every row, sorted *)

Lemma then_by_antisymmetric A (c1 c2 : A -> A -> comparison) :
  antisymmetric c1 -> antisymmetric c2 ->
  antisymmetric (fun a b => then_by (c1 a b) (c2 a b)).
Proof.
  intros H1 H2 a b. rewrite H1, H2.
  destruct (c1 a b); reflexivity.
Qed.

Lemma string_key_antisymmetric A (f : A -> string) :
  antisymmetric (fun a b => String.compare (f a) (f b)).
Proof. intros a b. apply String.compare_antisym. Qed.

Section OrderByFacts.
Variable A : Type.
Variable cmp : A -> A -> comparison.

Lemma insert_row_perm x l : Permutation (insert_row cmp x l) (x :: l).
Proof.
  induction l as [|y l IH]; simpl; auto.
  destruct (precedes cmp x y); auto.
  rewrite perm_swap. now constructor.
Qed.

Lemma order_by_perm l : Permutation (order_by cmp l) l.
Proof.
  induction l as [|x l IH]; simpl; auto.
  rewrite insert_row_perm. now constructor.
Qed.

Lemma order_by_In x l : In x (order_by cmp l) <-> In x l.
Proof.
  split; apply Permutation_in;
    [apply order_by_perm | apply Permutation_sym, order_by_perm].
Qed.

Lemma any_In (x : A) l : In x l -> any l = true.
Proof. destruct l; simpl; [easy | reflexivity]. Qed.

Lemma any_order_by l : any (order_by cmp l) = any l.
Proof.
  destruct l as [|x l]; [reflexivity|].
  simpl any at 2. apply any_In with (x := x).
  apply order_by_In. now left.
Qed.

Lemma insert_row_ext (cmp' : A -> A -> comparison) x l :
  (forall y, In y l -> cmp x y = cmp' x y) ->
  insert_row cmp x l = insert_row cmp' x l.
Proof.
  induction l as [|y l IH]; simpl; intros H; [reflexivity|].
  unfold precedes. rewrite (H y) by auto.
  destruct (cmp' x y); try reflexivity. f_equal. auto.
Qed.

Hypothesis cmp_antisym : antisymmetric cmp.

Lemma precedes_total a b : precedes cmp a b = false -> in_order cmp b a.
Proof.
  unfold in_order, precedes. rewrite (cmp_antisym a b).
  destruct (cmp a b); simpl; congruence.
Qed.

Lemma insert_row_sorted x l :
  Sorted (in_order cmp) l -> Sorted (in_order cmp) (insert_row cmp x l).
Proof.
  induction l as [|y l IH]; simpl; intros Hs.
  - repeat constructor.
  - destruct (precedes cmp x y) eqn:E.
    + constructor; auto.
    + inversion Hs as [|? ? Hl Hhd]; subst.
      constructor; auto.
      destruct l as [|z l]; simpl.
      * constructor. now apply precedes_total.
      * destruct (precedes cmp x z); constructor;
          [now apply precedes_total | now inversion Hhd].
Qed.

Lemma order_by_sorted l : Sorted (in_order cmp) (order_by cmp l).
Proof.
  induction l as [|x l IH]; simpl; [constructor|].
  now apply insert_row_sorted.
Qed.
End OrderByFacts.

(** A flag sorted DESC in front of other keys: the rows with the flag come
    first, each part in the order of the other keys. *)
Section FlagFirst.
Variable A : Type.
Variable flag : A -> bool.
Variable cmp : A -> A -> comparison.

Lemma insert_row_flag x l1 l2 :
  Forall (fun y => flag y = true) l1 ->
  Forall (fun y => flag y = false) l2 ->
  insert_row (flag_desc_then flag cmp) x (l1 ++ l2)
  = if flag x then insert_row cmp x l1 ++ l2
    else l1 ++ insert_row cmp x l2.
Proof.
  intros H1 H2. induction H1 as [|y l1 Hy H1 IH]; simpl.
  - destruct (flag x) eqn:Ex.
    + destruct l2 as [|z l2]; simpl; [reflexivity|].
      inversion H2; subst. unfold precedes, flag_desc_then.
      rewrite Ex. now replace (flag z) with false.
    + apply insert_row_ext. intros z Hz.
      rewrite Forall_forall in H2. unfold flag_desc_then.
      now rewrite Ex, (H2 z Hz).
  - unfold precedes at 1. unfold flag_desc_then at 1. rewrite Hy.
    destruct (flag x) eqn:Ex; simpl.
    + unfold precedes. destruct (cmp x y); try reflexivity.
      f_equal. rewrite IH. reflexivity.
    + f_equal. exact IH.
Qed.

Lemma order_by_flag l :
  order_by (flag_desc_then flag cmp) l
  = order_by cmp (filter flag l)
    ++ order_by cmp (filter (fun y => negb (flag y)) l).
Proof.
  induction l as [|x l IH]; simpl; [reflexivity|].
  rewrite IH, insert_row_flag.
  - destruct (flag x); reflexivity.
  - apply Forall_forall. intros y Hy.
    apply order_by_In, filter_In in Hy. tauto.
  - apply Forall_forall. intros y Hy.
    apply order_by_In, filter_In in Hy.
    now apply negb_true_iff.
Qed.
End FlagFirst.

(** ** The sample session is a run of the program *)

Lemma sample_reachable : reachable sample_db.
Proof.
  apply session_reachable; [apply reach_init | reflexivity].
Qed.

(** ** The single-holder rule *)

(** The rule read on the rows: two rows of one table whose slots name the
    same student are the same row. *)
Lemma holders_distinct_rows D (l : list (row D)) :
  NoDup (holders l) ->
  forall i j r1 r2 s,
    nth_error l i = Some r1 -> nth_error l j = Some r2 ->
    CHECKED_OUT_TO r1 = Some s -> CHECKED_OUT_TO r2 = Some s -> i = j.
Proof.
  assert (forall (l : list (row D)) j r s,
             nth_error l j = Some r -> CHECKED_OUT_TO r = Some s ->
             In s (holders l)) as Hin.
  { intros l0 j r s Hn Hs. apply nth_error_In in Hn.
    unfold holders. apply in_flat_map. exists r. rewrite Hs. simpl. auto. }
  induction l as [|r l IH]; intros Hnd i j r1 r2 s H1 H2 Hs1 Hs2.
  - destruct i; discriminate.
  - rewrite holders_cons in Hnd.
    destruct i as [|i], j as [|j]; simpl in *; auto.
    + injection H1 as ->. rewrite Hs1 in Hnd. inversion Hnd; subst.
      exfalso. eauto.
    + injection H2 as ->. rewrite Hs2 in Hnd. inversion Hnd; subst.
      exfalso. eauto.
    + f_equal. apply (IH (ltac:(destruct (CHECKED_OUT_TO r);
                                 [now inversion Hnd | exact Hnd]))
                        i j r1 r2 s); auto.
Qed.

(** C1: in every database the program can reach, and for each of the three
    inventory tables, every student named by a checkout slot exists in
    STUDENTS and no student is named by two slots of the same table; every
    menu action (adding a student, adding an instrument, each checkout and
    each return among them) leaves this rule in force. *)
Theorem single_holder_invariant db :
  reachable db ->
  single_holder db /\ forall today op, single_holder (run today op db).
Proof.
  intros H. apply reachable_single_holder in H.
  split; [exact H|]. intros today op. now apply run_single_holder.
Qed.

Lemma single_holder_invariant_witness :
  single_holder sample_db
  /\ forall today op, single_holder (run today op sample_db).
Proof.
  apply (single_holder_invariant (db := sample_db)).
  apply session_reachable; [apply reach_init | reflexivity].
Defined.

(** ** Reading the roster *)

Unset Implicit Arguments.

Lemma sqlite3_column_int_small v :
  int_min <= v <= int_max -> sqlite3_column_int v = v.
Proof.
  unfold sqlite3_column_int, int_min, int_max. intros H.
  rewrite Z.mod_small; lia.
Qed.

Lemma find_by_key A (key : A -> Z) l x :
  NoDup (map key l) -> In x l ->
  find (fun y => key y =? key x) l = Some x.
Proof.
  induction l as [|a l IH]; simpl; intros Hnd Hin; [easy|].
  inversion Hnd as [|? ? Hna Hnd']; subst.
  destruct Hin as [->|Hin]; [now rewrite Z.eqb_refl|].
  destruct (Z.eqb_spec (key a) (key x)) as [E|_]; [|auto].
  exfalso. apply Hna. rewrite E. now apply in_map.
Qed.

Lemma find_map A B (f : A -> B) (p : B -> bool) l :
  find p (map f l) = option_map f (find (fun a => p (f a)) l).
Proof.
  induction l as [|a l IH]; simpl; [reflexivity|].
  destruct (p (f a)); auto.
Qed.

Lemma find_joined db s :
  NoDup (map STUDENTS.STUDENT_ID (students db)) -> In s (students db) ->
  find (fun j : joined =>
          STUDENTS.STUDENT_ID (fst j) =? STUDENTS.STUDENT_ID s)
       (left_join_compliance db)
  = Some (s, find (compliance_key (STUDENTS.STUDENT_ID s)) (compliance db)).
Proof.
  intros Hnd Hin. unfold left_join_compliance.
  rewrite find_map. simpl. now rewrite find_by_key.
Qed.

Lemma In_joined db s :
  In s (students db) ->
  In (s, find (compliance_key (STUDENTS.STUDENT_ID s)) (compliance db))
     (left_join_compliance db).
Proof.
  intros H. unfold left_join_compliance.
  apply in_map_iff. exists s. auto.
Qed.

Lemma wf_compliance_row db id c :
  wf db -> find (compliance_key id) (compliance db) = Some c ->
  0 <= COMPLIANCE.CREDIT_HOURS c <= 30
  /\ (COMPLIANCE.DUES_PAID c = 0 \/ COMPLIANCE.DUES_PAID c = 1).
Proof.
  intros H Hf. apply find_some in Hf. destruct Hf as [Hin _].
  destruct H as [_ _ _ Hr _ _ _ _]. rewrite Forall_forall in Hr. auto.
Qed.

Lemma ELIGIBLE_flag j : ELIGIBLE j = 0 \/ ELIGIBLE j = 1.
Proof. unfold ELIGIBLE. destruct (_ && _); simpl; auto. Qed.

Lemma column_int_flag v : v = 0 \/ v = 1 -> sqlite3_column_int v = v.
Proof. intros [->| ->]; reflexivity. Qed.

(** On a stored record in range, the three ways the flag is computed (SQL
    in [viewAllStudents] and [showEligibilityReport], C++ in
    [findStudentById]) give the specified value. *)
Lemma flags_of_record s c :
  0 <= COMPLIANCE.CREDIT_HOURS c <= 30 ->
  COMPLIANCE.DUES_PAID c = 0 \/ COMPLIANCE.DUES_PAID c = 1 ->
  let e := spec_eligible (COMPLIANCE.CREDIT_HOURS c) (COMPLIANCE.GPA c)
             (COMPLIANCE.DUES_PAID c =? 1) in
  sl_elig (student_line (s, Some c)) = Z.b2z e
  /\ p_eligible (profile (s, Some c)) = e
  /\ rl_elig (report_line (s, Some c)) = Z.b2z e.
Proof.
  intros Hh Hd e. unfold student_line, profile, report_line. simpl.
  rewrite (column_int_flag _ (ELIGIBLE_flag _)).
  unfold c_CREDIT_HOURS, c_DUES_PAID, c_GPA. simpl.
  rewrite (sqlite3_column_int_small (COMPLIANCE.CREDIT_HOURS c))
    by (unfold int_min, int_max; lia).
  rewrite (column_int_flag _ Hd).
  repeat split; reflexivity.
Qed.

(** C2: for a student and the ComplianceRecord stored for that student, the
    eligibility flag shown by viewAllStudents, by findStudentById and by
    showEligibilityReport equals (creditHours >= 12) AND (gpa >= 3.0) AND
    (duesPaid = 1); the flag is computed from the stored facts at each
    read, and none of the three reads changes the database. *)
Theorem eligibility_read_paths db s c :
  reachable db ->
  In s (students db) ->
  find (compliance_key (STUDENTS.STUDENT_ID s)) (compliance db) = Some c ->
  let e := spec_eligible (COMPLIANCE.CREDIT_HOURS c) (COMPLIANCE.GPA c)
             (COMPLIANCE.DUES_PAID c =? 1) in
  (In (student_line (s, Some c)) (viewAllStudents db)
   /\ sl_elig (student_line (s, Some c)) = Z.b2z e)
  /\ (findStudentById db (STUDENTS.STUDENT_ID s) = Some (profile (s, Some c))
      /\ p_eligible (profile (s, Some c)) = e)
  /\ (In (report_line (s, Some c)) (showEligibilityReport db)
      /\ rl_elig (report_line (s, Some c)) = Z.b2z e)
  /\ (forall today,
        run today ViewAllStudents db = db
        /\ run today (FindStudentById (STUDENTS.STUDENT_ID s)) db = db
        /\ run today ShowEligibilityReport db = db).
Proof.
  intros Hr Hs Hc e. apply reachable_wf in Hr.
  destruct (wf_compliance_row db _ c Hr Hc) as [Hh Hd].
  destruct (flags_of_record s c Hh Hd) as [E1 [E2 E3]].
  pose proof (In_joined db s Hs) as Hj. rewrite Hc in Hj.
  repeat split; auto.
  - unfold viewAllStudents. apply in_map. now apply order_by_In.
  - unfold findStudentById.
    rewrite find_joined by (auto; apply Hr). now rewrite Hc.
  - unfold showEligibilityReport. apply in_map. now apply order_by_In.
Qed.

Lemma eligibility_read_paths_witness :
  (In (student_line (bo, Some bo_record)) (viewAllStudents sample_db)
   /\ sl_elig (student_line (bo, Some bo_record)) = 1)
  /\ (findStudentById sample_db 202 = Some (profile (bo, Some bo_record))
      /\ p_eligible (profile (bo, Some bo_record)) = true)
  /\ (In (report_line (bo, Some bo_record)) (showEligibilityReport sample_db)
      /\ rl_elig (report_line (bo, Some bo_record)) = 1)
  /\ (forall today,
        run today ViewAllStudents sample_db = sample_db
        /\ run today (FindStudentById 202) sample_db = sample_db
        /\ run today ShowEligibilityReport sample_db = sample_db).
Proof.
  apply (eligibility_read_paths sample_db bo bo_record).
  - apply session_reachable; [apply reach_init | reflexivity].
  - vm_compute. right. left. reflexivity.
  - reflexivity.
Defined.



(** ** Creating a student *)

Lemma find_app_new A (p : A -> bool) l x :
  existsb p l = false -> p x = true -> find p (l ++ [x]) = Some x.
Proof.
  intros Hl Hx. induction l as [|a l IH]; simpl in *.
  - now rewrite Hx.
  - apply orb_false_elim in Hl. destruct Hl as [-> Hl]. auto.
Qed.

Lemma no_orphan_compliance db id :
  wf db -> studentExists db id = false ->
  existsb (compliance_key id) (compliance db) = false.
Proof.
  intros Hwf Ex.
  destruct (existsb _ _) eqn:E; [|reflexivity].
  apply compliance_key_In in E. apply in_map_iff in E.
  destruct E as [c0 [Hid Hc0]].
  destruct Hwf as [_ _ Hfk _ _ _ _ _]. rewrite Forall_forall in Hfk.
  apply Hfk in Hc0. congruence.
Qed.

Lemma addStudent_on_failure db second today id fn ln cl sec sh so :
  studentExists db id = true \/ section_allowed sec = false ->
  addStudent_on second today id fn ln cl sec sh so db = (db, Insert_failed).
Proof.
  unfold addStudent_on, insert_student. simpl.
  intros [-> | ->]; [reflexivity|].
  now destruct (studentExists db id).
Qed.

Lemma addStudent_failure db today id fn ln cl sec sh so :
  studentExists db id = true \/ section_allowed sec = false ->
  addStudent today id fn ln cl sec sh so db = (db, Insert_failed).
Proof. apply addStudent_on_failure. Qed.

Lemma addStudent_on_success db second today id fn ln cl sec sh so :
  wf db -> studentExists db id = false -> section_allowed sec = true ->
  addStudent_on second today id fn ln cl sec sh so db
  = (match second with
     | Runs =>
         set_compliance
           (set_students db
              (students db
               ++ [STUDENTS.mk id (c_str fn) (c_str ln)
                     (Some (c_str (trim cl))) sec
                     (bind_text_or_null (trim sh))
                     (bind_text_or_null (trim so))]))
           (compliance db ++ [COMPLIANCE.mk id 0 d0_0 0 (Some today)])
     | Fails =>
         set_students db
           (students db
            ++ [STUDENTS.mk id (c_str fn) (c_str ln)
                  (Some (c_str (trim cl))) sec
                  (bind_text_or_null (trim sh))
                  (bind_text_or_null (trim so))])
     end,
     Student_added).
Proof.
  intros Hwf Ex Hsec. unfold addStudent_on, insert_student. simpl.
  rewrite Ex, Hsec. simpl.
  destruct second; [|reflexivity].
  unfold insert_or_ignore_compliance. simpl.
  rewrite (no_orphan_compliance db id Hwf Ex).
  unfold studentExists. simpl. rewrite existsb_app. simpl.
  rewrite Z.eqb_refl, orb_true_r. reflexivity.
Qed.

Lemma addStudent_success db today id fn ln cl sec sh so :
  wf db -> studentExists db id = false -> section_allowed sec = true ->
  addStudent today id fn ln cl sec sh so db
  = (set_compliance
       (set_students db
          (students db
           ++ [STUDENTS.mk id (c_str fn) (c_str ln) (Some (c_str (trim cl)))
                 sec (bind_text_or_null (trim sh))
                 (bind_text_or_null (trim so))]))
       (compliance db ++ [COMPLIANCE.mk id 0 d0_0 0 (Some today)]),
     Student_added).
Proof.
  intros Hwf Ex Hsec. unfold addStudent.
  now rewrite addStudent_on_success.
Qed.

Lemma find_none_of_existsb A (p : A -> bool) l :
  existsb p l = false -> find p l = None.
Proof.
  induction l as [|a l IH]; simpl; [reflexivity|].
  destruct (p a); [discriminate | exact IH].
Qed.




(** ** Updating compliance *)

Lemma filter_nil A (f : A -> bool) l :
  (forall x, In x l -> f x = false) -> filter f l = [].
Proof.
  induction l as [|a l IH]; simpl; intros H; [reflexivity|].
  rewrite (H a) by auto. auto.
Qed.

Lemma filter_upserted id hours gpa dues date l :
  NoDup (map COMPLIANCE.STUDENT_ID l) ->
  existsb (compliance_key id) l = true ->
  filter (compliance_key id)
    (map (fun c => if compliance_key id c
                   then COMPLIANCE.mk (COMPLIANCE.STUDENT_ID c)
                          hours gpa dues date
                   else c) l)
  = [COMPLIANCE.mk id hours gpa dues date].
Proof.
  induction l as [|a l IH]; simpl; intros Hnd Hex; [discriminate|].
  inversion Hnd as [|? ? Hna Hnd']; subst.
  destruct (compliance_key id a) eqn:Ea.
  - apply Z.eqb_eq in Ea. rewrite Ea.
    unfold compliance_key at 1. simpl. rewrite Z.eqb_refl. f_equal.
    assert (forall x, In x l -> compliance_key id x = false) as Hno.
    { intros x Hx. destruct (compliance_key id x) eqn:Ex; [|reflexivity].
      exfalso. apply Hna. apply Z.eqb_eq in Ex.
      rewrite Ea, <- Ex. now apply in_map. }
    rewrite map_unhit by exact Hno. now apply filter_nil.
  - simpl in Hex. rewrite Ea. auto.
Qed.

Lemma accepted_double_not_nan lo hi x :
  readDoubleInRange_accepts lo hi x = true -> is_nan x = false.
Proof.
  unfold readDoubleInRange_accepts, double_ge, double_le, SFleb.
  destruct x; try reflexivity.
  destruct lo; simpl; discriminate.
Qed.

Lemma sqlite_real_same_number x :
  is_nan x = false -> SFeqb (sqlite_real x) x = true.
Proof.
  destruct x as [s|s| |s m e]; simpl; intros H; try discriminate.
  - reflexivity.
  - now destruct s.
  - unfold SFeqb, SFcompare.
    destruct s; now rewrite Z.compare_refl, Pos.compare_refl.
Qed.

Lemma filter_key_length id (f : COMPLIANCE.row -> COMPLIANCE.row) l :
  List.length (map (fun c => if compliance_key id c then f c else c) l)
  = List.length l.
Proof. apply length_map. Qed.

(** C10: for a student of the roster and values that passed the input
    checks (0..30 hours, GPA 0.00..4.00, dues 0 or 1), updateStudentCompliance
    reports success whether or not a COMPLIANCE row was there, in any
    database that keeps the key of COMPLIANCE; afterwards the student has
    exactly one COMPLIANCE row, holding the given hours, the given GPA
    (the same number; a negative zero is held as zero) and dues flag with
    today's date.  When no row was there, that row is inserted behind the
    others; when one was there it is replaced and no row is added. *)
Theorem updateStudentCompliance_upserts db today id hours gpa dues :
  NoDup (map COMPLIANCE.STUDENT_ID (compliance db)) ->
  studentExists db id = true ->
  input_ok (UpdateStudentCompliance id hours gpa dues) = true ->
  let db' := fst (updateStudentCompliance today id hours gpa dues db) in
  let c := COMPLIANCE.mk id hours (sqlite_real gpa) dues (Some today) in
  snd (updateStudentCompliance today id hours gpa dues db) = Compliance_saved
  /\ filter (compliance_key id) (compliance db') = [c]
  /\ SFeqb (COMPLIANCE.GPA c) gpa = true
  /\ (find (compliance_key id) (compliance db) = None ->
      compliance db' = compliance db ++ [c])
  /\ (find (compliance_key id) (compliance db) <> None ->
      List.length (compliance db') = List.length (compliance db))
  /\ students db' = students db.
Proof.
  intros Hnd Hex Hok db' c. subst db'.
  simpl in Hok. unfold readIntInRange_accepts, readBool01_accepts in Hok.
  repeat (apply andb_prop in Hok; destruct Hok as [Hok ?]).
  pose proof (accepted_double_not_nan d0_0 d4_0 gpa) as Hnan.
  unfold updateStudentCompliance, upsert_compliance.
  rewrite Hex. simpl negb. cbv iota.
  rewrite Hnan by assumption.
  replace (hours <? 0) with false by (symmetry; apply Z.ltb_ge; lia).
  replace ((dues =? 0) || (dues =? 1)) with true by auto.
  simpl orb. cbv iota.
  destruct (existsb (compliance_key id) (compliance db)) eqn:Ek; simpl.
  - split; [reflexivity|]. split; [now apply filter_upserted|].
    split; [apply sqlite_real_same_number; auto|].
    split; [|split; [|reflexivity]].
    + intros Hnone. exfalso.
      apply existsb_exists in Ek. destruct Ek as [x [Hx Hk]].
      pose proof (find_none _ _ Hnone x Hx). congruence.
    + intros _. apply filter_key_length.
  - split; [reflexivity|]. split.
    { rewrite filter_app, filter_nil.
      + simpl. unfold compliance_key at 1. simpl.
        now rewrite Z.eqb_refl.
      + now apply existsb_false_forall. }
    split; [apply sqlite_real_same_number; auto|].
    split; [reflexivity|]. split; [|reflexivity].
    intros Hsome. exfalso. apply Hsome.
    now apply find_none_of_existsb.
Qed.

Lemma updateStudentCompliance_upserts_witness :
  produced (fst add_di_unrecorded)
  /\ find (compliance_key 303) (compliance (fst add_di_unrecorded)) = None
  /\ snd update_di = Compliance_saved
  /\ filter (compliance_key 303) (compliance (fst update_di)) = [di_updated]
  /\ compliance (fst update_di)
     = compliance (fst add_di_unrecorded) ++ [di_updated]
  /\ students (fst update_di) = students (fst add_di_unrecorded).
Proof.
  destruct (updateStudentCompliance_upserts (fst add_di_unrecorded)
              "2024-09-07" 303 12 d3_0 1)
    as [Hmsg [Hone [_ [Hnew [_ Hst]]]]].
  - exact (wf_compliance_key (reachable_wf sample_reachable)).
  - reflexivity.
  - reflexivity.
  - split.
    { apply (@prod_unrecorded sample_db "2024-09-06" 303 "Di" "Snare"
               " Freshman" "PERCUSSION" "" "8 ");
        [apply reachable_produced, sample_reachable | reflexivity]. }
    split; [reflexivity|]. split; [exact Hmsg|]. split; [exact Hone|].
    split; [apply Hnew; reflexivity | exact Hst].
Defined.

Lemma negative_zero_is_stored_as_zero :
  input_ok (UpdateStudentCompliance 101 12 (S754_zero true) 1) = true
  /\ find (compliance_key 101)
       (compliance
          (fst (updateStudentCompliance "2024-09-07" 101 12 (S754_zero true)
                  1 sample_db)))
     = Some (COMPLIANCE.mk 101 12 d0_0 1 (Some "2024-09-07")).
Proof. split; reflexivity. Qed.

(** ** Rows addressed by their key *)

Section ItemFacts.
Variable D : Type.
Implicit Types (t : table D) (r : row D) (l : list (row D)).

Lemma filter_andb (f g : row D -> bool) l :
  filter (fun r => f r && g r) l = filter g (filter f l).
Proof.
  induction l as [|a l IH]; simpl; [reflexivity|].
  destruct (f a); simpl; [destruct (g a)|]; now rewrite IH.
Qed.

Lemma has_id_unique iid l r r' :
  NoDup (map (@ITEM_ID D) l) -> In r l -> In r' l ->
  has_id iid r = true -> has_id iid r' = true -> r = r'.
Proof.
  unfold has_id. intros Hnd Hr Hr' E E'.
  apply Z.eqb_eq in E, E'.
  induction l as [|a l IH]; [easy|].
  simpl in Hnd. apply NoDup_cons_iff in Hnd. destruct Hnd as [Hna Hnd'].
  destruct Hr as [->|Hr], Hr' as [->|Hr']; auto.
  - exfalso. apply Hna. rewrite E, <- E'. now apply in_map.
  - exfalso. apply Hna. rewrite E', <- E. now apply in_map.
Qed.

Lemma filter_has_id iid l :
  NoDup (map (@ITEM_ID D) l) ->
  filter (has_id iid) l
  = match find_item iid l with Some r => [r] | None => [] end.
Proof.
  unfold find_item.
  induction l as [|a l IH]; simpl; intros Hnd; [reflexivity|].
  apply NoDup_cons_iff in Hnd. destruct Hnd as [Hna Hnd'].
  destruct (has_id iid a) eqn:Ea; [|auto].
  f_equal. apply filter_nil. intros x Hx.
  destruct (has_id iid x) eqn:Ex; [|reflexivity].
  exfalso. apply Hna. unfold has_id in *.
  apply Z.eqb_eq in Ea, Ex. rewrite Ea, <- Ex. now apply in_map.
Qed.

Lemma filter_hit iid l :
  NoDup (map (@ITEM_ID D) l) ->
  filter (fun r => has_id iid r && available r) l
  = match available_item iid l with Some r => [r] | None => [] end.
Proof.
  intros Hnd. rewrite filter_andb, filter_has_id by assumption.
  unfold available_item. destruct (find_item iid l) as [r|]; simpl; auto.
  now destruct (available r).
Qed.

Lemma find_item_In iid l r :
  find_item iid l = Some r -> In r l /\ has_id iid r = true.
Proof. apply find_some. Qed.

Lemma map_at_key (f : row D -> row D) iid l r0 :
  NoDup (map (@ITEM_ID D) l) -> find_item iid l = Some r0 ->
  forall g : row D -> bool, g r0 = true ->
  map (fun r => if has_id iid r && g r then f r else r) l
  = map (fun r => if has_id iid r then f r else r) l.
Proof.
  intros Hnd Hf g Hg. apply find_item_In in Hf. destruct Hf as [Hin Hid].
  apply map_ext_in. intros r Hr.
  destruct (has_id iid r) eqn:E; simpl; [|reflexivity].
  now rewrite <- (has_id_unique iid l r0 r Hnd Hin Hr Hid E), Hg.
Qed.

Lemma find_item_map (f : row D -> row D) iid l :
  (forall r, ITEM_ID (f r) = ITEM_ID r) ->
  find_item iid (map (fun r => if has_id iid r then f r else r) l)
  = option_map f (find_item iid l).
Proof.
  intros Hf. unfold find_item.
  induction l as [|a l IH]; simpl; [reflexivity|].
  destruct (has_id iid a) eqn:Ea.
  - unfold has_id in *. now rewrite Hf, Ea.
  - now rewrite Ea.
Qed.

Lemma set_slot_clear r :
  CHECKED_OUT_TO r = None -> slot_clear r -> set_slot r None None = r.
Proof.
  unfold slot_clear, set_slot. intros H1 H2. specialize (H2 H1).
  destruct r; simpl in *; now subst.
Qed.

(** Returning a row that is not checked out rewrites it with the same
    values. *)
Lemma return_available_same iid t r0 :
  table_wf t -> available_item iid (rows t) = Some r0 ->
  map (fun r => if has_id iid r then set_slot r None None else r) (rows t)
  = rows t.
Proof.
  intros [Hnd _ _ Hsc] Hav. unfold available_item in Hav.
  destruct (find_item iid (rows t)) as [r|] eqn:Ef; [|discriminate].
  destruct (available r) eqn:Ea; [|discriminate].
  apply find_item_In in Ef. destruct Ef as [Hin Hid].
  rewrite <- (map_id (rows t)) at 2.
  apply map_ext_in. intros x Hx.
  destruct (has_id iid x) eqn:Ex; [|reflexivity].
  rewrite <- (has_id_unique iid (rows t) r x Hnd Hin Hx Hid Ex).
  apply set_slot_clear.
  - unfold available in Ea. now destruct (CHECKED_OUT_TO r).
  - rewrite Forall_forall in Hsc. auto.
Qed.

(** Checking a row out and returning it restores the table. *)
Lemma checkout_return_same iid sid today t r0 :
  table_wf t -> available_item iid (rows t) = Some r0 ->
  map (fun r => if has_id iid r then set_slot r None None else r)
      (map (fun r => if has_id iid r
                     then set_slot r (Some sid) (Some today) else r)
           (rows t))
  = rows t.
Proof.
  intros Hwf Hav.
  rewrite <- (return_available_same iid t r0 Hwf Hav) at 2.
  rewrite map_map. apply map_ext. intros r.
  destruct (has_id iid r) eqn:E; [|now rewrite E].
  unfold has_id in *. simpl. now rewrite E.
Qed.
End ItemFacts.

Lemma available_item_Some D iid (l : list (row D)) r :
  available_item iid l = Some r <->
  find_item iid l = Some r /\ available r = true.
Proof.
  unfold available_item. destruct (find_item iid l) as [r0|].
  - destruct (available r0) eqn:E; split.
    + intros [= <-]. auto.
    + now intros [[= <-] _].
    + discriminate.
    + intros [[= <-] H]. congruence.
  - split; [discriminate | now intros [? _]].
Qed.

(** ** Checking an instrument out *)

Lemma existsb_find A (p : A -> bool) l :
  existsb p l = match find p l with Some _ => true | None => false end.
Proof.
  induction l as [|a l IH]; simpl; [reflexivity|].
  now destruct (p a).
Qed.

Lemma getStudentSection_exists db studentId :
  studentExists db studentId
  = match getStudentSection db studentId with
    | Some _ => true
    | None => false
    end.
Proof.
  unfold studentExists, getStudentSection. rewrite existsb_find.
  now destruct (find _ _).
Qed.

Lemma In_join_types db i :
  In i (rows (instruments db)) ->
  existsb (type_key (TYPE_ID (DESCR i))) (instrument_types db) = true ->
  exists ty, In (i, ty) (join_types db).
Proof.
  intros Hi Hty. rewrite existsb_find in Hty.
  destruct (find (type_key (TYPE_ID (DESCR i))) (instrument_types db))
    as [ty|] eqn:E; [|discriminate].
  exists ty. unfold join_types. apply in_flat_map.
  exists i. split; auto. rewrite E. now left.
Qed.

(** Every instrument of a well-formed database has its catalog type, so
    the join loses no row. *)
Lemma In_join_types_wf db i :
  wf db -> In i (rows (instruments db)) ->
  exists ty, In (i, ty) (join_types db).
Proof.
  intros Hwf Hi. apply In_join_types; auto.
  destruct Hwf as [_ _ _ _ _ _ _ Hfk]. rewrite Forall_forall in Hfk. auto.
Qed.

Lemma checkoutInstrument_cases db today studentId filter instrumentId :
  wf db ->
  checkoutInstrument today studentId filter instrumentId db
  = if negb (studentExists db studentId) then (db, Student_does_not_exist)
    else if negb (listing_shown db studentId filter)
    then (db, No_instruments_available)
    else match available_item instrumentId (rows (instruments db)) with
         | None => (db, Invalid_instrument)
         | Some _ =>
             if held_by studentId (rows (instruments db))
             then (db, Checkout_failed)
             else (checked_out_to_student today studentId instrumentId db,
                   Instrument_checked_out)
         end.
Proof.
  intros Hwf. unfold checkoutInstrument, listing_shown.
  rewrite getStudentSection_exists.
  destruct (getStudentSection db studentId) as [sec|] eqn:Es; [|reflexivity].
  cbn [negb].
  destruct (any _); [|reflexivity]. cbn [negb].
  unfold update_checkout.
  rewrite filter_hit by apply Hwf.
  destruct (available_item instrumentId (rows (instruments db)))
    as [r|] eqn:Ea; cbn [List.length Nat.eqb].
  - destruct (held_by studentId (rows (instruments db))); [reflexivity|].
    replace (studentExists db studentId) with true
      by (rewrite getStudentSection_exists; now rewrite Es).
    cbn [negb orb Nat.ltb Nat.leb]. unfold checked_out_to_student.
    apply available_item_Some in Ea. destruct Ea as [Ef Ea].
    rewrite (map_at_key _ _ instrumentId _ r) by (auto; apply Hwf).
    reflexivity.
  - now rewrite set_instruments_same.
Qed.

Lemma find_item_map_other D (f : row D -> row D) iid iid' l :
  (forall r, ITEM_ID (f r) = ITEM_ID r) -> iid' <> iid ->
  find_item iid' (map (fun r => if has_id iid r then f r else r) l)
  = find_item iid' l.
Proof.
  intros Hf Hne. unfold find_item.
  induction l as [|a l IH]; simpl; [reflexivity|].
  destruct (has_id iid a) eqn:Ea.
  - unfold has_id in *. rewrite Hf. apply Z.eqb_eq in Ea.
    destruct (Z.eqb_spec (ITEM_ID a) iid'); [congruence|auto].
  - now rewrite IH.
Qed.

(** C3 as stated fails: student 101 exists, instrument 2 exists and is
    available, and the checkout is refused because 101 already holds
    instrument 1. *)
Lemma checkout_refused_for_holder :
  reachable sample_db
  /\ studentExists sample_db 101 = true
  /\ (exists r, find_item 2 (rows (instruments sample_db)) = Some r
                /\ available r = true)
  /\ checkoutInstrument "2024-09-06" 101 2 2 sample_db
     = (sample_db, Checkout_failed).
Proof.
  split; [apply sample_reachable|].
  split; [reflexivity|].
  split; [eexists; split; reflexivity|].
  reflexivity.
Qed.

(** C3, amended: checkoutInstrument succeeds exactly when the student
    exists, the listing printed before the prompt showed at least one
    instrument, the instrument exists and is available, and the student
    holds no instrument yet.  When it does not succeed the database is
    unchanged; when it succeeds, the slot of that one instrument is set to
    the student and today's date, and every other row and table is as
    before. *)
Theorem checkoutInstrument_succeeds_exactly
    db today studentId filter instrumentId :
  reachable db ->
  let db' := fst (checkoutInstrument today studentId filter instrumentId db) in
  let msg := snd (checkoutInstrument today studentId filter instrumentId db) in
  (msg = Instrument_checked_out <->
     studentExists db studentId = true
     /\ listing_shown db studentId filter = true
     /\ (exists r, find_item instrumentId (rows (instruments db)) = Some r
                   /\ available r = true)
     /\ held_by studentId (rows (instruments db)) = false)
  /\ (msg <> Instrument_checked_out -> db' = db)
  /\ (msg = Instrument_checked_out ->
      db' = checked_out_to_student today studentId instrumentId db
      /\ (exists r,
            find_item instrumentId (rows (instruments db)) = Some r
            /\ find_item instrumentId (rows (instruments db'))
               = Some (set_slot r (Some studentId) (Some today)))
      /\ (forall other, other <> instrumentId ->
            find_item other (rows (instruments db'))
            = find_item other (rows (instruments db)))).
Proof.
  intros Hr db' msg. subst db' msg. apply reachable_wf in Hr.
  rewrite (checkoutInstrument_cases db today studentId filter instrumentId Hr).
  destruct (studentExists db studentId); cbn [negb];
    [|repeat split; try easy; intros [? _]; discriminate].
  destruct (listing_shown db studentId filter); cbn [negb];
    [|repeat split; try easy; intros [_ [? _]]; discriminate].
  destruct (available_item instrumentId (rows (instruments db))) as [r|] eqn:Ea.
  2:{ repeat split; try easy.
      intros [_ [_ [[r Hr'] _]]].
      apply available_item_Some in Hr'. congruence. }
  apply available_item_Some in Ea. destruct Ea as [Ef Ea].
  destruct (held_by studentId (rows (instruments db)));
    [repeat split; try easy; intros [_ [_ [_ ?]]]; discriminate|].
  cbn [fst snd]. repeat split; eauto; try easy.
  - exists r. split; auto. unfold checked_out_to_student. simpl.
    rewrite find_item_map by reflexivity. now rewrite Ef.
  - intros other Hne. unfold checked_out_to_student. simpl.
    now apply find_item_map_other.
Qed.

Lemma checkoutInstrument_succeeds_exactly_witness :
  (snd trombone_to_bo = Instrument_checked_out <->
     studentExists sample_db 202 = true
     /\ listing_shown sample_db 202 2 = true
     /\ (exists r, find_item 2 (rows (instruments sample_db)) = Some r
                   /\ available r = true)
     /\ held_by 202 (rows (instruments sample_db)) = false)
  /\ (snd trombone_to_bo <> Instrument_checked_out ->
      fst trombone_to_bo = sample_db)
  /\ (snd trombone_to_bo = Instrument_checked_out ->
      fst trombone_to_bo = checked_out_to_student "2024-09-06" 202 2 sample_db
      /\ (exists r,
            find_item 2 (rows (instruments sample_db)) = Some r
            /\ find_item 2 (rows (instruments (fst trombone_to_bo)))
               = Some (set_slot r (Some 202) (Some "2024-09-06")))
      /\ (forall other, other <> 2 ->
            find_item other (rows (instruments (fst trombone_to_bo)))
            = find_item other (rows (instruments sample_db)))).
Proof.
  apply (checkoutInstrument_succeeds_exactly sample_db "2024-09-06" 202 2 2).
  apply session_reachable; [apply reach_init | reflexivity].
Defined.

(** ** Returning an item *)

Lemma any_filter A (p : A -> bool) l : any (filter p l) = existsb p l.
Proof.
  induction l as [|a l IH]; simpl; [reflexivity|].
  destruct (p a); simpl; auto.
Qed.

Lemma any_checked_out_rows D (t : table D) :
  any (checked_out_rows t) = existsb (@checked_out D) (rows t).
Proof.
  unfold checked_out_rows. now rewrite any_order_by, any_filter.
Qed.

Lemma join_types_fst db j : In j (join_types db) -> In (fst j) (rows (instruments db)).
Proof.
  unfold join_types. rewrite in_flat_map. intros [i [Hi Hj]].
  destruct (find _ _); [|easy]. destruct Hj as [<-|[]]. exact Hi.
Qed.

Lemma any_join_filter db (p : row InstrumentDescr -> bool) :
  wf db ->
  any (filter (fun j => p (fst j)) (join_types db))
  = existsb p (rows (instruments db)).
Proof.
  intros Hwf. rewrite any_filter.
  destruct (existsb p (rows (instruments db))) eqn:E.
  - apply existsb_exists in E. destruct E as [i [Hi Hp]].
    destruct (In_join_types_wf db i Hwf Hi) as [ty Hty].
    apply existsb_exists. exists (i, ty). auto.
  - match goal with
    | |- existsb ?f ?l = false => destruct (existsb f l) eqn:E'
    end; [|reflexivity].
    apply existsb_exists in E'. destruct E' as [j [Hj Hp]].
    apply join_types_fst in Hj.
    now rewrite (@existsb_false_forall _ _ _ E _ Hj) in Hp.
Qed.

Lemma any_checked_out_instruments db :
  wf db ->
  any (checked_out_instruments db)
  = existsb (@checked_out _) (rows (instruments db)).
Proof.
  intros Hwf. unfold checked_out_instruments.
  now rewrite any_order_by, (any_join_filter db (@checked_out _) Hwf).
Qed.

Lemma update_return_available D (t : table D) iid r :
  table_wf t -> available_item iid (rows t) = Some r ->
  update_return t iid = (SQLITE_DONE, t, 1%nat).
Proof.
  intros Hwf Hav. unfold update_return.
  rewrite (return_available_same D iid t r Hwf Hav), table_eta.
  rewrite filter_has_id by apply Hwf.
  apply available_item_Some in Hav. destruct Hav as [-> _]. reflexivity.
Qed.

Lemma available_slot_empty D (t : table D) iid r :
  table_wf t -> available_item iid (rows t) = Some r ->
  CHECKED_OUT_TO r = None /\ CHECKED_OUT_DATE r = None.
Proof.
  intros [_ _ _ Hsc] Hav. apply available_item_Some in Hav.
  destruct Hav as [Hf Ha]. apply find_item_In in Hf. destruct Hf as [Hin _].
  rewrite Forall_forall in Hsc. specialize (Hsc r Hin).
  unfold available in Ha. unfold slot_clear in Hsc.
  destruct (CHECKED_OUT_TO r); [discriminate|auto].
Qed.

(** C6 as stated fails: instrument 2 exists and is available, and its
    return prints "Instrument returned.", not an error. *)
Lemma return_of_idle_instrument_reports_success :
  reachable sample_db
  /\ (exists r, find_item 2 (rows (instruments sample_db)) = Some r
                /\ available r = true)
  /\ returnInstrument 2 sample_db = (sample_db, Item_returned).
Proof.
  split; [apply sample_reachable|].
  split; [eexists; split; reflexivity|reflexivity].
Qed.

(** C6, amended: returning an item that exists and is not checked out
    changes nothing, for each of the three kinds: the database is the same
    and the item still has an empty CHECKED_OUT_TO and CHECKED_OUT_DATE.
    No error is reported for it: the action prints "None." when no item of
    the kind is checked out and the "returned" message otherwise. *)
Theorem return_of_available_item db iid :
  reachable db ->
  (forall r, available_item iid (rows (instruments db)) = Some r ->
     returnInstrument iid db = (db, idle_return_message (instruments db))
     /\ CHECKED_OUT_TO r = None /\ CHECKED_OUT_DATE r = None)
  /\ (forall r, available_item iid (rows (uniforms db)) = Some r ->
     returnUniform iid db = (db, idle_return_message (uniforms db))
     /\ CHECKED_OUT_TO r = None /\ CHECKED_OUT_DATE r = None)
  /\ (forall r, available_item iid (rows (shakos db)) = Some r ->
     returnShako iid db = (db, idle_return_message (shakos db))
     /\ CHECKED_OUT_TO r = None /\ CHECKED_OUT_DATE r = None).
Proof.
  intros Hr. apply reachable_wf in Hr.
  pose proof (wf_instruments Hr) as Hi.
  pose proof (wf_uniforms Hr) as Hu.
  pose proof (wf_shakos Hr) as Hk.
  unfold idle_return_message.
  split; [|split]; intros r Hav;
    (split; [|eapply available_slot_empty; eauto]).
  - unfold returnInstrument.
    rewrite (any_checked_out_instruments db Hr).
    destruct (existsb _ _); [|reflexivity]. cbn [negb].
    rewrite (update_return_available _ _ iid r Hi Hav).
    now rewrite set_instruments_same.
  - unfold returnUniform. rewrite any_checked_out_rows.
    destruct (existsb _ _); [|reflexivity]. cbn [negb].
    rewrite (update_return_available _ _ iid r Hu Hav).
    now rewrite set_uniforms_same.
  - unfold returnShako. rewrite any_checked_out_rows.
    destruct (existsb _ _); [|reflexivity]. cbn [negb].
    rewrite (update_return_available _ _ iid r Hk Hav).
    now rewrite set_shakos_same.
Qed.

Lemma return_of_available_item_witness :
  (forall r, available_item 1 (rows (instruments sample_db)) = Some r ->
     returnInstrument 1 sample_db
     = (sample_db, idle_return_message (instruments sample_db))
     /\ CHECKED_OUT_TO r = None /\ CHECKED_OUT_DATE r = None)
  /\ (forall r, available_item 1 (rows (uniforms sample_db)) = Some r ->
     returnUniform 1 sample_db
     = (sample_db, idle_return_message (uniforms sample_db))
     /\ CHECKED_OUT_TO r = None /\ CHECKED_OUT_DATE r = None)
  /\ (forall r, available_item 1 (rows (shakos sample_db)) = Some r ->
     returnShako 1 sample_db
     = (sample_db, idle_return_message (shakos sample_db))
     /\ CHECKED_OUT_TO r = None /\ CHECKED_OUT_DATE r = None).
Proof.
  apply (return_of_available_item sample_db 1).
  apply session_reachable; [apply reach_init | reflexivity].
Defined.

(** ** The checkout / return cycle *)

Lemma listing_shown_exists db studentId filter :
  listing_shown db studentId filter = true ->
  studentExists db studentId = true.
Proof.
  unfold listing_shown. rewrite getStudentSection_exists.
  now destruct (getStudentSection db studentId).
Qed.

Lemma checkoutInstrument_success db today studentId filter instrumentId r :
  wf db ->
  available_item instrumentId (rows (instruments db)) = Some r ->
  listing_shown db studentId filter = true ->
  held_by studentId (rows (instruments db)) = false ->
  checkoutInstrument today studentId filter instrumentId db
  = (checked_out_to_student today studentId instrumentId db,
     Instrument_checked_out).
Proof.
  intros Hwf Hav Hl Hh.
  rewrite (checkoutInstrument_cases db today studentId filter instrumentId Hwf).
  now rewrite (listing_shown_exists _ _ _ Hl), Hl, Hav, Hh.
Qed.

Lemma returnInstrument_after_checkout db today studentId instrumentId r :
  wf db ->
  available_item instrumentId (rows (instruments db)) = Some r ->
  returnInstrument instrumentId
    (checked_out_to_student today studentId instrumentId db)
  = (db, Item_returned).
Proof.
  intros Hwf Hav.
  set (db1 := checked_out_to_student today studentId instrumentId db).
  assert (wf db1) as Hwf1.
  { destruct Hwf as [Hsk Hck Hcf Hcr Hi Hu Hk Hif].
    split; simpl; auto.
    - apply table_wf_map; auto; intros x; case_if; auto.
      unfold slot_clear. simpl. discriminate.
    - apply (@Forall_map_keeps_descr _
               (fun d => existsb (type_key (TYPE_ID d)) (instrument_types db)
                         = true)); auto.
      intros x. now case_if. }
  pose proof Hav as Hav'. apply available_item_Some in Hav'.
  destruct Hav' as [Hf Ha].
  assert (find_item instrumentId (rows (instruments db1))
          = Some (set_slot r (Some studentId) (Some today))) as Hf1.
  { unfold db1, checked_out_to_student. simpl.
    rewrite find_item_map by reflexivity. now rewrite Hf. }
  unfold returnInstrument.
  rewrite (any_checked_out_instruments db1 Hwf1).
  replace (existsb (@checked_out _) (rows (instruments db1))) with true.
  2:{ symmetry. apply existsb_exists.
      exists (set_slot r (Some studentId) (Some today)).
      split; [|reflexivity]. now apply find_item_In in Hf1. }
  cbn [negb]. unfold update_return.
  rewrite filter_has_id by apply Hwf1. rewrite Hf1.
  unfold db1, checked_out_to_student. simpl.
  rewrite (checkout_return_same _ instrumentId studentId today
             (instruments db) r) by (auto; apply Hwf).
  rewrite table_eta. now destruct db.
Qed.

Lemma instrument_cycle_same db today studentId filter instrumentId r :
  wf db ->
  available_item instrumentId (rows (instruments db)) = Some r ->
  listing_shown db studentId filter = true ->
  held_by studentId (rows (instruments db)) = false ->
  instrument_cycle today studentId filter instrumentId db = db.
Proof.
  intros Hwf Hav Hl Hh. unfold instrument_cycle.
  rewrite (checkoutInstrument_success db today studentId filter
             instrumentId r) by assumption.
  cbn [fst].
  now rewrite (returnInstrument_after_checkout db today studentId
                 instrumentId r).
Qed.

Lemma checkoutInstrument_ids db today studentId filter instrumentId :
  map (@ITEM_ID _)
      (rows (instruments
               (fst (checkoutInstrument today studentId filter
                       instrumentId db))))
  = map (@ITEM_ID _) (rows (instruments db)).
Proof.
  unfold checkoutInstrument.
  destruct (getStudentSection db studentId); [|reflexivity].
  case_if; [reflexivity|].
  unfold update_checkout. repeat case_if; simpl; try reflexivity;
    apply map_keeps_ids; intros r; now case_if.
Qed.

Lemma return_ids db iid :
  map (@ITEM_ID _) (rows (instruments (fst (returnInstrument iid db))))
  = map (@ITEM_ID _) (rows (instruments db))
  /\ map (@ITEM_ID _) (rows (uniforms (fst (returnUniform iid db))))
     = map (@ITEM_ID _) (rows (uniforms db))
  /\ map (@ITEM_ID _) (rows (shakos (fst (returnShako iid db))))
     = map (@ITEM_ID _) (rows (shakos db)).
Proof.
  unfold returnInstrument, returnUniform, returnShako.
  repeat split; case_if; try reflexivity; simpl;
    apply map_keeps_ids; intros r; now case_if.
Qed.

Lemma insert_item_done D u f (t : table D) d notes co date t' :
  insert_item u f t d notes co date = (SQLITE_DONE, t') ->
  t' = mkTable (rows t ++ [Item.mk (seq t + 1) d notes co date]) (seq t + 1).
Proof.
  unfold insert_item. repeat case_if; intros [= <-]; reflexivity.
Qed.

Lemma checkoutUniform_creates db today studentId cs ps cn pn notes :
  snd (checkoutUniform today studentId cs ps cn pn notes db)
  = Uniform_checked_out ->
  uniforms (fst (checkoutUniform today studentId cs ps cn pn notes db))
  = mkTable
      (rows (uniforms db)
       ++ [Item.mk (seq (uniforms db) + 1)
             (mkUniform (bind_text_or_null cs) (bind_text_or_null ps)
                (bind_text_or_null cn) (bind_text_or_null pn))
             (bind_text_or_null notes) (Some studentId) (Some today)])
      (seq (uniforms db) + 1).
Proof.
  unfold checkoutUniform, insert_uniform.
  case_if; [discriminate|].
  destruct (insert_item _ _ _ _ _ _ _) as [c t] eqn:E.
  destruct c; simpl; try discriminate.
  intros _. now apply insert_item_done in E.
Qed.

Lemma checkoutShako_creates db today studentId size notes :
  snd (checkoutShako today studentId size notes db) = Shako_checked_out ->
  shakos (fst (checkoutShako today studentId size notes db))
  = mkTable
      (rows (shakos db)
       ++ [Item.mk (seq (shakos db) + 1)
             (mkShako (bind_text_or_null size))
             (bind_text_or_null notes) (Some studentId) (Some today)])
      (seq (shakos db) + 1).
Proof.
  unfold checkoutShako, insert_shako.
  case_if; [discriminate|].
  destruct (insert_item _ _ _ _ _ _ _) as [c t] eqn:E.
  destruct c; simpl; try discriminate.
  intros _. now apply insert_item_done in E.
Qed.

Lemma In_returned D (l : list (row D)) iid r :
  Forall (@slot_clear D) l -> In r l -> available r = true ->
  In r (map (fun x => if has_id iid x then set_slot x None None else x) l).
Proof.
  intros Hsc Hin Ha. apply in_map_iff. exists r. split; auto.
  case_if; auto. apply set_slot_clear.
  - unfold available in Ha. now destruct (CHECKED_OUT_TO r).
  - rewrite Forall_forall in Hsc. auto.
Qed.

(** No action checks out a uniform or a shako that is on the shelf: such a
    row is the same after any action. *)
Lemma shelved_stays_shelved db today op :
  wf db ->
  (forall r, In r (rows (uniforms db)) -> available r = true ->
             In r (rows (uniforms (run today op db))))
  /\ (forall r, In r (rows (shakos db)) -> available r = true ->
                In r (rows (shakos (run today op db)))).
Proof.
  intros Hwf.
  pose proof (slots_clear (wf_uniforms Hwf)) as Hu.
  pose proof (slots_clear (wf_shakos Hwf)) as Hk.
  destruct op; simpl run;
    unfold addStudent, addStudent_on, insert_student, insert_or_ignore_compliance,
      setSectionLeader, upsert_section_leader, checkoutInstrument,
      update_checkout, returnInstrument, addInstrumentToInventory,
      insert_instrument, checkoutUniform, insert_uniform, returnUniform,
      checkoutShako, insert_shako, returnShako, update_return,
      updateStudentCompliance, upsert_compliance, insert_item;
    try destruct (getStudentSection db studentId);
    repeat case_if; simpl; split; intros r Hin Ha; auto;
    try (apply in_or_app; now left);
    now apply In_returned.
Qed.

(** C5 as stated fails for uniforms (and shakos): uniform 1 is checked out
    to 101 and returned; the next checkout, for 202, leaves uniform 1 on
    the shelf and creates uniform 2. *)
Lemma uniform_checkout_creates_a_second_item :
  reachable sample_db
  /\ snd uniform_to_ada = Uniform_checked_out
  /\ map (@ITEM_ID _) (rows (uniforms (fst uniform_to_ada))) = [1]
  /\ snd uniform_back = Item_returned
  /\ snd uniform_to_bo = Uniform_checked_out
  /\ map (@ITEM_ID _) (rows (uniforms (fst uniform_to_bo))) = [1; 2]
  /\ option_map (@CHECKED_OUT_TO _)
       (find_item 1 (rows (uniforms (fst uniform_to_bo))))
     = Some None
  /\ option_map (@CHECKED_OUT_TO _)
       (find_item 2 (rows (uniforms (fst uniform_to_bo))))
     = Some (Some 202).
Proof.
  split; [apply sample_reachable|]. repeat split; reflexivity.
Qed.

(** C5, amended.  For an instrument that is available and two students who
    each hold no instrument and were shown a non-empty listing: checkout to
    the first, return, checkout to the second all succeed; the return
    restores the database, so the cycle can be repeated any number of
    times; the instrument ends checked out to the second student.
    checkoutInstrument creates no row and no return deletes one (the keys
    of each table are the same afterwards).  checkoutUniform and
    checkoutShako take no item: each success appends one new row, already
    checked out, under a new key, and a uniform or shako that is on the
    shelf stays there under every action. *)
Theorem checkout_return_cycle db :
  reachable db ->
  (forall instrumentId r today1 s1 f1 today2 s2 f2,
     available_item instrumentId (rows (instruments db)) = Some r ->
     listing_shown db s1 f1 = true ->
     held_by s1 (rows (instruments db)) = false ->
     listing_shown db s2 f2 = true ->
     held_by s2 (rows (instruments db)) = false ->
     let step1 := checkoutInstrument today1 s1 f1 instrumentId db in
     let step2 := returnInstrument instrumentId (fst step1) in
     let step3 := checkoutInstrument today2 s2 f2 instrumentId (fst step2) in
     snd step1 = Instrument_checked_out
     /\ snd step2 = Item_returned
     /\ fst step2 = db
     /\ snd step3 = Instrument_checked_out
     /\ find_item instrumentId (rows (instruments (fst step3)))
        = Some (set_slot r (Some s2) (Some today2))
     /\ (forall n,
           Nat.iter n (instrument_cycle today1 s1 f1 instrumentId) db = db))
  /\ (forall today studentId filter id,
        map (@ITEM_ID _)
            (rows (instruments
                     (fst (checkoutInstrument today studentId filter id db))))
        = map (@ITEM_ID _) (rows (instruments db))
        /\ map (@ITEM_ID _) (rows (instruments (fst (returnInstrument id db))))
           = map (@ITEM_ID _) (rows (instruments db))
        /\ map (@ITEM_ID _) (rows (uniforms (fst (returnUniform id db))))
           = map (@ITEM_ID _) (rows (uniforms db))
        /\ map (@ITEM_ID _) (rows (shakos (fst (returnShako id db))))
           = map (@ITEM_ID _) (rows (shakos db)))
  /\ (forall today studentId cs ps cn pn notes,
        snd (checkoutUniform today studentId cs ps cn pn notes db)
        = Uniform_checked_out ->
        uniforms (fst (checkoutUniform today studentId cs ps cn pn notes db))
        = mkTable
            (rows (uniforms db)
             ++ [Item.mk (seq (uniforms db) + 1)
                   (mkUniform (bind_text_or_null cs) (bind_text_or_null ps)
                      (bind_text_or_null cn) (bind_text_or_null pn))
                   (bind_text_or_null notes) (Some studentId) (Some today)])
            (seq (uniforms db) + 1))
  /\ (forall today studentId size notes,
        snd (checkoutShako today studentId size notes db)
        = Shako_checked_out ->
        shakos (fst (checkoutShako today studentId size notes db))
        = mkTable
            (rows (shakos db)
             ++ [Item.mk (seq (shakos db) + 1)
                   (mkShako (bind_text_or_null size))
                   (bind_text_or_null notes) (Some studentId) (Some today)])
            (seq (shakos db) + 1))
  /\ (forall today op,
        (forall r, In r (rows (uniforms db)) -> available r = true ->
                   In r (rows (uniforms (run today op db))))
        /\ (forall r, In r (rows (shakos db)) -> available r = true ->
                      In r (rows (shakos (run today op db))))).
Proof.
  intros Hr. apply reachable_wf in Hr.
  split; [|split; [|split; [|split]]].
  - intros iid r today1 s1 f1 today2 s2 f2 Hav Hl1 Hh1 Hl2 Hh2.
    cbv zeta.
    rewrite (checkoutInstrument_success db today1 s1 f1 iid r) by assumption.
    cbn [fst snd].
    rewrite (returnInstrument_after_checkout db today1 s1 iid r)
      by assumption.
    cbn [fst snd].
    rewrite (checkoutInstrument_success db today2 s2 f2 iid r) by assumption.
    cbn [fst snd]. repeat split.
    + unfold checked_out_to_student. simpl.
      rewrite find_item_map by reflexivity.
      apply available_item_Some in Hav. destruct Hav as [-> _]. reflexivity.
    + induction n as [|n IH]; simpl; [reflexivity|].
      rewrite IH. now apply (instrument_cycle_same db today1 s1 f1 iid r).
  - intros today studentId filter id. split.
    + apply checkoutInstrument_ids.
    + apply return_ids.
  - intros. now apply checkoutUniform_creates.
  - intros. now apply checkoutShako_creates.
  - intros today op. now apply shelved_stays_shelved.
Qed.

Lemma checkout_return_cycle_witness :
  available_item 2 (rows (instruments sample_db)) = Some trombone
  /\ listing_shown sample_db 202 2 = true
  /\ held_by 202 (rows (instruments sample_db)) = false
  /\ snd trombone_to_bo = Instrument_checked_out
  /\ snd (returnInstrument 2 (fst trombone_to_bo)) = Item_returned
  /\ fst (returnInstrument 2 (fst trombone_to_bo)) = sample_db
  /\ (forall n,
        Nat.iter n (instrument_cycle "2024-09-06" 202 2 2) sample_db
        = sample_db).
Proof.
  assert (reachable sample_db) as Hr
    by (apply session_reachable; [apply reach_init | reflexivity]).
  destruct (checkout_return_cycle sample_db Hr) as [Hcycle _].
  specialize (Hcycle 2 trombone "2024-09-06" 202 2 "2024-09-08" 202 2
                eq_refl eq_refl eq_refl eq_refl eq_refl).
  cbv zeta in Hcycle.
  destruct Hcycle as [H1 [H2 [H3 [_ [_ Hn]]]]].
  repeat split; auto.
Defined.

(** ** Adding an instrument *)

Lemma addInstrumentToInventory_cases typeId serial notes db :
  addInstrumentToInventory typeId serial notes db
  = if (seq (instruments db) <? max_rowid)
       && serial_free serial db
       && existsb (type_key typeId) (instrument_types db)
    then (set_instruments db
            (mkTable
               (rows (instruments db)
                ++ [Item.mk (seq (instruments db) + 1)
                      (mkInstrument typeId (bind_text_or_null serial))
                      (bind_text_or_null notes) None None])
               (seq (instruments db) + 1)),
          Instrument_added)
    else (db, Add_failed).
Proof.
  unfold addInstrumentToInventory, insert_instrument, insert_item,
    serial_free.
  rewrite Z.leb_antisym.
  destruct (seq (instruments db) <? max_rowid); simpl; [|reflexivity].
  destruct (match bind_text_or_null serial with
            | Some s => negb (existsb (has_serial s) (rows (instruments db)))
            | None => true
            end); simpl; [|reflexivity].
  destruct (existsb (type_key typeId) (instrument_types db)); reflexivity.
Qed.

Lemma run_seq_instruments today op db :
  seq (instruments db) <= seq (instruments (run today op db)).
Proof.
  destruct op; simpl run;
    unfold addStudent, addStudent_on, insert_student, insert_or_ignore_compliance,
      setSectionLeader, upsert_section_leader, checkoutInstrument,
      update_checkout, returnInstrument, addInstrumentToInventory,
      insert_instrument, checkoutUniform, insert_uniform, returnUniform,
      checkoutShako, insert_shako, returnShako, update_return,
      updateStudentCompliance, upsert_compliance, insert_item;
    try destruct (getStudentSection db studentId);
    repeat case_if; simpl; lia.
Qed.

(** C7 as stated fails: a second instrument with the serial "SN1", which
    instrument 1 carries, is refused and nothing is added. *)
Lemma duplicate_serial_is_refused :
  reachable sample_db
  /\ existsb (has_serial "SN1") (rows (instruments sample_db)) = true
  /\ addInstrumentToInventory 4 "SN1" "" sample_db = (sample_db, Add_failed).
Proof.
  split; [apply sample_reachable|]. split; reflexivity.
Qed.

(** The serial is stored, and compared, up to its first NUL byte. *)
Lemma serial_is_cut_at_nul :
  c_str serial_with_nul = "SN1"
  /\ addInstrumentToInventory 4 serial_with_nul "" sample_db
     = (sample_db, Add_failed).
Proof. split; reflexivity. Qed.

(** C7, amended: addInstrumentToInventory succeeds exactly when the type is
    in the catalog, the typed serial is empty or its text up to the first
    NUL byte (which is what is stored) is carried by no instrument yet,
    and the key counter has not reached the largest ROWID; otherwise
    nothing is added.  On success one row is appended under the key
    counter + 1, which is greater than every key in the table and than
    every key handed out before; the counter never goes down under any
    action, so the key is not handed out again. *)
Theorem addInstrumentToInventory_allocates db typeId serial notes :
  reachable db ->
  let db' := fst (addInstrumentToInventory typeId serial notes db) in
  let msg := snd (addInstrumentToInventory typeId serial notes db) in
  let new := Item.mk (seq (instruments db) + 1)
               (mkInstrument typeId (bind_text_or_null serial))
               (bind_text_or_null notes) None None in
  (msg = Instrument_added <->
     existsb (type_key typeId) (instrument_types db) = true
     /\ (serial = ""
         \/ existsb (has_serial (c_str serial)) (rows (instruments db))
            = false)
     /\ seq (instruments db) < max_rowid)
  /\ (msg <> Instrument_added -> db' = db)
  /\ (msg = Instrument_added ->
      instruments db'
      = mkTable (rows (instruments db) ++ [new]) (ITEM_ID new)
      /\ uniforms db' = uniforms db /\ shakos db' = shakos db
      /\ students db' = students db
      /\ Forall (fun r => ITEM_ID r < ITEM_ID new) (rows (instruments db))
      /\ seq (instruments db) < ITEM_ID new)
  /\ (forall today op,
        seq (instruments db) <= seq (instruments (run today op db))).
Proof.
  intros Hr db' msg new. subst db' msg new. apply reachable_wf in Hr.
  rewrite addInstrumentToInventory_cases.
  assert (serial_free serial db = true <->
          (serial = ""
           \/ existsb (has_serial (c_str serial)) (rows (instruments db))
              = false))
    as Hserial.
  { unfold serial_free, bind_text_or_null.
    destruct (String.eqb_spec serial "") as [->|Hne].
    - split; auto.
    - rewrite negb_true_iff. split; auto. intros [?|?]; congruence. }
  split; [|split; [|split]].
  - destruct (seq (instruments db) <? max_rowid) eqn:Es; simpl.
    2:{ split; [discriminate|]. intros [_ [_ H]].
        apply Z.ltb_lt in H. congruence. }
    apply Z.ltb_lt in Es.
    destruct (serial_free serial db); simpl.
    2:{ split; [discriminate|]. intros [_ [H _]].
        apply Hserial in H. discriminate. }
    destruct (existsb (type_key typeId) (instrument_types db)); simpl.
    + split; auto. intros _. repeat split; auto. now apply Hserial.
    + split; [discriminate|]. intros [? _]. discriminate.
  - destruct (_ && _); simpl; congruence.
  - destruct (_ && _); simpl; [intros _|discriminate].
    repeat split; try lia.
    pose proof (ids_allocated (wf_instruments Hr)) as Ha.
    eapply Forall_impl; [|exact Ha]. simpl. intros; lia.
  - intros today op. apply run_seq_instruments.
Qed.

Lemma addInstrumentToInventory_allocates_witness :
  snd add_piccolo = Instrument_added
  /\ map (@ITEM_ID _) (rows (instruments (fst add_piccolo))) = [1; 2; 3]
  /\ seq (instruments (fst add_piccolo)) = 3.
Proof.
  assert (reachable sample_db) as Hr
    by (apply session_reachable; [apply reach_init | reflexivity]).
  destruct (addInstrumentToInventory_allocates sample_db 1 "SN2" "" Hr)
    as [[_ Hok] [_ [Hnew _]]].
  assert (snd add_piccolo = Instrument_added) as Hmsg.
  { apply Hok.
    split; [reflexivity | split; [right; reflexivity | reflexivity]]. }
  destruct (Hnew Hmsg) as [Hi _].
  unfold add_piccolo. rewrite Hi. repeat split; auto.
Defined.

(** ** The assignment listings *)

Lemma order_by_available_first A (flag : A -> bool) cmp l :
  antisymmetric cmp ->
  available_first flag cmp l (order_by (flag_desc_then flag cmp) l).
Proof.
  intros Hc.
  exists (order_by cmp (filter flag l)),
         (order_by cmp (filter (fun y => negb (flag y)) l)).
  split; [apply order_by_flag|].
  split; [|split; [|split; [|split]]].
  - apply Forall_forall. intros x Hx.
    apply order_by_In, filter_In in Hx. tauto.
  - apply Forall_forall. intros x Hx.
    apply order_by_In, filter_In in Hx. now apply negb_true_iff.
  - now apply order_by_sorted.
  - now apply order_by_sorted.
  - apply order_by_perm.
Qed.

Lemma by_id_antisymmetric D : antisymmetric (@by_id D).
Proof. intros a b. apply Z.compare_antisym. Qed.

Lemma by_type_name_id_antisymmetric : antisymmetric by_type_name_id.
Proof.
  exact (then_by_antisymmetric
           (string_key_antisymmetric
              (fun j : typed => INSTRUMENT_TYPES.TYPE_NAME (snd j)))
           (fun a b => by_id_antisymmetric _ (fst a) (fst b))).
Qed.

Lemma by_section_type_name_id_antisymmetric :
  antisymmetric by_section_type_name_id.
Proof.
  exact (then_by_antisymmetric
           (string_key_antisymmetric
              (fun j : typed => INSTRUMENT_TYPES.SECTION (snd j)))
           by_type_name_id_antisymmetric).
Qed.

Lemma join_types_complete db :
  wf db -> map fst (join_types db) = rows (instruments db).
Proof.
  intros Hwf. pose proof (wf_instrument_fk Hwf) as Hfk.
  unfold join_types.
  induction Hfk as [|i l Hi Hl IH]; simpl; [reflexivity|].
  rewrite existsb_find in Hi.
  destruct (find (type_key (TYPE_ID (DESCR i))) (instrument_types db));
    [|discriminate].
  simpl. now rewrite IH.
Qed.

(** C8 as stated fails: shako 1 is on the shelf and shako 2 is checked
    out, and the listing shows shako 1 first; of two instruments on the
    shelf the trumpet (section BRASS) is listed before the clarinet
    (section WOODWIND), so the type name is not the first of the other
    keys. *)
Lemma assignments_list_the_shelf_first :
  reachable sample_db
  /\ map (fun k => (ITEM_ID k, CHECKED_OUT_TO k))
         (assignment_rows (shakos sample_db))
     = [(1, None); (2, Some 202)]
  /\ map (fun l => (kl_id l, kl_student l)) (viewShakoAssignments sample_db)
     = [(1, 0); (2, 202)]
  /\ map (fun l => (il_id l, il_type l)) (viewInstrumentAssignments two_on_shelf)
     = [(2, "TRUMPET"); (1, "CLARINET")].
Proof.
  split; [apply sample_reachable|]. repeat split; reflexivity.
Qed.

(** C8, amended: each assignment view lists every item of its kind once,
    the available items first and the checked-out items after them; within
    each group instruments are ordered by section, then type name, then
    item ID, and uniforms and shakos by item ID. *)
Theorem assignments_available_first db :
  reachable db ->
  (viewInstrumentAssignments db
     = map instrument_line (instrument_assignment_rows db)
   /\ available_first (fun j => available (fst j)) by_section_type_name_id
        (join_types db) (instrument_assignment_rows db)
   /\ map fst (join_types db) = rows (instruments db))
  /\ (viewUniformAssignments db
        = map uniform_line (assignment_rows (uniforms db))
      /\ available_first (@available _) (@by_id _)
           (rows (uniforms db)) (assignment_rows (uniforms db)))
  /\ (viewShakoAssignments db
        = map shako_line (assignment_rows (shakos db))
      /\ available_first (@available _) (@by_id _)
           (rows (shakos db)) (assignment_rows (shakos db))).
Proof.
  intros Hr. apply reachable_wf in Hr.
  repeat split.
  - apply (order_by_available_first _ (fun j : typed => available (fst j))
             by_section_type_name_id (join_types db)
             by_section_type_name_id_antisymmetric).
  - now apply join_types_complete.
  - apply (order_by_available_first _ (@available _) (@by_id _)
             (rows (uniforms db)) (by_id_antisymmetric _)).
  - apply (order_by_available_first _ (@available _) (@by_id _)
             (rows (shakos db)) (by_id_antisymmetric _)).
Qed.

Lemma assignments_available_first_witness :
  available_first (@available _) (@by_id _)
    (rows (shakos sample_db)) (assignment_rows (shakos sample_db))
  /\ map fst (join_types sample_db) = rows (instruments sample_db).
Proof.
  assert (reachable sample_db) as Hr
    by (apply session_reachable; [apply reach_init | reflexivity]).
  destruct (assignments_available_first sample_db Hr)
    as [[_ [_ Hi]] [_ [_ Hk]]].
  split; assumption.
Defined.

(** * Further properties of the program *)

(** All the menu actions at once: the case analysis that the proofs about
    [run] share. *)
Ltac run_cases op db :=
  destruct op; simpl run;
  unfold addStudent, addStudent_on, insert_student, insert_or_ignore_compliance,
    setSectionLeader, upsert_section_leader, checkoutInstrument,
    update_checkout, returnInstrument, addInstrumentToInventory,
    insert_instrument, checkoutUniform, insert_uniform, returnUniform,
    checkoutShako, insert_shako, returnShako, update_return,
    updateStudentCompliance, upsert_compliance, insert_item;
  try match goal with
      | |- context [getStudentSection db ?s] =>
          destruct (getStudentSection db s)
      end;
  repeat case_if; simpl.

(** ** Nothing is deleted or rewritten *)

Lemma fixed_part_map D (f : row D -> row D) l :
  (forall r, fixed_part (f r) = fixed_part r) ->
  map (@fixed_part D) (map f l) = map (@fixed_part D) l.
Proof.
  intros H. rewrite map_map. apply map_ext. exact H.
Qed.

Ltac grows_or_same :=
  first
    [ exists []; rewrite app_nil_r;
      solve [ reflexivity
            | apply fixed_part_map; intros ?; case_if; reflexivity ]
    | eexists; solve [ reflexivity | rewrite map_app; reflexivity ] ].

(** X1: no action deletes or rewrites a student, and no action deletes an
    inventory row or changes its key, its descriptor or its condition
    notes: after any action each of the four tables is the old one, in
    the same order, with at most new rows behind it. *)
Theorem nothing_is_deleted db today op :
  (exists new, students (run today op db) = students db ++ new)
  /\ (exists new,
        map (@fixed_part _) (rows (instruments (run today op db)))
        = map (@fixed_part _) (rows (instruments db)) ++ new)
  /\ (exists new,
        map (@fixed_part _) (rows (uniforms (run today op db)))
        = map (@fixed_part _) (rows (uniforms db)) ++ new)
  /\ (exists new,
        map (@fixed_part _) (rows (shakos (run today op db)))
        = map (@fixed_part _) (rows (shakos db)) ++ new).
Proof.
  run_cases op db; repeat split; grows_or_same.
Qed.

(** ** The type catalog *)

Lemma run_instrument_types today op db :
  instrument_types (run today op db) = instrument_types db.
Proof. run_cases op db; reflexivity. Qed.

Lemma reachable_types db : reachable db -> instrument_types db = seeded_types.
Proof.
  induction 1; [reflexivity|]. now rewrite run_instrument_types.
Qed.

(** X2: the catalog of instrument types is read-only: in every database
    the program can reach it is the nine seeded types, and every
    instrument in inventory carries the key of one of them. *)
Theorem catalog_is_fixed db :
  reachable db ->
  instrument_types db = seeded_types
  /\ forall i, In i (rows (instruments db)) ->
       exists ty, In ty seeded_types
                  /\ INSTRUMENT_TYPES.TYPE_ID ty = TYPE_ID (DESCR i)
                  /\ In (i, ty) (join_types db).
Proof.
  intros Hr. pose proof (reachable_types db Hr) as Ht.
  split; [exact Ht|]. intros i Hi.
  apply reachable_wf in Hr.
  pose proof (wf_instrument_fk Hr) as Hfk.
  rewrite Forall_forall in Hfk. specialize (Hfk i Hi).
  rewrite existsb_find in Hfk.
  destruct (find (type_key (TYPE_ID (DESCR i))) (instrument_types db))
    as [ty|] eqn:E; [|discriminate].
  exists ty. pose proof (find_some _ _ E) as [Hin Hk].
  rewrite <- Ht. repeat split; auto.
  - now apply Z.eqb_eq in Hk.
  - unfold join_types. apply in_flat_map. exists i. split; auto.
    rewrite E. now left.
Qed.

Lemma catalog_is_fixed_witness :
  instrument_types sample_db = seeded_types
  /\ forall i, In i (rows (instruments sample_db)) ->
       exists ty, In ty seeded_types
                  /\ INSTRUMENT_TYPES.TYPE_ID ty = TYPE_ID (DESCR i)
                  /\ In (i, ty) (join_types sample_db).
Proof.
  apply (catalog_is_fixed sample_db).
  apply session_reachable; [apply reach_init | reflexivity].
Defined.

(** ** Students and their compliance records go in pairs *)






(** ** Keys are handed out in order *)

Lemma numbered_map D (f : row D -> row D) (t : table D) :
  (forall r, ITEM_ID (f r) = ITEM_ID r) ->
  numbered t -> numbered (mkTable (map f (rows t)) (seq t)).
Proof.
  intros Hf [Hk Hs]. split; simpl.
  - rewrite length_map, <- Hk, map_map. apply map_ext. exact Hf.
  - now rewrite length_map.
Qed.

Lemma numbered_insert D u f (t : table D) d notes co date c t' :
  numbered t -> insert_item u f t d notes co date = (c, t') -> numbered t'.
Proof.
  intros [Hk Hs]. unfold insert_item.
  repeat case_if; intros [= <- <-]; try (split; assumption).
  split; simpl.
  - rewrite length_app. simpl. rewrite Nat.add_1_r, seq_S, !map_app, <- Hk.
    simpl. rewrite Hs. do 3 f_equal. lia.
  - rewrite length_app. simpl. lia.
Qed.

Lemma numbered_checkout D ex (t : table D) sid iid today c t' n :
  numbered t -> update_checkout ex t sid iid today = (c, t', n) ->
  numbered t'.
Proof.
  intros H. unfold update_checkout.
  repeat case_if; intros [= <- <- <-]; auto.
  apply numbered_map; auto. intros r. now case_if.
Qed.

Lemma run_numbered today op db :
  numbered (instruments db) /\ numbered (uniforms db)
  /\ numbered (shakos db) ->
  numbered (instruments (run today op db))
  /\ numbered (uniforms (run today op db))
  /\ numbered (shakos (run today op db)).
Proof.
  intros [Hi [Hu Hk]].
  destruct op; simpl run;
    unfold addStudent, addStudent_on, insert_student, insert_or_ignore_compliance,
      setSectionLeader, upsert_section_leader, checkoutInstrument,
      returnInstrument, addInstrumentToInventory, insert_instrument,
      checkoutUniform, insert_uniform, returnUniform, checkoutShako,
      insert_shako, returnShako, updateStudentCompliance, upsert_compliance;
    try match goal with
        | |- context [getStudentSection db ?s] =>
            destruct (getStudentSection db s)
        end;
    repeat match goal with
      | |- context [insert_item ?a ?b ?c ?d ?e ?f ?g] =>
          let E := fresh "E" in
          destruct (insert_item a b c d e f g) as [[] ?] eqn:E;
          first [ pose proof (numbered_insert _ _ _ _ _ _ _ _ _ _ Hi E)
                | pose proof (numbered_insert _ _ _ _ _ _ _ _ _ _ Hu E)
                | pose proof (numbered_insert _ _ _ _ _ _ _ _ _ _ Hk E) ]
      | |- context [update_checkout ?a ?b ?c ?d ?e] =>
          let E := fresh "E" in
          destruct (update_checkout a b c d e) as [[[] ?] ?] eqn:E;
          pose proof (numbered_checkout _ _ _ _ _ _ _ _ _ Hi E)
      | |- context [if ?c then _ else _] => destruct c eqn:?
      end;
    simpl; (split; [|split]); auto;
    (apply numbered_map; [intros ?; now case_if | assumption]).
Qed.

(** X4: in every database the program can reach, the items of each kind
    are numbered 1, 2, 3, ... in the order they were created, without a
    gap, and the key counter of the table is the number of its rows (a
    refused insertion uses up no key). *)
Theorem items_are_numbered_in_order db :
  reachable db ->
  numbered (instruments db) /\ numbered (uniforms db)
  /\ numbered (shakos db).
Proof.
  induction 1; [repeat split; reflexivity|]. now apply run_numbered.
Qed.

Lemma items_are_numbered_in_order_witness :
  numbered (instruments sample_db) /\ numbered (uniforms sample_db)
  /\ numbered (shakos sample_db).
Proof.
  apply (items_are_numbered_in_order sample_db).
  apply session_reachable; [apply reach_init | reflexivity].
Defined.

(** ** Serials *)

Lemma has_serial_In s l :
  existsb (has_serial s) l = true <-> In s (serials l).
Proof.
  unfold serials, has_serial. rewrite existsb_exists, in_flat_map.
  split; intros [r [Hr H]]; exists r; split; auto;
    destruct (SERIAL (DESCR r)) as [s'|]; simpl in *; try easy.
  - apply String.eqb_eq in H. now left.
  - destruct H as [->|[]]. apply String.eqb_refl.
Qed.

Lemma serials_map (f : row InstrumentDescr -> row InstrumentDescr) l :
  (forall r, DESCR (f r) = DESCR r) -> serials (map f l) = serials l.
Proof.
  intros Hf. unfold serials.
  induction l as [|r l IH]; simpl; [reflexivity|].
  now rewrite Hf, IH.
Qed.

Lemma run_serials today op db :
  NoDup (serials (rows (instruments db))) ->
  NoDup (serials (rows (instruments (run today op db)))).
Proof.
  intros H.
  run_cases op db; auto;
    try (rewrite serials_map; [exact H | intros ?; now case_if]).
  unfold serials in *. rewrite flat_map_app. simpl.
  destruct (bind_text_or_null serial) as [s|] eqn:Es; simpl;
    rewrite ?app_nil_r; auto.
  apply NoDup_snoc; auto.
  intros Hin. apply has_serial_In in Hin.
  match goal with
  | E : negb _ || negb _ = false |- _ =>
      apply orb_false_elim in E; destruct E as [E _];
      rewrite Hin in E; discriminate
  end.
Qed.

(** X5: in every database the program can reach, no two instruments carry
    the same serial; instruments without a serial (NULL) are not
    limited. *)
Theorem serials_are_distinct db :
  reachable db -> NoDup (serials (rows (instruments db))).
Proof.
  induction 1; [constructor|]. now apply run_serials.
Qed.

Lemma serials_are_distinct_witness :
  NoDup (serials (rows (instruments sample_db))).
Proof.
  apply (serials_are_distinct sample_db).
  apply session_reachable; [apply reach_init | reflexivity].
Defined.

(** ** Sections and section leaders *)

Lemma leader_key_In section l :
  existsb (leader_key section) l = true
  <-> In section (map SECTION_LEADERS.SECTION l).
Proof.
  unfold leader_key. rewrite existsb_exists, in_map_iff.
  split; intros [x [H1 H2]]; exists x.
  - apply String.eqb_eq in H2. auto.
  - subst. split; auto. apply String.eqb_refl.
Qed.

Lemma setSectionLeader_cases section leaderId db :
  setSectionLeader section leaderId db
  = if negb (studentExists db leaderId) then (db, Student_does_not_exist)
    else if negb (section_allowed section) then (db, Set_leader_failed)
    else (set_section_leaders db
            (if existsb (leader_key section) (section_leaders db)
             then map (fun l => if leader_key section l
                                then SECTION_LEADERS.mk
                                       (SECTION_LEADERS.SECTION l) leaderId
                                else l) (section_leaders db)
             else section_leaders db
                  ++ [SECTION_LEADERS.mk section leaderId]),
          Section_leader_saved).
Proof.
  unfold setSectionLeader, upsert_section_leader.
  destruct (studentExists db leaderId); simpl; [|reflexivity].
  destruct (section_allowed section); simpl; [|reflexivity].
  now destruct (existsb (leader_key section) (section_leaders db)).
Qed.

Lemma setSectionLeader_sections_wf section leaderId db :
  sections_wf db -> sections_wf (fst (setSectionLeader section leaderId db)).
Proof.
  intros H. rewrite setSectionLeader_cases.
  destruct (studentExists db leaderId) eqn:Ex; simpl; auto.
  destruct (section_allowed section) eqn:Es; simpl; auto.
  destruct H as [Hs Hl Hk He].
  destruct (existsb (leader_key section) (section_leaders db)) eqn:Ek;
    split; simpl; auto.
  - rewrite Forall_forall in *. intros x Hx.
    apply in_map_iff in Hx. destruct Hx as [x0 [<- Hx0]].
    case_if; simpl; auto.
  - rewrite map_map. erewrite map_ext; [exact Hk|].
    intros x. now case_if.
  - rewrite Forall_forall in *. intros x Hx.
    apply in_map_iff in Hx. destruct Hx as [x0 [<- Hx0]].
    case_if; simpl; [exact Ex | exact (He _ Hx0)].
  - apply Forall_app. split; auto.
  - rewrite map_app. simpl. apply NoDup_snoc; auto.
    intros Hin. apply leader_key_In in Hin. congruence.
  - apply Forall_app. split; auto.
Qed.

Lemma run_sections_wf today op db :
  sections_wf db -> sections_wf (run today op db).
Proof.
  intros H.
  destruct (match op with SetSectionLeader _ _ => true | _ => false end)
    eqn:Eop.
  - destruct op; try discriminate. simpl run.
    now apply setSectionLeader_sections_wf.
  - destruct H as [Hs Hl Hk He].
    run_cases op db; try discriminate; (split; simpl; auto).
    all: first
      [ apply Forall_app; split; auto; constructor; auto;
        match goal with
        | E : negb (section_allowed _) = false |- _ =>
            now apply negb_false_iff in E
        end
      | eapply Forall_impl; [|exact He]; intros a Ha;
        now apply studentExists_app ].
Qed.

Lemma sections_and_leaders_wf_aux db : reachable db -> sections_wf db.
Proof.
  induction 1; [split; constructor|]. now apply run_sections_wf.
Qed.

(** X6: in every database the program can reach, every student's section
    and every section of SECTION_LEADERS is one of WOODWIND, BRASS,
    PERCUSSION, AUXILIARY, DM; a section has at most one leader; every
    leader is a student of the roster. *)
Theorem sections_and_leaders_are_valid db : reachable db -> sections_wf db.
Proof. apply sections_and_leaders_wf_aux. Qed.

Lemma sections_and_leaders_are_valid_witness : sections_wf sample_db.
Proof.
  apply (sections_and_leaders_are_valid sample_db).
  apply session_reachable; [apply reach_init | reflexivity].
Defined.

Lemma filter_map_fixed A (p : A -> bool) (f : A -> A) l :
  (forall x, p (f x) = p x) -> (forall x, p x = true -> f x = x) ->
  filter p (map f l) = filter p l.
Proof.
  intros H1 H2. induction l as [|a l IH]; simpl; [reflexivity|].
  rewrite H1. destruct (p a) eqn:E; [rewrite (H2 a E)|]; now rewrite IH.
Qed.

Lemma filter_leader_updated section leaderId l :
  NoDup (map SECTION_LEADERS.SECTION l) ->
  existsb (leader_key section) l = true ->
  filter (leader_key section)
    (map (fun x => if leader_key section x
                   then SECTION_LEADERS.mk (SECTION_LEADERS.SECTION x)
                          leaderId
                   else x) l)
  = [SECTION_LEADERS.mk section leaderId].
Proof.
  induction l as [|a l IH]; simpl; intros Hnd Hex; [discriminate|].
  apply NoDup_cons_iff in Hnd. destruct Hnd as [Hna Hnd].
  destruct (leader_key section a) eqn:Ea.
  - unfold leader_key in Ea. apply String.eqb_eq in Ea. rewrite Ea.
    unfold leader_key at 1. simpl. rewrite String.eqb_refl. f_equal.
    assert (forall x, In x l -> leader_key section x = false) as Hno.
    { intros x Hx. destruct (leader_key section x) eqn:Ex; [|reflexivity].
      exfalso. apply Hna. unfold leader_key in Ex.
      apply String.eqb_eq in Ex. rewrite Ea, <- Ex. now apply in_map. }
    rewrite map_unhit by exact Hno. now apply filter_nil.
  - simpl in Hex. rewrite Ea. auto.
Qed.

(** X7: setSectionLeader, for one of the five sections: when the student
    is not on the roster it prints that the student does not exist and
    changes nothing; otherwise it succeeds whether or not the section had
    a leader and whatever the student's own section is, and afterwards
    the section has exactly one leader row, naming this student (the
    last assignment wins), while the leaders of all other sections and
    all other tables are as before. *)
Theorem setSectionLeader_last_write_wins db section leaderId :
  reachable db ->
  section_allowed section = true ->
  (studentExists db leaderId = false ->
   setSectionLeader section leaderId db = (db, Student_does_not_exist))
  /\ (studentExists db leaderId = true ->
      snd (setSectionLeader section leaderId db) = Section_leader_saved
      /\ filter (leader_key section)
           (section_leaders (fst (setSectionLeader section leaderId db)))
         = [SECTION_LEADERS.mk section leaderId]
      /\ (forall other, other <> section ->
            filter (leader_key other)
              (section_leaders (fst (setSectionLeader section leaderId db)))
            = filter (leader_key other) (section_leaders db))
      /\ fst (setSectionLeader section leaderId db)
         = set_section_leaders db
             (section_leaders (fst (setSectionLeader section leaderId db)))).
Proof.
  intros Hr Hs.
  apply sections_and_leaders_wf_aux in Hr.
  rewrite setSectionLeader_cases, Hs. simpl.
  split; intros Ex; rewrite Ex; simpl; [auto|].
  split; [reflexivity|].
  destruct (existsb (leader_key section) (section_leaders db)) eqn:Ek.
  - split; [|split; [|reflexivity]].
    + apply filter_leader_updated; auto. apply Hr.
    + intros other Hne. apply filter_map_fixed.
      * intros x. now case_if.
      * intros x Hx. case_if; auto.
        unfold leader_key in *. apply String.eqb_eq in Hx.
        match goal with E : (_ =? _)%string = true |- _ =>
          apply String.eqb_eq in E; congruence end.
  - split; [|split; [|reflexivity]].
    + rewrite filter_app, filter_nil by (now apply existsb_false_forall).
      simpl. unfold leader_key at 1. simpl. now rewrite String.eqb_refl.
    + intros other Hne. rewrite filter_app. simpl.
      unfold leader_key at 2. simpl.
      destruct (String.eqb_spec section other); [congruence|].
      now rewrite app_nil_r.
Qed.

Lemma setSectionLeader_last_write_wins_witness :
  (studentExists sample_db 101 = false ->
   setSectionLeader "BRASS" 101 sample_db
   = (sample_db, Student_does_not_exist))
  /\ (studentExists sample_db 101 = true ->
      snd ada_leads_brass = Section_leader_saved
      /\ filter (leader_key "BRASS") (section_leaders (fst ada_leads_brass))
         = [SECTION_LEADERS.mk "BRASS" 101]
      /\ (forall other, other <> "BRASS" ->
            filter (leader_key other) (section_leaders (fst ada_leads_brass))
            = filter (leader_key other) (section_leaders sample_db))
      /\ fst ada_leads_brass
         = set_section_leaders sample_db
             (section_leaders (fst ada_leads_brass))).
Proof.
  apply (setSectionLeader_last_write_wins sample_db "BRASS" 101).
  - apply session_reachable; [apply reach_init | reflexivity].
  - reflexivity.
Defined.

(** ** The roster listings *)

Lemma by_section_name_antisymmetric : antisymmetric by_section_name.
Proof.
  exact (then_by_antisymmetric
           (string_key_antisymmetric
              (fun j : joined => STUDENTS.SECTION (fst j)))
           (then_by_antisymmetric
              (string_key_antisymmetric
                 (fun j : joined => STUDENTS.LNAME (fst j)))
              (string_key_antisymmetric
                 (fun j : joined => STUDENTS.FNAME (fst j))))).
Qed.

Lemma left_join_students db : map fst (left_join_compliance db) = students db.
Proof.
  unfold left_join_compliance. rewrite map_map. simpl. apply map_id.
Qed.

(** X8: viewAllStudents prints one line for every student of the roster,
    none twice and none left out, whether or not the student has a
    compliance record, in the order of section, then last name, then
    first name. *)
Theorem viewAllStudents_lists_the_roster_in_order db :
  exists shown,
    viewAllStudents db = map student_line shown
    /\ Permutation (map fst shown) (students db)
    /\ Sorted (in_order by_section_name) shown
    /\ List.length (viewAllStudents db) = List.length (students db).
Proof.
  exists (order_by by_section_name (left_join_compliance db)).
  assert (Permutation
            (map fst (order_by by_section_name (left_join_compliance db)))
            (students db)) as HP.
  { rewrite <- left_join_students. apply Permutation_map, order_by_perm. }
  split; [reflexivity|]. split; [exact HP|]. split.
  - apply order_by_sorted, by_section_name_antisymmetric.
  - unfold viewAllStudents. rewrite length_map.
    rewrite <- (Permutation_length HP). now rewrite length_map.
Qed.

Lemma order_by_ext A (cmp cmp' : A -> A -> comparison) l :
  (forall a b, cmp a b = cmp' a b) -> order_by cmp l = order_by cmp' l.
Proof.
  intros H. induction l as [|x l IH]; simpl; [reflexivity|].
  rewrite IH. apply insert_row_ext. auto.
Qed.

Lemma by_elig_as_flag a b :
  by_elig_section_name a b
  = flag_desc_then (fun j => ELIGIBLE j =? 0) by_section_name a b.
Proof.
  unfold by_elig_section_name, flag_desc_then.
  destruct (ELIGIBLE_flag a) as [-> | ->], (ELIGIBLE_flag b) as [-> | ->];
    reflexivity.
Qed.

(** X9: showEligibilityReport prints one line for every student, the
    students who are not eligible first and the eligible ones after them,
    each group in the order of section, last name, first name; on every
    line the flag ELIG is set exactly when the three flags OK_H, OK_G and
    OK_D are. *)
Theorem showEligibilityReport_lists_ineligible_first db :
  exists shown,
    showEligibilityReport db = map report_line shown
    /\ ineligible_first (left_join_compliance db) shown
    /\ Permutation (map fst shown) (students db)
    /\ forall line, In line (showEligibilityReport db) ->
         (rl_elig line = 1 <->
          rl_okH line = 1 /\ rl_okG line = 1 /\ rl_okD line = 1).
Proof.
  exists (order_by by_elig_section_name (left_join_compliance db)).
  split; [reflexivity|].
  rewrite (order_by_ext _ _ _ _ by_elig_as_flag).
  split; [|split].
  - destruct (order_by_available_first _ (fun j => ELIGIBLE j =? 0)
                by_section_name (left_join_compliance db)
                by_section_name_antisymmetric)
      as [no [yes [E [Hno [Hyes [Sno [Syes HP]]]]]]].
    exists no, yes. repeat split; auto.
    + eapply Forall_impl; [|exact Hno]. intros j Hj.
      now apply Z.eqb_eq in Hj.
    + eapply Forall_impl; [|exact Hyes]. intros j Hj.
      apply Z.eqb_neq in Hj. destruct (ELIGIBLE_flag j); congruence.
  - rewrite <- left_join_students. apply Permutation_map, order_by_perm.
  - intros line Hin. unfold showEligibilityReport in Hin.
    apply in_map_iff in Hin. destruct Hin as [j [<- _]].
    unfold report_line, ELIGIBLE, OK_HRS, OK_GPA, OK_DUES. simpl.
    destruct (c_CREDIT_HOURS j >=? 12), (double_ge (c_GPA j) d3_0),
      (c_DUES_PAID j =? 1); simpl; intuition discriminate.
Qed.

(** ** Looking a student up *)

(** X10: findStudentById prints "No student found with that ID." exactly
    when no student has that ID, whatever the database holds; a profile
    it prints carries the ID asked for (as an [int]). *)
Theorem findStudentById_not_found db id :
  (findStudentById db id = None <-> studentExists db id = false)
  /\ (forall p, findStudentById db id = Some p ->
        p_id p = sqlite3_column_int id).
Proof.
  unfold findStudentById, left_join_compliance, studentExists.
  rewrite find_map, existsb_find. simpl.
  destruct (find (fun s => STUDENTS.STUDENT_ID s =? id) (students db))
    as [s|] eqn:E; simpl.
  - split; [split; discriminate|].
    intros p [= <-]. simpl.
    apply find_some in E. destruct E as [_ E].
    apply Z.eqb_eq in E. now rewrite E.
  - split; [tauto | discriminate].
Qed.

(** ** Adding a student *)

(** X11: addStudent succeeds exactly when no student has the ID yet and
    the section is one of the five; in every other case (a duplicate ID
    among them) it prints "Insert failed" and the roster, the compliance
    records and everything else are as before. *)
Theorem addStudent_refuses_duplicates db today id fn ln cl sec sh so :
  reachable db ->
  (snd (addStudent today id fn ln cl sec sh so db) = Student_added
   <-> studentExists db id = false /\ section_allowed sec = true)
  /\ (snd (addStudent today id fn ln cl sec sh so db) <> Student_added ->
      addStudent today id fn ln cl sec sh so db = (db, Insert_failed)).
Proof.
  intros Hr. apply reachable_wf in Hr.
  destruct (studentExists db id) eqn:Ex.
  { rewrite addStudent_failure by auto. simpl.
    split; [split; [discriminate | intros [? _]; discriminate] | auto]. }
  destruct (section_allowed sec) eqn:Es.
  - rewrite addStudent_success by assumption. simpl.
    split; [tauto | congruence].
  - rewrite addStudent_failure by auto. simpl.
    split; [split; [discriminate | intros [_ ?]; discriminate] | auto].
Qed.

Lemma addStudent_refuses_duplicates_witness :
  (snd (addStudent "2024-09-06" 101 "Al" "Horn" "Senior" "BRASS" "" ""
          sample_db) = Student_added
   <-> studentExists sample_db 101 = false
       /\ section_allowed "BRASS" = true)
  /\ (snd (addStudent "2024-09-06" 101 "Al" "Horn" "Senior" "BRASS" "" ""
             sample_db) <> Student_added ->
      addStudent "2024-09-06" 101 "Al" "Horn" "Senior" "BRASS" "" ""
        sample_db
      = (sample_db, Insert_failed)).
Proof.
  apply (addStudent_refuses_duplicates sample_db "2024-09-06" 101 "Al"
           "Horn" "Senior" "BRASS" "" "").
  apply session_reachable; [apply reach_init | reflexivity].
Defined.




(** ** Updating compliance and reading it back *)

Lemma updateStudentCompliance_valid db today id hours gpa dues :
  input_ok (UpdateStudentCompliance id hours gpa dues) = true ->
  studentExists db id = true ->
  updateStudentCompliance today id hours gpa dues db
  = (set_compliance db
       (if existsb (compliance_key id) (compliance db)
        then map (fun c => if compliance_key id c
                           then COMPLIANCE.mk (COMPLIANCE.STUDENT_ID c)
                                  hours (sqlite_real gpa) dues (Some today)
                           else c) (compliance db)
        else compliance db
             ++ [COMPLIANCE.mk id hours (sqlite_real gpa) dues
                   (Some today)]),
     Compliance_saved).
Proof.
  intros Hok Hex.
  simpl in Hok. unfold readIntInRange_accepts, readBool01_accepts in Hok.
  repeat (apply andb_prop in Hok; destruct Hok as [Hok ?]).
  unfold updateStudentCompliance, upsert_compliance.
  rewrite Hex. simpl negb. cbv iota.
  rewrite (accepted_double_not_nan d0_0 d4_0 gpa) by assumption.
  replace (hours <? 0) with false by (symmetry; apply Z.ltb_ge; lia).
  replace ((dues =? 0) || (dues =? 1)) with true by auto.
  simpl orb. cbv iota.
  now destruct (existsb (compliance_key id) (compliance db)).
Qed.

Lemma find_upserted id hours gpa dues date l :
  existsb (compliance_key id) l = true ->
  find (compliance_key id)
    (map (fun c => if compliance_key id c
                   then COMPLIANCE.mk (COMPLIANCE.STUDENT_ID c)
                          hours gpa dues date
                   else c) l)
  = Some (COMPLIANCE.mk id hours gpa dues date).
Proof.
  induction l as [|a l IH]; simpl; [discriminate|].
  destruct (compliance_key id a) eqn:Ea; simpl.
  - intros _. apply Z.eqb_eq in Ea. rewrite Ea.
    unfold compliance_key. simpl. now rewrite Z.eqb_refl.
  - rewrite Ea. exact IH.
Qed.

Lemma sqlite_real_ge x y : double_ge (sqlite_real x) y = double_ge x y.
Proof.
  unfold double_ge, SFleb.
  destruct x as [s|s| |s m e]; reflexivity.
Qed.

(** X13: updateStudentCompliance for an ID that is not on the roster
    prints that the student does not exist and changes nothing.  For a
    student of the roster and values that passed the input checks, the
    profile findStudentById prints right afterwards shows the hours and
    the dues flag just entered, the GPA as the REAL column holds it (the
    number entered, a negative zero as zero), today as the verification
    date, and the eligibility that the entered values give; the
    student's name, class, section and sizes are as before. *)
Theorem updateStudentCompliance_then_find db today id hours gpa dues :
  reachable db ->
  input_ok (UpdateStudentCompliance id hours gpa dues) = true ->
  (studentExists db id = false ->
   updateStudentCompliance today id hours gpa dues db
   = (db, Student_does_not_exist))
  /\ (studentExists db id = true ->
      exists s,
        In s (students db) /\ STUDENTS.STUDENT_ID s = id
        /\ findStudentById
             (fst (updateStudentCompliance today id hours gpa dues db)) id
           = Some (mkProfile id (full_name s)
                     (colText (STUDENTS.CLASSIFICATION s))
                     (STUDENTS.SECTION s)
                     (colText (STUDENTS.SHIRT_SIZE s))
                     (colText (STUDENTS.SHOE_SIZE s))
                     hours (sqlite_real gpa) dues
                     (spec_eligible hours gpa (dues =? 1))
                     today)
        /\ SFeqb (sqlite_real gpa) gpa = true).
Proof.
  intros Hr Hok. split; intros Hex.
  { unfold updateStudentCompliance. now rewrite Hex. }
  apply reachable_wf in Hr.
  pose proof (updateStudentCompliance_wf today id hours gpa dues Hok Hr)
    as Hwf'.
  rewrite updateStudentCompliance_valid in * by assumption.
  simpl fst in *.
  pose proof Hex as Hs. apply studentExists_In, in_map_iff in Hs.
  destruct Hs as [s [Hid Hin]]. exists s.
  pose proof (accepted_double_not_nan d0_0 d4_0 gpa) as Hnan.
  split; [exact Hin|]. split; [exact Hid|].
  split.
  2:{ apply sqlite_real_same_number, Hnan. simpl in Hok.
      apply andb_prop in Hok. destruct Hok as [Hok _].
      apply andb_prop in Hok. now destruct Hok. }
  set (db1 := set_compliance _ _) in *.
  unfold findStudentById. rewrite <- Hid.
  rewrite find_joined by (auto; apply Hwf'). rewrite Hid.
  assert (find (compliance_key id) (compliance db1)
          = Some (COMPLIANCE.mk id hours (sqlite_real gpa) dues
                    (Some today))) as Hc.
  { unfold db1. simpl.
    destruct (existsb (compliance_key id) (compliance db)) eqn:Ek.
    - now apply find_upserted.
    - apply find_app_new; auto. unfold compliance_key. simpl.
      apply Z.eqb_refl. }
  rewrite Hc. simpl.
  unfold profile, c_CREDIT_HOURS, c_GPA, c_DUES_PAID, c_LAST_VERIFIED_DATE,
    spec_eligible. simpl.
  simpl in Hok. unfold readIntInRange_accepts, readBool01_accepts, is_int
    in Hok.
  repeat (apply andb_prop in Hok; destruct Hok as [Hok ?]).
  rewrite Hid.
  assert (int_min <= id <= int_max) as Bi
    by (unfold int_min, int_max in *; lia).
  assert (int_min <= hours <= int_max) as Bh
    by (unfold int_min, int_max in *; lia).
  assert (int_min <= dues <= int_max) as Bd
    by (unfold int_min, int_max in *; lia).
  rewrite !sqlite3_column_int_small by assumption.
  now rewrite sqlite_real_ge.
Qed.

Lemma updateStudentCompliance_then_find_witness :
  (studentExists sample_db 101 = false ->
   updateStudentCompliance "2024-09-07" 101 15 d4_0 1 sample_db
   = (sample_db, Student_does_not_exist))
  /\ (studentExists sample_db 101 = true ->
      exists s,
        In s (students sample_db) /\ STUDENTS.STUDENT_ID s = 101
        /\ findStudentById (fst update_ada) 101
           = Some (mkProfile 101 (full_name s)
                     (colText (STUDENTS.CLASSIFICATION s))
                     (STUDENTS.SECTION s)
                     (colText (STUDENTS.SHIRT_SIZE s))
                     (colText (STUDENTS.SHOE_SIZE s))
                     15 d4_0 1 (spec_eligible 15 d4_0 (1 =? 1))
                     "2024-09-07")
        /\ SFeqb d4_0 d4_0 = true).
Proof.
  apply (updateStudentCompliance_then_find sample_db "2024-09-07" 101 15
           d4_0 1).
  - apply session_reachable; [apply reach_init | reflexivity].
  - reflexivity.
Defined.

(** ** Returning an item *)

Lemma find_item_of_row D (l : list (row D)) r :
  NoDup (map (@ITEM_ID D) l) -> In r l ->
  find_item (ITEM_ID r) l = Some r.
Proof.
  intros Hn Hin.
  destruct (find_item (ITEM_ID r) l) as [r'|] eqn:E.
  - apply find_item_In in E. destruct E as [Hin' Hid'].
    f_equal. apply (has_id_unique D (ITEM_ID r) l r' r); auto.
    unfold has_id. apply Z.eqb_refl.
  - unfold find_item in E.
    pose proof (find_none _ _ E r Hin) as H. unfold has_id in H.
    now rewrite Z.eqb_refl in H.
Qed.

Lemma holder_is_unique D (l : list (row D)) r r' s :
  NoDup (holders l) -> In r l -> In r' l ->
  CHECKED_OUT_TO r = Some s -> CHECKED_OUT_TO r' = Some s -> r = r'.
Proof.
  intros Hn Hin Hin' Hs Hs'.
  apply In_nth_error in Hin. destruct Hin as [i Hi].
  apply In_nth_error in Hin'. destruct Hin' as [j Hj].
  pose proof (@holders_distinct_rows D l Hn i j r r' s Hi Hj Hs Hs') as E.
  subst j. congruence.
Qed.

Lemma update_return_checked_out D (t : table D) r s :
  table_wf t -> NoDup (holders (rows t)) ->
  In r (rows t) -> CHECKED_OUT_TO r = Some s ->
  exists t',
    update_return t (ITEM_ID r) = (SQLITE_DONE, t', 1%nat)
    /\ given_back t t' (ITEM_ID r) r
    /\ held_by s (rows t') = false.
Proof.
  intros Hwf Hn Hin Hs.
  pose proof (find_item_of_row D (rows t) r (ids_distinct Hwf) Hin) as Hf.
  eexists. split; [|split].
  - unfold update_return.
    rewrite (filter_has_id D (ITEM_ID r) (rows t) (ids_distinct Hwf)), Hf.
    reflexivity.
  - unfold given_back. simpl. split; [|split; [|split]].
    + rewrite find_item_map by reflexivity. now rewrite Hf.
    + intros iid' Hne. now apply find_item_map_other.
    + rewrite map_map. apply map_ext. intros x. now destruct (has_id _ x).
    + reflexivity.
  - simpl. unfold held_by.
    destruct (existsb _ _) eqn:E; [|reflexivity].
    apply existsb_exists in E. destruct E as [x [Hx Hh]].
    apply in_map_iff in Hx. destruct Hx as [y [Hy Hiny]].
    destruct (has_id (ITEM_ID r) y) eqn:Ey.
    + subst x. discriminate.
    + subst x. unfold holds in Hh.
      destruct (CHECKED_OUT_TO y) as [s'|] eqn:Ec; [|discriminate].
      apply Z.eqb_eq in Hh. subst s'.
      assert (r = y) by (eapply holder_is_unique; eauto).
      subst y. unfold has_id in Ey. now rewrite Z.eqb_refl in Ey.
Qed.

Lemma checked_out_exists D (l : list (row D)) r s :
  In r l -> CHECKED_OUT_TO r = Some s -> existsb (@checked_out D) l = true.
Proof.
  intros Hin Hs. apply existsb_exists. exists r. split; auto.
  unfold checked_out. now rewrite Hs.
Qed.

(** X14: in a database the program produced, returning an item that is
    checked out succeeds with the message that it was returned, for each
    of the three kinds.  Afterwards the row under that key has an empty
    slot, the rows under the other keys, the order of the keys and the
    counter are as before, and the student who held the item holds
    nothing of that kind. *)
Theorem return_of_a_checked_out_item db :
  reachable db ->
  (forall r s,
     In r (rows (instruments db)) -> CHECKED_OUT_TO r = Some s ->
     snd (returnInstrument (ITEM_ID r) db) = Item_returned
     /\ given_back (instruments db)
          (instruments (fst (returnInstrument (ITEM_ID r) db))) (ITEM_ID r) r
     /\ held_by s
          (rows (instruments (fst (returnInstrument (ITEM_ID r) db))))
        = false)
  /\ (forall r s,
        In r (rows (uniforms db)) -> CHECKED_OUT_TO r = Some s ->
        snd (returnUniform (ITEM_ID r) db) = Item_returned
        /\ given_back (uniforms db)
             (uniforms (fst (returnUniform (ITEM_ID r) db))) (ITEM_ID r) r
        /\ held_by s (rows (uniforms (fst (returnUniform (ITEM_ID r) db))))
           = false)
  /\ (forall r s,
        In r (rows (shakos db)) -> CHECKED_OUT_TO r = Some s ->
        snd (returnShako (ITEM_ID r) db) = Item_returned
        /\ given_back (shakos db)
             (shakos (fst (returnShako (ITEM_ID r) db))) (ITEM_ID r) r
        /\ held_by s (rows (shakos (fst (returnShako (ITEM_ID r) db))))
           = false).
Proof.
  intros Hr.
  pose proof (reachable_wf Hr) as Hwf.
  pose proof (reachable_single_holder Hr) as Hsh.
  split; [|split]; intros r s Hin Hs.
  - destruct (update_return_checked_out _ (instruments db) r s
                (wf_instruments Hwf)
                (holders_distinct (sh_instruments Hsh)) Hin Hs)
      as [t' [Hu [Hg Hh]]].
    unfold returnInstrument.
    rewrite any_checked_out_instruments by assumption.
    rewrite (checked_out_exists _ _ r s Hin Hs). simpl negb. cbv iota.
    rewrite Hu. destruct db; simpl. auto.
  - destruct (update_return_checked_out _ (uniforms db) r s
                (wf_uniforms Hwf)
                (holders_distinct (sh_uniforms Hsh)) Hin Hs)
      as [t' [Hu [Hg Hh]]].
    unfold returnUniform.
    rewrite any_checked_out_rows.
    rewrite (checked_out_exists _ _ r s Hin Hs). simpl negb. cbv iota.
    rewrite Hu. destruct db; simpl. auto.
  - destruct (update_return_checked_out _ (shakos db) r s
                (wf_shakos Hwf)
                (holders_distinct (sh_shakos Hsh)) Hin Hs)
      as [t' [Hu [Hg Hh]]].
    unfold returnShako.
    rewrite any_checked_out_rows.
    rewrite (checked_out_exists _ _ r s Hin Hs). simpl negb. cbv iota.
    rewrite Hu. destruct db; simpl. auto.
Qed.

Lemma return_of_a_checked_out_item_witness :
  snd (returnInstrument 1 sample_db) = Item_returned
  /\ given_back (instruments sample_db)
       (instruments (fst (returnInstrument 1 sample_db))) 1 trumpet_out
  /\ held_by 101 (rows (instruments (fst (returnInstrument 1 sample_db))))
     = false.
Proof.
  destruct (return_of_a_checked_out_item sample_db) as [Hi _].
  - apply session_reachable; [apply reach_init | reflexivity].
  - apply (Hi trumpet_out 101); [simpl; auto | reflexivity].
Defined.

Lemma update_return_no_row D (t : table D) iid :
  find_item iid (rows t) = None ->
  update_return t iid = (SQLITE_DONE, t, 0%nat).
Proof.
  intros Hf. unfold update_return.
  assert (forall x, In x (rows t) -> has_id iid x = false) as Hno
    by (intros x Hx; exact (find_none _ _ Hf x Hx)).
  rewrite map_unhit by assumption. rewrite table_eta.
  now rewrite (filter_nil _ (has_id iid) (rows t) Hno).
Qed.

(** X15: in a database the program produced, a return under a key that
    no row of the kind has leaves the database as it was, for each of the
    three kinds.  The message is that there is no item with that ID when
    some item of the kind is checked out, and that none is checked out
    otherwise; it is never a failure. *)
Theorem return_of_an_unknown_item db iid :
  reachable db ->
  (find_item iid (rows (instruments db)) = None ->
   returnInstrument iid db = (db, nothing_returned_message (instruments db)))
  /\ (find_item iid (rows (uniforms db)) = None ->
      returnUniform iid db = (db, nothing_returned_message (uniforms db)))
  /\ (find_item iid (rows (shakos db)) = None ->
      returnShako iid db = (db, nothing_returned_message (shakos db))).
Proof.
  intros Hr. pose proof (reachable_wf Hr) as Hwf.
  unfold nothing_returned_message.
  split; [|split]; intros Hf.
  - unfold returnInstrument.
    rewrite any_checked_out_instruments by assumption.
    destruct (existsb _ _); [|reflexivity]. simpl negb. cbv iota.
    rewrite update_return_no_row by assumption.
    now rewrite set_instruments_same.
  - unfold returnUniform. rewrite any_checked_out_rows.
    destruct (existsb _ _); [|reflexivity]. simpl negb. cbv iota.
    rewrite update_return_no_row by assumption.
    now rewrite set_uniforms_same.
  - unfold returnShako. rewrite any_checked_out_rows.
    destruct (existsb _ _); [|reflexivity]. simpl negb. cbv iota.
    rewrite update_return_no_row by assumption.
    now rewrite set_shakos_same.
Qed.

Lemma return_of_an_unknown_item_witness :
  (find_item 7 (rows (instruments sample_db)) = None ->
   returnInstrument 7 sample_db
   = (sample_db, nothing_returned_message (instruments sample_db)))
  /\ (find_item 7 (rows (uniforms sample_db)) = None ->
      returnUniform 7 sample_db
      = (sample_db, nothing_returned_message (uniforms sample_db)))
  /\ (find_item 7 (rows (shakos sample_db)) = None ->
      returnShako 7 sample_db
      = (sample_db, nothing_returned_message (shakos sample_db))).
Proof.
  apply (return_of_an_unknown_item sample_db 7).
  apply session_reachable; [apply reach_init | reflexivity].
Defined.

(** ** Checking out a uniform or a shako *)

Lemma insert_item_refused D u f (t : table D) d notes co date :
  u = false \/ f = false \/ max_rowid <= seq t ->
  exists c, insert_item u f t d notes co date = (c, t) /\ c <> SQLITE_DONE.
Proof.
  intros H. unfold insert_item.
  destruct (max_rowid <=? seq t) eqn:E.
  - eexists. split; [reflexivity | discriminate].
  - apply Z.leb_gt in E.
    destruct H as [-> | [-> | H]]; [| |lia].
    + eexists. split; [reflexivity | discriminate].
    + rewrite orb_true_r. eexists. split; [reflexivity | discriminate].
Qed.

Lemma insert_item_accepted D (t : table D) d notes co date :
  seq t < max_rowid ->
  insert_item true true t d notes co date
  = (SQLITE_DONE,
     mkTable (rows t ++ [Item.mk (seq t + 1) d notes co date]) (seq t + 1)).
Proof.
  intros H. unfold insert_item.
  apply Z.leb_gt in H. now rewrite H.
Qed.

Lemma held_by_new D (l : list (row D)) iid d notes sid date :
  held_by sid (l ++ [Item.mk iid d notes (Some sid) date]) = true.
Proof.
  unfold held_by. rewrite existsb_app. simpl. unfold holds. simpl.
  now rewrite Z.eqb_refl, !orb_true_r.
Qed.

Lemma checkoutUniform_cases db today sid cs ps cn pn notes :
  (studentExists db sid = false
   /\ checkoutUniform today sid cs ps cn pn notes db
      = (db, Student_does_not_exist))
  \/ (studentExists db sid = true
      /\ (held_by sid (rows (uniforms db)) = true
          \/ max_rowid <= seq (uniforms db))
      /\ checkoutUniform today sid cs ps cn pn notes db
         = (db, Checkout_failed))
  \/ (studentExists db sid = true
      /\ held_by sid (rows (uniforms db)) = false
      /\ seq (uniforms db) < max_rowid
      /\ checkoutUniform today sid cs ps cn pn notes db
         = (set_uniforms db
              (mkTable
                 (rows (uniforms db)
                  ++ [Item.mk (seq (uniforms db) + 1)
                        (mkUniform (bind_text_or_null cs)
                           (bind_text_or_null ps) (bind_text_or_null cn)
                           (bind_text_or_null pn))
                        (bind_text_or_null notes) (Some sid) (Some today)])
                 (seq (uniforms db) + 1)),
            Uniform_checked_out)).
Proof.
  unfold checkoutUniform, insert_uniform.
  destruct (studentExists db sid) eqn:Ex; simpl negb; cbv iota;
    [|now left].
  right.
  destruct (held_by sid (rows (uniforms db))) eqn:Eh; simpl negb.
  { left.
    match goal with
    | |- context [insert_item ?u ?f ?t ?d ?n ?co ?dt] =>
        destruct (insert_item_refused _ u f t d n co dt) as [c [E Hc]];
        [now left | rewrite E]
    end.
    repeat split; auto. now destruct c. }
  destruct (Z.lt_ge_cases (seq (uniforms db)) max_rowid) as [Hlt | Hge].
  - right. rewrite insert_item_accepted by assumption. auto.
  - left.
    match goal with
    | |- context [insert_item ?u ?f ?t ?d ?n ?co ?dt] =>
        destruct (insert_item_refused _ u f t d n co dt) as [c [E Hc]];
        [now right; right | rewrite E]
    end.
    repeat split; auto. now destruct c.
Qed.

Lemma checkoutShako_cases db today sid size notes :
  (studentExists db sid = false
   /\ checkoutShako today sid size notes db = (db, Student_does_not_exist))
  \/ (studentExists db sid = true
      /\ (held_by sid (rows (shakos db)) = true
          \/ max_rowid <= seq (shakos db))
      /\ checkoutShako today sid size notes db = (db, Checkout_failed))
  \/ (studentExists db sid = true
      /\ held_by sid (rows (shakos db)) = false
      /\ seq (shakos db) < max_rowid
      /\ checkoutShako today sid size notes db
         = (set_shakos db
              (mkTable
                 (rows (shakos db)
                  ++ [Item.mk (seq (shakos db) + 1)
                        (mkShako (bind_text_or_null size))
                        (bind_text_or_null notes) (Some sid) (Some today)])
                 (seq (shakos db) + 1)),
            Shako_checked_out)).
Proof.
  unfold checkoutShako, insert_shako.
  destruct (studentExists db sid) eqn:Ex; simpl negb; cbv iota;
    [|now left].
  right.
  destruct (held_by sid (rows (shakos db))) eqn:Eh; simpl negb.
  { left.
    match goal with
    | |- context [insert_item ?u ?f ?t ?d ?n ?co ?dt] =>
        destruct (insert_item_refused _ u f t d n co dt) as [c [E Hc]];
        [now left | rewrite E]
    end.
    repeat split; auto. now destruct c. }
  destruct (Z.lt_ge_cases (seq (shakos db)) max_rowid) as [Hlt | Hge].
  - right. rewrite insert_item_accepted by assumption. auto.
  - left.
    match goal with
    | |- context [insert_item ?u ?f ?t ?d ?n ?co ?dt] =>
        destruct (insert_item_refused _ u f t d n co dt) as [c [E Hc]];
        [now right; right | rewrite E]
    end.
    repeat split; auto. now destruct c.
Qed.

(** X16: checkoutUniform succeeds exactly when the student is on the
    roster, holds no uniform and the key counter of UNIFORMS is not
    exhausted; what the student holds of the other kinds plays no part.
    A refused checkout leaves the database as it was.  A successful one
    adds one row checked out to the student and touches no other table,
    and right after it every further uniform checkout for the same
    student is refused and changes nothing. *)
Theorem checkoutUniform_succeeds_exactly db today sid cs ps cn pn notes :
  (snd (checkoutUniform today sid cs ps cn pn notes db)
   = Uniform_checked_out
   <-> studentExists db sid = true
       /\ held_by sid (rows (uniforms db)) = false
       /\ seq (uniforms db) < max_rowid)
  /\ (snd (checkoutUniform today sid cs ps cn pn notes db)
      <> Uniform_checked_out ->
      fst (checkoutUniform today sid cs ps cn pn notes db) = db)
  /\ (snd (checkoutUniform today sid cs ps cn pn notes db)
      = Uniform_checked_out ->
      fst (checkoutUniform today sid cs ps cn pn notes db)
      = set_uniforms db
          (mkTable
             (rows (uniforms db)
              ++ [Item.mk (seq (uniforms db) + 1)
                    (mkUniform (bind_text_or_null cs) (bind_text_or_null ps)
                       (bind_text_or_null cn) (bind_text_or_null pn))
                    (bind_text_or_null notes) (Some sid) (Some today)])
             (seq (uniforms db) + 1))
      /\ forall today' cs' ps' cn' pn' notes',
           checkoutUniform today' sid cs' ps' cn' pn' notes'
             (fst (checkoutUniform today sid cs ps cn pn notes db))
           = (fst (checkoutUniform today sid cs ps cn pn notes db),
              Checkout_failed)).
Proof.
  destruct (checkoutUniform_cases db today sid cs ps cn pn notes)
    as [[Ex E] | [[Ex [Hh E]] | [Ex [Hh [Hlt E]]]]]; rewrite E; simpl.
  - split; [|split]; try easy. split; [discriminate|].
    intros [H _]. congruence.
  - split; [|split]; try easy. split; [discriminate|].
    intros [_ [H1 H2]]. destruct Hh; [congruence | lia].
  - split; [|split]; try easy. intros _. split; [reflexivity|].
    intros today' cs' ps' cn' pn' notes'.
    match goal with
    | |- checkoutUniform _ _ _ _ _ _ _ ?db1 = _ =>
        destruct (checkoutUniform_cases db1 today' sid cs' ps' cn' pn'
                    notes')
          as [[Ex' _] | [[_ [_ E']] | [_ [Hh' _]]]]
    end.
    + unfold studentExists in *. destruct db; simpl in *. congruence.
    + exact E'.
    + destruct db; simpl in Hh'. now rewrite held_by_new in Hh'.
Qed.

(** X17: checkoutShako succeeds exactly when the student is on the
    roster, holds no shako and the key counter of SHAKOS is not
    exhausted; what the student holds of the other kinds plays no part.
    A refused checkout leaves the database as it was.  A successful one
    adds one row checked out to the student and touches no other table,
    and right after it every further shako checkout for the same student
    is refused and changes nothing. *)
Theorem checkoutShako_succeeds_exactly db today sid size notes :
  (snd (checkoutShako today sid size notes db) = Shako_checked_out
   <-> studentExists db sid = true
       /\ held_by sid (rows (shakos db)) = false
       /\ seq (shakos db) < max_rowid)
  /\ (snd (checkoutShako today sid size notes db) <> Shako_checked_out ->
      fst (checkoutShako today sid size notes db) = db)
  /\ (snd (checkoutShako today sid size notes db) = Shako_checked_out ->
      fst (checkoutShako today sid size notes db)
      = set_shakos db
          (mkTable
             (rows (shakos db)
              ++ [Item.mk (seq (shakos db) + 1)
                    (mkShako (bind_text_or_null size))
                    (bind_text_or_null notes) (Some sid) (Some today)])
             (seq (shakos db) + 1))
      /\ forall today' size' notes',
           checkoutShako today' sid size' notes'
             (fst (checkoutShako today sid size notes db))
           = (fst (checkoutShako today sid size notes db),
              Checkout_failed)).
Proof.
  destruct (checkoutShako_cases db today sid size notes)
    as [[Ex E] | [[Ex [Hh E]] | [Ex [Hh [Hlt E]]]]]; rewrite E; simpl.
  - split; [|split]; try easy. split; [discriminate|].
    intros [H _]. congruence.
  - split; [|split]; try easy. split; [discriminate|].
    intros [_ [H1 H2]]. destruct Hh; [congruence | lia].
  - split; [|split]; try easy. intros _. split; [reflexivity|].
    intros today' size' notes'.
    match goal with
    | |- checkoutShako _ _ _ _ ?db1 = _ =>
        destruct (checkoutShako_cases db1 today' sid size' notes')
          as [[Ex' _] | [[_ [_ E']] | [_ [Hh' _]]]]
    end.
    + unfold studentExists in *. destruct db; simpl in *. congruence.
    + exact E'.
    + destruct db; simpl in Hh'. now rewrite held_by_new in Hh'.
Qed.

(** ** The listings of checkoutInstrument *)

Lemma existsb_weaken A (p q : A -> bool) l :
  (forall x, p x = true -> q x = true) ->
  existsb p l = true -> existsb q l = true.
Proof.
  intros H E. apply existsb_exists in E. destruct E as [x [Hx Hp]].
  apply existsb_exists. exists x. auto.
Qed.

(** X18: the answer to the filter question of checkoutInstrument only
    chooses what is listed.  When the listing for the student's section
    shows a row, the checkout that follows is the same as with the
    listing of all sections, whichever instrument ID is entered. *)
Theorem section_filter_only_restricts_the_listing
    db today studentId section instrumentId :
  getStudentSection db studentId = Some section ->
  any (sqlFiltered db section) = true ->
  checkoutInstrument today studentId 1 instrumentId db
  = checkoutInstrument today studentId 2 instrumentId db.
Proof.
  intros Hs Ha. unfold checkoutInstrument. rewrite Hs.
  change (1 =? 1) with true. change (2 =? 1) with false. cbv iota.
  rewrite Ha.
  assert (any (sqlAll db) = true) as ->; [|reflexivity].
  unfold sqlFiltered, sqlAll in *.
  rewrite any_order_by, any_filter in *.
  revert Ha. apply existsb_weaken.
  intros x Hx. now apply andb_prop in Hx.
Qed.

Lemma section_filter_only_restricts_the_listing_witness :
  checkoutInstrument "2024-09-06" 202 1 2 with_piccolo
  = checkoutInstrument "2024-09-06" 202 2 2 with_piccolo.
Proof.
  apply (section_filter_only_restricts_the_listing with_piccolo
           "2024-09-06" 202 "WOODWIND" 2); reflexivity.
Defined.

Lemma Permutation_filter A (p : A -> bool) l l' :
  Permutation l l' -> Permutation (filter p l) (filter p l').
Proof.
  induction 1; simpl.
  - constructor.
  - destruct (p x); auto.
  - destruct (p x), (p y); auto using perm_swap.
  - eapply perm_trans; eauto.
Qed.

Lemma filter_filter A (p q : A -> bool) l :
  filter q (filter p l) = filter (fun x => p x && q x) l.
Proof.
  induction l as [|a l IH]; simpl; [reflexivity|].
  destruct (p a); simpl; [destruct (q a)|]; now rewrite IH.
Qed.

Lemma filter_map_fst A B (p : A -> bool) (l : list (A * B)) :
  map fst (filter (fun j => p (fst j)) l) = filter p (map fst l).
Proof.
  induction l as [|a l IH]; simpl; [reflexivity|].
  destruct (p (fst a)); simpl; now rewrite IH.
Qed.

Lemma join_types_type db j :
  In j (join_types db) -> type_of_instrument db j.
Proof.
  unfold join_types, type_of_instrument. intros H.
  apply in_flat_map in H. destruct H as [i [_ H]].
  destruct (find _ _) as [ty|] eqn:E; [|easy].
  destruct H as [<- | []]. exact E.
Qed.

(** X19: in a database the program produced, the listing of all
    available instruments shows every instrument with an empty slot once
    and no other, each with the row of INSTRUMENT_TYPES under its type,
    sorted by section, type name and ID.  The listing for a section
    shows the rows of the full listing whose type belongs to that
    section and no other, sorted by type name and ID. *)
Theorem available_instrument_listings db section :
  reachable db ->
  Permutation (map fst (sqlAll db))
    (filter (@available _) (rows (instruments db)))
  /\ Forall (type_of_instrument db) (sqlAll db)
  /\ Sorted (in_order by_section_type_name_id) (sqlAll db)
  /\ Permutation (sqlFiltered db section)
       (filter (fun j => (INSTRUMENT_TYPES.SECTION (snd j) =? section)%string)
          (sqlAll db))
  /\ Sorted (in_order by_type_name_id) (sqlFiltered db section).
Proof.
  intros Hr. pose proof (reachable_wf Hr) as Hwf.
  split; [|split; [|split; [|split]]].
  - unfold sqlAll.
    eapply perm_trans; [apply Permutation_map, order_by_perm|].
    rewrite (filter_map_fst _ _ (@available _)).
    now rewrite join_types_complete.
  - apply Forall_forall. intros j Hj. unfold sqlAll in Hj.
    apply order_by_In, filter_In in Hj. now apply join_types_type.
  - apply order_by_sorted, by_section_type_name_id_antisymmetric.
  - unfold sqlFiltered, sqlAll.
    eapply perm_trans; [apply order_by_perm|].
    rewrite <- filter_filter.
    apply Permutation_filter, Permutation_sym, order_by_perm.
  - apply order_by_sorted, by_type_name_id_antisymmetric.
Qed.

Lemma available_instrument_listings_witness :
  Permutation (map fst (sqlAll with_piccolo))
    (filter (@available _) (rows (instruments with_piccolo)))
  /\ Forall (type_of_instrument with_piccolo) (sqlAll with_piccolo)
  /\ Sorted (in_order by_section_type_name_id) (sqlAll with_piccolo)
  /\ Permutation (sqlFiltered with_piccolo "WOODWIND")
       (filter (fun j => (INSTRUMENT_TYPES.SECTION (snd j) =? "WOODWIND")%string)
          (sqlAll with_piccolo))
  /\ Sorted (in_order by_type_name_id) (sqlFiltered with_piccolo "WOODWIND").
Proof.
  apply (available_instrument_listings with_piccolo "WOODWIND").
  apply (@reach_step sample_db "2024-09-06"
           (AddInstrumentToInventory 1 "SN2" "")).
  - apply session_reachable; [apply reach_init | reflexivity].
  - reflexivity.
Defined.

(** ** What an action leaves alone *)

Ltac action_cases db :=
  simpl run;
  unfold addStudent, addStudent_on, insert_student, insert_or_ignore_compliance,
    setSectionLeader, upsert_section_leader, checkoutInstrument,
    update_checkout, returnInstrument, addInstrumentToInventory,
    insert_instrument, checkoutUniform, insert_uniform, returnUniform,
    checkoutShako, insert_shako, returnShako, update_return,
    updateStudentCompliance, upsert_compliance, insert_item;
  try match goal with
      | |- context [getStudentSection db ?s] =>
          destruct (getStudentSection db s)
      end;
  repeat case_if; simpl.

(** X20: every action leaves alone the tables it has no INSERT or UPDATE
    for, whatever it is given and whether it succeeds or fails: the
    roster actions do not touch the inventory, an action on one kind of
    item does not touch the other kinds nor the roster, the listings and
    reports change nothing, and no action writes to the type catalog. *)
Theorem actions_write_only_their_tables db today op tb :
  writes op tb = false -> same_table tb db (run today op db).
Proof.
  intros H.
  destruct op; destruct tb; try discriminate H; clear H;
    unfold same_table; action_cases db; reflexivity.
Qed.

Lemma actions_write_only_their_tables_witness :
  same_table T_INSTRUMENTS sample_db
    (run "2024-09-06" (CheckoutUniform 101 "40R" "32" "C7" "P7" "")
       sample_db).
Proof.
  apply (actions_write_only_their_tables sample_db "2024-09-06"
           (CheckoutUniform 101 "40R" "32" "C7" "P7" "") T_INSTRUMENTS).
  reflexivity.
Defined.

(** ** Reading a line: trim, upperCopy and readSectionValidated *)

Lemma string_app_nil_r (s : string) : (s ++ "")%string = s.
Proof. induction s as [|c s IH]; simpl; [reflexivity | now rewrite IH]. Qed.

Lemma string_app_assoc (a b c : string) :
  ((a ++ b) ++ c)%string = (a ++ (b ++ c))%string.
Proof. induction a as [|x a IH]; simpl; [reflexivity | now rewrite IH]. Qed.

Lemma string_rev_onto_app s acc :
  string_rev_onto s acc = (string_rev s ++ acc)%string.
Proof.
  unfold string_rev. revert acc.
  induction s as [|c s IH]; intros acc; simpl; [reflexivity|].
  rewrite (IH (String c acc)), (IH (String c "")).
  now rewrite string_app_assoc.
Qed.

Lemma string_rev_cons c s :
  string_rev (String c s) = (string_rev s ++ String c "")%string.
Proof. unfold string_rev at 1. simpl. apply string_rev_onto_app. Qed.

Lemma string_rev_app a b :
  string_rev (a ++ b) = (string_rev b ++ string_rev a)%string.
Proof.
  induction a as [|c a IH]; simpl.
  - now rewrite string_app_nil_r.
  - now rewrite !string_rev_cons, IH, string_app_assoc.
Qed.

Lemma string_rev_involutive s : string_rev (string_rev s) = s.
Proof.
  induction s as [|c s IH]; [reflexivity|].
  now rewrite string_rev_cons, string_rev_app, IH.
Qed.

Lemma all_space_app a b :
  all_space (a ++ b) = all_space a && all_space b.
Proof.
  induction a as [|c a IH]; simpl; [reflexivity|].
  now rewrite IH, andb_assoc.
Qed.

Lemma all_space_rev s : all_space (string_rev s) = all_space s.
Proof.
  induction s as [|c s IH]; [reflexivity|].
  rewrite string_rev_cons, all_space_app, IH. simpl.
  now rewrite andb_true_r, andb_comm.
Qed.

Lemma drop_leading_space_split s :
  exists pre,
    s = (pre ++ drop_leading_space s)%string /\ all_space pre = true.
Proof.
  induction s as [|c s [pre [E Hp]]]; simpl.
  - now exists ""%string.
  - destruct (isspace c) eqn:Ec.
    + exists (String c pre). simpl. rewrite Ec, Hp. now rewrite <- E.
    + now exists ""%string.
Qed.

Lemma drop_leading_space_starts s :
  starts_with_space (drop_leading_space s) = false.
Proof.
  induction s as [|c s IH]; simpl; [reflexivity|].
  destruct (isspace c) eqn:Ec; [exact IH | exact Ec].
Qed.

Lemma drop_leading_space_same s :
  starts_with_space s = false -> drop_leading_space s = s.
Proof. destruct s as [|c s]; simpl; [reflexivity | now intros ->]. Qed.

Lemma drop_leading_space_all s :
  all_space s = true -> drop_leading_space s = ""%string.
Proof.
  induction s as [|c s IH]; simpl; [reflexivity|].
  intros H. apply andb_prop in H. destruct H as [-> H]. auto.
Qed.

Lemma drop_leading_space_app pre s :
  all_space pre = true ->
  drop_leading_space (pre ++ s) = drop_leading_space s.
Proof.
  induction pre as [|c pre IH]; simpl; [reflexivity|].
  intros H. apply andb_prop in H. destruct H as [-> H]. auto.
Qed.

Lemma drop_leading_space_app_l s post :
  all_space s = false ->
  drop_leading_space (s ++ post) = (drop_leading_space s ++ post)%string.
Proof.
  induction s as [|c s IH]; simpl; [discriminate|].
  destruct (isspace c); simpl; auto.
Qed.

Lemma trim_split s :
  exists pre post,
    s = (pre ++ trim s ++ post)%string
    /\ all_space pre = true /\ all_space post = true.
Proof.
  destruct (drop_leading_space_split s) as [pre [E Hp]].
  destruct (drop_leading_space_split (string_rev (drop_leading_space s)))
    as [q [Eq Hq]].
  exists pre, (string_rev q). split; [|split]; auto.
  - unfold trim. rewrite <- string_rev_app, <- Eq.
    now rewrite string_rev_involutive.
  - now rewrite all_space_rev.
Qed.

Lemma trim_trimmed s : trimmed (trim s).
Proof.
  unfold trimmed, trim. rewrite string_rev_involutive.
  split; [|apply drop_leading_space_starts].
  destruct (drop_leading_space_split (string_rev (drop_leading_space s)))
    as [q [Eq Hq]].
  pose proof (drop_leading_space_starts s) as Hs.
  apply (f_equal string_rev) in Eq.
  rewrite string_rev_involutive, string_rev_app in Eq.
  destruct (string_rev (drop_leading_space (string_rev
                                              (drop_leading_space s))))
    as [|c w]; [reflexivity|].
  rewrite Eq in Hs. exact Hs.
Qed.

Lemma trim_of_trimmed s : trimmed s -> trim s = s.
Proof.
  intros [H1 H2]. unfold trim.
  rewrite (drop_leading_space_same s H1).
  rewrite (drop_leading_space_same _ H2).
  apply string_rev_involutive.
Qed.

(** X21: trim removes white space at the two ends and nothing else: the
    line is the result between two runs of white space, the result
    neither starts nor ends with white space, and trimming it again
    changes nothing. *)
Theorem trim_removes_the_outer_space s :
  (exists pre post,
     s = (pre ++ trim s ++ post)%string
     /\ all_space pre = true /\ all_space post = true)
  /\ trimmed (trim s)
  /\ trim (trim s) = trim s.
Proof.
  split; [apply trim_split|]. split; [apply trim_trimmed|].
  apply trim_of_trimmed, trim_trimmed.
Qed.

Lemma trim_all_space s : all_space s = true -> trim s = ""%string.
Proof.
  intros H. unfold trim. now rewrite (drop_leading_space_all s H).
Qed.

Lemma trim_padded pre s post :
  all_space pre = true -> all_space post = true ->
  trim (pre ++ s ++ post) = trim s.
Proof.
  intros Hp Hq.
  destruct (all_space s) eqn:Es.
  - rewrite !trim_all_space; auto.
    now rewrite !all_space_app, Hp, Es, Hq.
  - unfold trim. rewrite drop_leading_space_app by assumption.
    rewrite drop_leading_space_app_l by assumption.
    rewrite string_rev_app.
    rewrite drop_leading_space_app by now rewrite all_space_rev.
    reflexivity.
Qed.

Lemma isspace_toupper c : isspace (toupper c) = isspace c.
Proof. destruct c as [[] [] [] [] [] [] [] []]; reflexivity. Qed.

Lemma toupper_toupper c : toupper (toupper c) = toupper c.
Proof. destruct c as [[] [] [] [] [] [] [] []]; reflexivity. Qed.

Lemma upperCopy_upperCopy s : upperCopy (upperCopy s) = upperCopy s.
Proof.
  induction s as [|c s IH]; simpl; [reflexivity|].
  now rewrite toupper_toupper, IH.
Qed.

Lemma upperCopy_app a b :
  upperCopy (a ++ b) = (upperCopy a ++ upperCopy b)%string.
Proof. induction a as [|c a IH]; simpl; [reflexivity | now rewrite IH]. Qed.

Lemma upperCopy_rev s : upperCopy (string_rev s) = string_rev (upperCopy s).
Proof.
  induction s as [|c s IH]; [reflexivity|].
  simpl upperCopy. rewrite !string_rev_cons, upperCopy_app, IH.
  reflexivity.
Qed.

Lemma upperCopy_drop s :
  upperCopy (drop_leading_space s) = drop_leading_space (upperCopy s).
Proof.
  induction s as [|c s IH]; simpl; [reflexivity|].
  rewrite isspace_toupper. destruct (isspace c); [exact IH | reflexivity].
Qed.

Lemma upperCopy_trim s : upperCopy (trim s) = trim (upperCopy s).
Proof.
  unfold trim.
  now rewrite upperCopy_rev, upperCopy_drop, upperCopy_rev, upperCopy_drop.
Qed.

Lemma section_allowed_In s : section_allowed s = true -> In s allowed.
Proof.
  unfold section_allowed. intros H.
  apply existsb_exists in H. destruct H as [x [Hx He]].
  apply String.eqb_eq in He. now subst x.
Qed.

(** X22: what readSectionValidated makes of a line does not depend on
    white space around the text nor on the case of its letters, and a
    section it returns is one of the five names, spelled as in the list,
    which it would accept unchanged. *)
Theorem readSectionValidated_normalises pre line post s :
  all_space pre = true -> all_space post = true ->
  readSectionValidated (pre ++ line ++ post) = readSectionValidated line
  /\ readSectionValidated (upperCopy line) = readSectionValidated line
  /\ (readSectionValidated line = Some s ->
      In s allowed /\ readSectionValidated s = Some s).
Proof.
  intros Hp Hq. split; [|split].
  - unfold readSectionValidated. now rewrite trim_padded.
  - unfold readSectionValidated.
    now rewrite <- upperCopy_trim, upperCopy_upperCopy.
  - intros H. apply readSectionValidated_allowed, section_allowed_In in H.
    split; [exact H|].
    simpl in H.
    destruct H as [<- | [<- | [<- | [<- | [<- | []]]]]]; reflexivity.
Qed.

Lemma readSectionValidated_normalises_witness :
  readSectionValidated ("  " ++ "brass" ++ " ")%string
  = readSectionValidated "brass"
  /\ readSectionValidated (upperCopy "brass") = readSectionValidated "brass"
  /\ (readSectionValidated "brass" = Some "BRASS" ->
      In "BRASS" allowed /\ readSectionValidated "BRASS" = Some "BRASS").
Proof.
  apply (readSectionValidated_normalises "  " "brass" " " "BRASS");
    reflexivity.
Defined.

(** ** The profiles of the other students *)

Lemma findStudentById_ext db db' id :
  find (fun s => STUDENTS.STUDENT_ID s =? id) (students db')
  = find (fun s => STUDENTS.STUDENT_ID s =? id) (students db) ->
  find (compliance_key id) (compliance db')
  = find (compliance_key id) (compliance db) ->
  findStudentById db' id = findStudentById db id.
Proof.
  intros Hs Hc. unfold findStudentById, left_join_compliance.
  rewrite !find_map. simpl. rewrite Hs.
  destruct (find _ (students db)) as [s|] eqn:E; [|reflexivity].
  apply find_some in E. destruct E as [_ E]. apply Z.eqb_eq in E.
  simpl. now rewrite E, Hc.
Qed.

Lemma find_app_old A (p : A -> bool) l x :
  p x = false -> find p (l ++ [x]) = find p l.
Proof.
  intros H. induction l as [|a l IH]; simpl; [now rewrite H|].
  now destruct (p a).
Qed.

Lemma find_other_key id id' (f : COMPLIANCE.row -> COMPLIANCE.row) l :
  (id =? id') = false ->
  (forall c, COMPLIANCE.STUDENT_ID (f c) = COMPLIANCE.STUDENT_ID c) ->
  find (compliance_key id')
    (map (fun c => if compliance_key id c then f c else c) l)
  = find (compliance_key id') l.
Proof.
  intros Hne Hf. induction l as [|a l IH]; simpl; [reflexivity|].
  destruct (compliance_key id a) eqn:Ea; simpl.
  - assert (compliance_key id' (f a) = false) as ->
      by (unfold compliance_key in *; rewrite Hf;
          apply Z.eqb_eq in Ea; now rewrite Ea).
    assert (compliance_key id' a = false) as ->
      by (unfold compliance_key in *; apply Z.eqb_eq in Ea;
          now rewrite Ea).
    exact IH.
  - now rewrite IH.
Qed.

(** X23: what findStudentById prints for a student changes only through
    addStudent and updateStudentCompliance called with that student's
    ID: adding or updating another student, and every inventory or
    section-leader action, leaves the answer as it was, also when the
    answer is that there is no such student. *)
Theorem other_profiles_are_untouched db today op id :
  concerns op id = false ->
  findStudentById (run today op db) id = findStudentById db id.
Proof.
  intros H. apply findStudentById_ext.
  - destruct op; simpl in H; action_cases db; try reflexivity.
    all: try (apply find_app_old; simpl; assumption).
  - destruct op; simpl in H; action_cases db; try reflexivity.
    all: try (apply find_app_old; unfold compliance_key; simpl; assumption).
    all: try (apply find_other_key; [assumption | reflexivity]).
Qed.

Lemma other_profiles_are_untouched_witness :
  findStudentById
    (run "2024-09-07" (UpdateStudentCompliance 101 15 d4_0 1) sample_db) 202
  = findStudentById sample_db 202.
Proof.
  apply (other_profiles_are_untouched sample_db "2024-09-07"
           (UpdateStudentCompliance 101 15 d4_0 1) 202).
  reflexivity.
Defined.

(** ** Uniforms and shakos on the shelf *)

(** X24: in a database the program produced, a uniform or a shako that
    is on the shelf stays there whatever is done afterwards: through
    every further session its row is in the table unchanged, so it is
    never handed out again. *)
Theorem shelved_uniforms_and_shakos_stay_shelved db ops :
  reachable db ->
  forallb (fun o => input_ok (snd o)) ops = true ->
  (forall r, In r (rows (uniforms db)) -> available r = true ->
             In r (rows (uniforms (session ops db))))
  /\ (forall r, In r (rows (shakos db)) -> available r = true ->
                In r (rows (shakos (session ops db)))).
Proof.
  revert db. induction ops as [|o ops IH]; intros db Hr Hok.
  - simpl. auto.
  - simpl in Hok. apply andb_prop in Hok. destruct Hok as [Ho Hops].
    assert (reachable (run (fst o) (snd o) db)) as Hr'
      by now apply reach_step.
    destruct (IH _ Hr' Hops) as [IHu IHk].
    destruct (shelved_stays_shelved db (fst o) (snd o) (reachable_wf Hr))
      as [Hu Hk].
    change (session (o :: ops) db)
      with (session ops (run (fst o) (snd o) db)).
    split; intros r Hin Ha; [apply IHu | apply IHk]; auto.
Qed.

Lemma shelved_uniforms_and_shakos_stay_shelved_witness :
  In uniform_on_shelf
     (rows (uniforms (session later_session (fst uniform_back)))).
Proof.
  destruct (shelved_uniforms_and_shakos_stay_shelved (fst uniform_back)
              later_session) as [Hu _].
  - apply (@reach_step (fst uniform_to_ada) "2024-09-07" (ReturnUniform 1)).
    + apply (@reach_step sample_db "2024-09-06"
               (CheckoutUniform 101 "40R" "32" "C7" "P7" "")).
      * apply session_reachable; [apply reach_init | reflexivity].
      * reflexivity.
    + reflexivity.
  - reflexivity.
  - apply (Hu uniform_on_shelf); [cbv; left; reflexivity | reflexivity].
Defined.
